(** * Stock screener and backtest engine: a shallow embedding

    The JavaScript sources embedded here are

    - [src/indicators/vao.js]                    (module [Vao]),
    - [screener/three-dimensional-screener.js]   (module [Screener]),
    - [backtest/backtest-engine.js]              (module [Backtest]).

    JavaScript numbers are embedded as exact rationals ([Q]): every
    comparison, sum, product and guarded quotient of the source is the
    same operation on [Q].  Binary rounding of IEEE doubles is therefore
    idealised away, and [Math.sqrt], which leaves the rationals, is a
    section variable of the one function that calls it.  Every quotient
    the theorems below talk about has a divisor that the source (or a
    hypothesis of the theorem) keeps non-zero, so the convention
    [x / 0 = 0] of [Q] never stands in for JavaScript's [NaN] or
    [Infinity]. *)

From Stdlib Require Import String Ascii.
From Stdlib Require Import QArith Qround Qabs Qminmax ZArith.
From Stdlib Require Import List Bool Lia Lqa.
From Stdlib Require Import Sorted Permutation.
Import ListNotations.

Local Open Scope Q_scope.

(** ** JavaScript numbers and the [Math] object *)

Module JS.

(** [a <= b], [a < b], [a >= b], [a > b] on numbers. *)
Definition leb (a b : Q) : bool := Qle_bool a b.
Definition ltb (a b : Q) : bool := negb (Qle_bool b a).
Definition geb (a b : Q) : bool := leb b a.
Definition gtb (a b : Q) : bool := ltb b a.

(** [Math.floor] and [Math.round]; the latter rounds to the nearest
    integer and resolves ties towards positive infinity. *)
Definition Math_floor (x : Q) : Q := inject_Z (Qfloor x).
Definition Math_round (x : Q) : Q := inject_Z (Qfloor (x + (1 # 2))).

Definition Math_abs (x : Q) : Q := Qabs x.
Definition Math_min (a b : Q) : Q := Qmin a b.
Definition Math_max (a b : Q) : Q := Qmax a b.
Definition Math_min3 (a b c : Q) : Q := Qmin (Qmin a b) c.

(** The idiom [Math.round(x * 100) / 100]. *)
Definition round2 (x : Q) : Q := Math_round (x * 100) / 100.

(** [arr.reduce((s, x) => s + x, 0)] *)
Definition sum (xs : list Q) : Q := fold_left Qplus xs 0.

(** A number that may be [Infinity]: only the profit factor needs it. *)
Inductive ext : Type :=
| Fin (q : Q)
| Infinity.

(** [Math.round(x * 100) / 100] on such a number: [Infinity] stays. *)
Definition ext_round2 (x : ext) : ext :=
  match x with
  | Fin q => Fin (round2 q)
  | Infinity => Infinity
  end.

(** Completion of a JavaScript call: a value, or a thrown exception. *)
Inductive error : Type :=
| TypeError          (* a property read on [undefined] *)
| InsufficientData.  (* [throw new Error(...)] on a short series *)

Inductive result (A : Type) : Type :=
| Ok (a : A)
| Throw (e : error).
Arguments Ok {A} a.
Arguments Throw {A} e.

Definition bind {A B : Type} (r : result A) (k : A -> result B) : result B :=
  match r with
  | Ok a => k a
  | Throw e => Throw e
  end.

(** [data[i]] followed by a property read: a [TypeError] out of range. *)
Definition get {A : Type} (data : list A) (i : nat) : result A :=
  match nth_error data i with
  | Some a => Ok a
  | None => Throw TypeError
  end.

End JS.

Notation "x <- r ;; k" := (JS.bind r (fun x => k))
  (at level 61, r at next level, right associativity).

(** ** Arrays *)

Module Arr.

(** [arr.sort((a, b) => key(b) - key(a))]: descending by a numeric key.
    [Array.prototype.sort] is stable, and a stable sort by a key has
    one possible outcome; it is computed here by insertion, an element
    going before the later ones whose key is not larger. *)
Fixpoint insertDesc {A : Type} (key : A -> Q) (a : A) (sorted : list A)
  : list A :=
  match sorted with
  | [] => [a]
  | b :: rest =>
      if JS.gtb (key b) (key a)
      then b :: insertDesc key a rest
      else a :: sorted
  end.

Definition sortDesc {A : Type} (key : A -> Q) (arr : list A) : list A :=
  fold_right (insertDesc key) [] arr.

End Arr.

(** ** Price bars (rows of [daily_prices]) *)

Record PriceBar : Type := mkBar {
  symbol : string;
  date : string;
  open : Q;
  high : option Q;      (* read as [bar.high || bar.close]: may be missing *)
  low : Q;
  close : Q;
  volume : Q
}.

(** ** [src/indicators/vao.js] *)

Module Vao.

(** [average(arr)] *)
Definition average (arr : list Q) : Q :=
  match arr with
  | [] => 0
  | _ => JS.sum arr / inject_Z (Z.of_nat (length arr))
  end.

Record Options : Type := mkOptions {
  totalShares : option Q;   (* [null] by default *)
  shortPeriod : nat;
  longPeriod : nat
}.

Definition defaultOptions : Options :=
  {| totalShares := None; shortPeriod := 5; longPeriod := 20 |}.

Inductive Signal : Type := STRONG | MODERATE | WEAK.

Record Details : Type := mkDetails {
  volumeRatio5 : option Q;
  volumeRatio20 : option Q;
  priceChange : Q;
  turnoverRate : option Q;
  todayVolume : Q;
  avgVolume5 : Q;
  avgVolume20 : Q
}.

Record VAOResult : Type := mkVAO {
  score : Q;
  signal : Signal;
  details : Details
}.

(** The day-over-day change in percent, guarded as in the source. *)
Definition priceChangePct (today yesterday : PriceBar) : Q :=
  if JS.gtb (close yesterday) 0
  then ((close today - close yesterday) / close yesterday) * 100
  else 0.

(** [totalShares && totalShares > 0 ? today.volume / totalShares * 100 : null] *)
Definition turnoverPct (today : PriceBar) (shares : option Q) : option Q :=
  match shares with
  | Some s => if JS.gtb s 0 then Some ((volume today / s) * 100) else None
  | None => None
  end.

Definition add_if (c : bool) (points : Q) (score : Q) : Q :=
  if c then score + points else score.

Definition calculateVAO (data : list PriceBar) (options : Options)
  : JS.result VAOResult :=
  if (length data <? longPeriod options)%nat then JS.Throw JS.InsufficientData
  else
    today <- JS.get data 0 ;;
    yesterday <- JS.get data 1 ;;
    let volumes := map volume data in
    let avgVolume5 := average (firstn (shortPeriod options) volumes) in
    let avgVolume20 := average (firstn (longPeriod options) volumes) in
    let priceChange := priceChangePct today yesterday in
    let turnoverRate := turnoverPct today (totalShares options) in
    let score := 0 in
    let score :=
      add_if (JS.gtb avgVolume5 0 && JS.gtb (volume today) (avgVolume5 * 1.5)) 25 score in
    let score :=
      add_if (JS.gtb avgVolume20 0 && JS.gtb (volume today) (avgVolume20 * 2.0)) 25 score in
    let score := add_if (JS.gtb priceChange 3) 15 score in
    let score := add_if (JS.gtb priceChange 5) 15 score in
    let score :=
      match turnoverRate with
      | Some t => add_if (JS.gtb t 10) 10 (add_if (JS.gtb t 5) 10 score)
      | None => score
      end in
    let signal :=
      if JS.geb score 70 then STRONG
      else if JS.geb score 50 then MODERATE
      else WEAK in
    JS.Ok {|
      score := score;
      signal := signal;
      details := {|
        volumeRatio5 :=
          if JS.gtb avgVolume5 0 then Some (volume today / avgVolume5) else None;
        volumeRatio20 :=
          if JS.gtb avgVolume20 0 then Some (volume today / avgVolume20) else None;
        priceChange := JS.round2 priceChange;
        turnoverRate := option_map JS.round2 turnoverRate;
        todayVolume := volume today;
        avgVolume5 := JS.Math_round avgVolume5;
        avgVolume20 := JS.Math_round avgVolume20
      |}
    |}.

Record BatchEntry : Type := mkBatch {
  bsymbol : string;
  bresult : VAOResult
}.

(** The loop of [calculateVAOBatch] over [Object.entries(stocksData)],
    given in their enumeration order; [sharesMap[symbol]] may be
    missing, and a symbol whose calculation throws is skipped. *)
Fixpoint batchResults (entries : list (string * list PriceBar))
  (sharesMap : string -> option Q) : list BatchEntry :=
  match entries with
  | [] => []
  | (symbol, data) :: rest =>
      match calculateVAO data
              {| totalShares := sharesMap symbol;
                 shortPeriod := 5; longPeriod := 20 |} with
      | JS.Ok result =>
          {| bsymbol := symbol; bresult := result |} :: batchResults rest sharesMap
      | JS.Throw _ => batchResults rest sharesMap
      end
  end.

Definition calculateVAOBatch (stocksData : list (string * list PriceBar))
  (sharesMap : string -> option Q) : list BatchEntry :=
  Arr.sortDesc (fun r => score (bresult r)) (batchResults stocksData sharesMap).

End Vao.

(** ** Numbers that may be [NaN] *)

Module Nan.

(** A number or [NaN] ([None]); reading past the end of an array of
    numbers gives [undefined], which arithmetic turns into [NaN]. *)
Definition num : Type := option Q.

Definition sub (a b : num) : num :=
  match a, b with
  | Some x, Some y => Some (x - y)
  | _, _ => None
  end.

Definition add (a b : num) : num :=
  match a, b with
  | Some x, Some y => Some (x + y)
  | _, _ => None
  end.

(** [a > b]: false as soon as one side is [NaN]. *)
Definition gtb (a b : num) : bool :=
  match a, b with
  | Some x, Some y => JS.gtb x y
  | _, _ => false
  end.

(** [Math.round(x * 100) / 100] *)
Definition round2 (a : num) : num := option_map JS.round2 a.

(** [average(arr)] of [vao.js] on such numbers. *)
Definition average (arr : list num) : num :=
  match arr with
  | [] => Some 0
  | _ =>
      match fold_left add arr (Some 0) with
      | Some total => Some (total / inject_Z (Z.of_nat (length arr)))
      | None => None
      end
  end.

End Nan.

(** ** [indicators/momentum.js] *)

Module Momentum.

Record Options : Type := mkOptions {
  period : nat;
  maPeriod : nat
}.

Definition defaultOptions : Options := {| period := 10; maPeriod := 5 |}.

Inductive Direction : Type := ACCELERATING | DECELERATING.

Inductive Signal : Type := STRONG_BUY | BUY | HOLD | WEAK.

Record MTMResult : Type := mkMTM {
  mtm : Nan.num;
  mtmma : Nan.num;
  direction : Direction;
  signal : Signal;
  signalStrength : Q
}.

Definition calculateMTM (data : list PriceBar) (options : Options)
  : JS.result MTMResult :=
  let minRequired := (period options + maPeriod options)%nat in
  if (length data <? minRequired)%nat then JS.Throw JS.InsufficientData
  else
    let closes := map close data in
    let mtm := Nan.sub (nth_error closes 0) (nth_error closes (period options)) in
    let mtmSeries :=
      map (fun i => Nan.sub (nth_error closes i)
                            (nth_error closes (i + period options)))
          (seq 0 (maPeriod options)) in
    let mtmma := Nan.average mtmSeries in
    let direction := if Nan.gtb mtm mtmma then ACCELERATING else DECELERATING in
    let signalStrength := 0 in
    let signalStrength :=
      Vao.add_if (Nan.gtb mtm (Some 0) && Nan.gtb mtmma (Some 0)) 40 signalStrength in
    let signalStrength := Vao.add_if (Nan.gtb mtm mtmma) 30 signalStrength in
    let signalStrength :=
      Vao.add_if (Nan.gtb (nth_error closes 0) (nth_error closes 1)) 30
        signalStrength in
    let signal :=
      if JS.geb signalStrength 70 then STRONG_BUY
      else if JS.geb signalStrength 50 then BUY
      else if JS.geb signalStrength 30 then HOLD
      else WEAK in
    JS.Ok {| mtm := Nan.round2 mtm;
             mtmma := Nan.round2 mtmma;
             direction := direction;
             signal := signal;
             signalStrength := signalStrength |}.

Inductive Trend : Type := ABOVE | BELOW.

Record MAResult : Type := mkMA {
  value : Q;
  maperiod : nat;
  trend : Trend;
  deviation : Q
}.

Definition calculateMA (data : list PriceBar) (period : nat)
  : JS.result MAResult :=
  if (length data <? period)%nat then JS.Throw JS.InsufficientData
  else
    let closes := map close (firstn period data) in
    let value := Vao.average closes in
    today <- JS.get data 0 ;;
    let currentPrice := close today in
    let trend := if JS.geb currentPrice value then ABOVE else BELOW in
    let deviation :=
      if JS.gtb value 0
      then JS.Math_round (((currentPrice - value) / value) * 10000) / 100
      else 0 in
    JS.Ok {| value := JS.round2 value;
             maperiod := period;
             trend := trend;
             deviation := deviation |}.

Inductive Alignment : Type := BULLISH | BEARISH | MIXED.

Record MASystem : Type := mkSystem {
  ma5 : MAResult;
  ma10 : MAResult;
  ma20 : MAResult;
  ma60 : MAResult;
  alignment : Alignment;
  aboveMA20 : bool
}.

Definition calculateMASystem (data : list PriceBar) : JS.result MASystem :=
  if (length data <? 60)%nat then JS.Throw JS.InsufficientData
  else
    ma5 <- calculateMA data 5 ;;
    ma10 <- calculateMA data 10 ;;
    ma20 <- calculateMA data 20 ;;
    ma60 <- calculateMA data 60 ;;
    let bullish :=
      JS.gtb (value ma5) (value ma10) && JS.gtb (value ma10) (value ma20) &&
      JS.gtb (value ma20) (value ma60) in
    let bearish :=
      JS.ltb (value ma5) (value ma10) && JS.ltb (value ma10) (value ma20) &&
      JS.ltb (value ma20) (value ma60) in
    let alignment :=
      if bullish then BULLISH else if bearish then BEARISH else MIXED in
    today <- JS.get data 0 ;;
    JS.Ok {| ma5 := ma5; ma10 := ma10; ma20 := ma20; ma60 := ma60;
             alignment := alignment;
             aboveMA20 := JS.geb (close today) (value ma20) |}.

End Momentum.

(** ** [screener/three-dimensional-screener.js] *)

Module Screener.

Definition WEIGHTS_TECHNICAL : Q := 0.40.
Definition WEIGHTS_INSTITUTIONAL : Q := 0.30.
Definition WEIGHTS_FUNDAMENTAL : Q := 0.30.

Definition TIER_THRESHOLDS_TIER1 : Q := 75.
Definition TIER_THRESHOLDS_TIER2 : Q := 60.
Definition TIER_THRESHOLDS_TIER3 : Q := 45.

Definition TIER1_MIN_DIMENSION : Q := 60.
Definition TIER2_MIN_DIMENSION : Q := 50.

Record Config : Type := mkConfig {
  minAvgVolume : Q;
  minPrice : Q;
  topN : nat
}.

Definition FILTER_DEFAULTS : Config :=
  {| minAvgVolume := 1000; minPrice := 10; topN := 20 |}.

Inductive Tier : Type := TIER1 | TIER2 | TIER3 | EXCLUDED.

(** [RECOMMENDATION.BUY], [.WATCH], [.AVOID] *)
Inductive Recommendation : Type := BUY | WATCH | AVOID.

(** *** The fundamental scorer *)

(** A property of the snapshot object: missing ([undefined]), SQL
    [NULL] read back as [null], or a number. *)
Inductive field : Type :=
| Undefined
| Null
| Num (q : Q).

Record FundamentalData : Type := mkFundamental {
  revenueGrowthMoM : field;
  revenueGrowthYoY : field;
  eps : field;
  epsPrevYear : field;
  peRatio : field
}.

(** [x !== undefined && x !== null] *)
Definition present (x : field) : option Q :=
  match x with
  | Num q => Some q
  | Undefined | Null => None
  end.

(** [ToNumber]: [null] is [0], [undefined] is [NaN] ([None]). *)
Definition toNumber (x : field) : option Q :=
  match x with
  | Num q => Some q
  | Null => Some 0
  | Undefined => None
  end.

(** [x > c], false on [NaN]. *)
Definition field_gtb (x : field) (c : Q) : bool :=
  match toNumber x with
  | Some q => JS.gtb q c
  | None => false
  end.

Definition revenueScoreOf (yoy : Q) : Q :=
  if JS.gtb yoy 30 then 100
  else if JS.gtb yoy 15 then 80
  else if JS.gtb yoy 5 then 65
  else if JS.gtb yoy 0 then 55
  else if JS.gtb yoy (-10) then 35
  else 15.

Definition momScoreOf (mom : Q) : Q :=
  if JS.gtb mom 20 then 90
  else if JS.gtb mom 10 then 75
  else if JS.gtb mom 0 then 60
  else if JS.gtb mom (-10) then 40
  else 20.

Definition epsScoreOf (epsGrowth : Q) : Q :=
  if JS.gtb epsGrowth 30 then 100
  else if JS.gtb epsGrowth 15 then 80
  else if JS.gtb epsGrowth 0 then 65
  else if JS.gtb epsGrowth (-15) then 35
  else 15.

Definition peScoreOf (pe : Q) : Q :=
  if JS.ltb pe 10 then 85
  else if JS.ltb pe 15 then 75
  else if JS.ltb pe 20 then 60
  else if JS.ltb pe 30 then 45
  else 25.

Record FundamentalDetails : Type := mkFDetails {
  revenueScore : Q;
  momScore : Q;
  epsScore : Q;
  epsGrowth : option Q;
  peScore : Q
}.

Record FundamentalResult : Type := mkFResult {
  fscore : Q;
  fdetails : option FundamentalDetails   (* [None]: only the "no data" note *)
}.

(** [x !== undefined] *)
Definition defined (x : field) : bool :=
  match x with
  | Undefined => false
  | Null | Num _ => true
  end.

(** The EPS branch.  Its test is
    [eps !== undefined && epsPrev !== undefined && epsPrev > 0], which
    lets [eps === null] through; the growth is then
    [((eps - epsPrev) / epsPrev) * 100] with [null] read as [0]. *)
Definition epsGrowthOf (eps epsPrev : field) : option Q :=
  if defined eps && defined epsPrev && field_gtb epsPrev 0 then
    match toNumber eps, toNumber epsPrev with
    | Some e, Some p => Some (((e - p) / p) * 100)
    | _, _ => None
    end
  else None.

Definition scoreFundamental (fundamentalData : option FundamentalData)
  : FundamentalResult :=
  match fundamentalData with
  | None => {| fscore := 50; fdetails := None |}
  | Some d =>
      let score := 0 in
      let revenueScore :=
        match present (revenueGrowthYoY d) with
        | Some yoy => revenueScoreOf yoy
        | None => 50
        end in
      let score := score + revenueScore * 0.40 in
      let momScore :=
        match present (revenueGrowthMoM d) with
        | Some mom => momScoreOf mom
        | None => 50
        end in
      let score := score + momScore * 0.15 in
      let growth := epsGrowthOf (eps d) (epsPrevYear d) in
      let epsScore :=
        match growth with
        | Some g => epsScoreOf g
        | None => 50
        end in
      let score := score + epsScore * 0.30 in
      let peScore :=
        match present (peRatio d) with
        | Some pe => if JS.gtb pe 0 then peScoreOf pe else 50
        | None => 50
        end in
      let score := score + peScore * 0.15 in
      {| fscore := JS.Math_round (JS.Math_min 100 (JS.Math_max 0 score));
         fdetails := Some {| revenueScore := revenueScore;
                             momScore := momScore;
                             epsScore := epsScore;
                             epsGrowth := option_map JS.round2 growth;
                             peScore := peScore |} |}
  end.

(** *** The composite scorer *)

Record CompositeResult : Type := mkComposite {
  totalScore : Q;
  tier : Tier;
  recommendation : Recommendation;
  weights : Q * Q * Q;
  dimensions : Q * Q * Q
}.

Definition calculateCompositeScore
  (technicalScore institutionalScore fundamentalScore : Q) : CompositeResult :=
  let totalScore :=
    JS.Math_round (technicalScore * WEIGHTS_TECHNICAL +
                   institutionalScore * WEIGHTS_INSTITUTIONAL +
                   fundamentalScore * WEIGHTS_FUNDAMENTAL) in
  let minDimension :=
    JS.Math_min3 technicalScore institutionalScore fundamentalScore in
  let '(tier, recommendation) :=
    if JS.geb totalScore TIER_THRESHOLDS_TIER1 &&
       JS.geb minDimension TIER1_MIN_DIMENSION then (TIER1, BUY)
    else if JS.geb totalScore TIER_THRESHOLDS_TIER2 &&
            JS.geb minDimension TIER2_MIN_DIMENSION then (TIER2, WATCH)
    else if JS.geb totalScore TIER_THRESHOLDS_TIER3 then (TIER3, WATCH)
    else (EXCLUDED, AVOID) in
  {| totalScore := JS.Math_min 100 (JS.Math_max 0 totalScore);
     tier := tier;
     recommendation := recommendation;
     weights := (WEIGHTS_TECHNICAL, WEIGHTS_INSTITUTIONAL, WEIGHTS_FUNDAMENTAL);
     dimensions := (technicalScore, institutionalScore, fundamentalScore) |}.

(** *** The FILTER stage *)

(** One row of [SELECT close, volume FROM daily_prices ...]. *)
Record Row : Type := mkRow {
  rclose : Q;
  rvolume : Q
}.

(** The database as the filter sees it: for a symbol and a date, the
    rows up to that date, newest first, or [None] when the query
    throws.  [LIMIT 5] is applied by the caller below. *)
Definition Db : Type := string -> string -> option (list Row).

(** The body of the [for] loop for one symbol: does it survive? *)
Definition passesFilter (config : Config) (db : Db) (date : string)
  (symbol : string) : bool :=
  if negb (String.length symbol =? 4)%nat then false
  else
    match db symbol date with
    | None => false
    | Some rows =>
        let recent := firstn 5 rows in
        if (length recent <? 5)%nat then false
        else
          match recent with
          | [] => false
          | latest :: _ =>
              let avgVolume :=
                fold_left (fun s r => s + rvolume r) recent 0
                / inject_Z (Z.of_nat (length recent)) in
              let latestPrice := rclose latest in
              JS.geb avgVolume (minAvgVolume config) &&
              JS.geb latestPrice (minPrice config)
          end
    end.

Fixpoint _applyFilters (config : Config) (db : Db) (symbols : list string)
  (date : string) : list string :=
  match symbols with
  | [] => []
  | symbol :: rest =>
      if passesFilter config db date symbol
      then symbol :: _applyFilters config db rest date
      else _applyFilters config db rest date
  end.

(** *** The technical scorer *)

Inductive EntryType : Type := BREAKOUT | PULLBACK_BOUNCE | NONE.

Record EntrySignal : Type := mkEntry {
  triggered : bool;
  condA : bool;
  condB : bool;
  condC : bool;
  entryType : EntryType
}.

(** [d.high || d.close] *)
Definition barHigh (d : PriceBar) : Q :=
  match high d with
  | Some h => if Qeq_bool h 0 then close d else h
  | None => close d
  end.

(** [Math.max(...xs)]; without arguments it is [-Infinity] ([None]). *)
Definition maxOf (xs : list Q) : option Q :=
  match xs with
  | [] => None
  | x :: rest => Some (fold_left Qmax rest x)
  end.

(** [_evaluateEntrySignal]; the parameter [vao] is not read.  The
    first read of [today.close] throws on an empty series, and
    [yesterday.close] is only read when [today.close > today.open]. *)
Definition _evaluateEntrySignal (data : list PriceBar) (vao : Vao.VAOResult)
  (mtm : Momentum.MTMResult) (ma : Momentum.MASystem) : JS.result EntrySignal :=
  let avgVolume5 := fold_left (fun s d => s + volume d) (firstn 5 data) 0 / 5 in
  let recentHigh := maxOf (map barHigh (firstn 20 (skipn 1 data))) in
  today <- JS.get data 0 ;;
  let condA :=
    match recentHigh with
    | Some h => JS.gtb (close today) h
    | None => true
    end && JS.gtb (volume today) (avgVolume5 * 1.2) in
  let condB :=
    JS.gtb (close today) (Momentum.value (Momentum.ma10 ma)) &&
    Nan.gtb (Momentum.mtm mtm) (Some 0) &&
    match Momentum.direction mtm with
    | Momentum.ACCELERATING => true
    | Momentum.DECELERATING => false
    end in
  let ma20value := Momentum.value (Momentum.ma20 ma) in
  let nearMA20 :=
    if Qeq_bool ma20value 0 then false
    else JS.ltb (JS.Math_abs ((close today - ma20value) / ma20value)) 0.03 in
  stopDecline <-
    (if JS.gtb (close today) (open today)
     then yesterday <- JS.get data 1 ;;
          JS.Ok (JS.ltb (close yesterday) (open yesterday))
     else JS.Ok false) ;;
  let condC := nearMA20 && stopDecline in
  let triggered := (condA && condB) || (condB && condC) in
  JS.Ok {| triggered := triggered;
           condA := condA; condB := condB; condC := condC;
           entryType :=
             if triggered
             then (if condA then BREAKOUT else PULLBACK_BOUNCE)
             else NONE |}.

Inductive TechnicalError : Type :=
| TooFewBars                      (* fewer than 60 bars *)
| IndicatorFailed (e : JS.error). (* an exception caught by the scorer *)

Record TechnicalDetail : Type := mkTDetail {
  tvao : Vao.VAOResult;
  tmtm : Momentum.MTMResult;
  tma : Momentum.MASystem;
  tentry : EntrySignal
}.

Record TechnicalResult : Type := mkTResult {
  tscore : Q;
  tdetail : option TechnicalDetail;
  terror : option TechnicalError
}.

(** The moving-average share of the technical score, out of 100. *)
Definition maScoreOf (ma : Momentum.MASystem) : Q :=
  let maScore := 0 in
  let maScore :=
    match Momentum.alignment ma with
    | Momentum.BULLISH => maScore + 50
    | Momentum.MIXED => maScore + 25
    | Momentum.BEARISH => maScore
    end in
  let maScore := if Momentum.aboveMA20 ma then maScore + 30 else maScore in
  let deviation := JS.Math_abs (Momentum.deviation (Momentum.ma20 ma)) in
  if JS.leb deviation 3 then maScore + 20 else maScore.

Definition scoreTechnical (priceData : list PriceBar) (totalShares : option Q)
  : TechnicalResult :=
  if (length priceData <? 60)%nat then
    {| tscore := 0; tdetail := None; terror := Some TooFewBars |}
  else
    let attempt :=
      vao <- Vao.calculateVAO priceData
               {| Vao.totalShares := totalShares;
                  Vao.shortPeriod := 5; Vao.longPeriod := 20 |} ;;
      mtm <- Momentum.calculateMTM priceData
               {| Momentum.period := 10; Momentum.maPeriod := 5 |} ;;
      ma <- Momentum.calculateMASystem priceData ;;
      let vaoContrib := (Vao.score vao / 100) * 35 in
      let mtmContrib := (Momentum.signalStrength mtm / 100) * 30 in
      let maContrib := (maScoreOf ma / 100) * 35 in
      let score := JS.Math_round (vaoContrib + mtmContrib + maContrib) in
      entrySignal <- _evaluateEntrySignal priceData vao mtm ma ;;
      JS.Ok {| tscore := JS.Math_min 100 (JS.Math_max 0 score);
               tdetail := Some {| tvao := vao; tmtm := mtm; tma := ma;
                                  tentry := entrySignal |};
               terror := None |} in
    match attempt with
    | JS.Ok r => r
    | JS.Throw e =>
        {| tscore := 0; tdetail := None; terror := Some (IndicatorFailed e) |}
    end.

(** *** The institutional scorer *)

(** One row of [institutional_trades]. *)
Record FlowRow : Type := mkFlow {
  foreign_net : field;
  trust_net : field;
  dealer_net : field;
  margin_balance : field;
  short_balance : field
}.

(** [x || 0] on a numeric column *)
Definition orZero (x : field) : Q :=
  match x with
  | Num q => q
  | Undefined | Null => 0
  end.

(** [a < b], false on [NaN] *)
Definition field_ltb (a b : field) : bool :=
  match toNumber a, toNumber b with
  | Some x, Some y => JS.ltb x y
  | _, _ => false
  end.

Fixpoint _countConsecutive {A : Type} (data : list A) (predicate : A -> bool)
  : nat :=
  match data with
  | [] => 0
  | item :: rest =>
      if predicate item then S (_countConsecutive rest predicate) else 0
  end.

Inductive Sentiment : Type :=
| SENTIMENT_STRONG | SENTIMENT_HEALTHY | SENTIMENT_WATCH | SENTIMENT_AVOID.

Record InstitutionalDetails : Type := mkIDetails {
  foreignScore : Q;
  trustScore : Q;
  dealerScore : Q;
  marginScore : Q;
  foreignConsecutiveBuy : nat;
  foreign5DaySum : Q
}.

Record InstitutionalResult : Type := mkIResult {
  iscore : Q;
  sentiment : option Sentiment;
  idetails : option InstitutionalDetails;
  ierror : bool
}.

Definition foreignScoreOf (data : list FlowRow) (latest : FlowRow) : Q :=
  let foreignScore := 0 in
  let consecutive := _countConsecutive data (fun d => field_gtb (foreign_net d) 0) in
  let sum5 := fold_left (fun s d => s + orZero (foreign_net d)) (firstn 5 data) 0 in
  let foreignScore :=
    if (3 <=? consecutive)%nat then foreignScore + 50
    else if (2 <=? consecutive)%nat then foreignScore + 30
    else foreignScore in
  let foreignScore :=
    if JS.gtb sum5 1000 then foreignScore + 30
    else if JS.gtb sum5 500 then foreignScore + 15
    else foreignScore in
  let foreignScore :=
    if field_gtb (foreign_net latest) 0 then foreignScore + 20 else foreignScore in
  JS.Math_min 100 foreignScore.

Definition trustScoreOf (data : list FlowRow) (latest : FlowRow) : Q :=
  let trustScore := 0 in
  let consecutive := _countConsecutive data (fun d => field_gtb (trust_net d) 0) in
  let trustScore :=
    if (3 <=? consecutive)%nat then trustScore + 50
    else if (2 <=? consecutive)%nat then trustScore + 30
    else trustScore in
  let trustScore :=
    if field_gtb (trust_net latest) 500 then trustScore + 30
    else if field_gtb (trust_net latest) 100 then trustScore + 15
    else trustScore in
  let trustScore :=
    if field_gtb (trust_net latest) 0 then trustScore + 20 else trustScore in
  JS.Math_min 100 trustScore.

Definition dealerScoreOf (data : list FlowRow) (latest : FlowRow) : Q :=
  let dealerScore := 0 in
  let dealerScore :=
    if field_gtb (dealer_net latest) 0 then dealerScore + 50 else dealerScore in
  let dealerScore :=
    if field_gtb (dealer_net latest) 500 then dealerScore + 30 else dealerScore in
  let consecutive := _countConsecutive data (fun d => field_gtb (dealer_net d) 0) in
  let dealerScore :=
    if (2 <=? consecutive)%nat then dealerScore + 20 else dealerScore in
  JS.Math_min 100 dealerScore.

Definition marginScoreOf (latest prev : FlowRow) : Q :=
  let marginScore := 50 in
  let marginScore :=
    if field_ltb (margin_balance latest) (margin_balance prev)
    then marginScore + 25 else marginScore in
  let marginScore :=
    if field_ltb (margin_balance prev) (margin_balance latest)
    then marginScore - 15 else marginScore in
  let marginScore :=
    if field_gtb (short_balance latest) 0 && field_gtb (margin_balance latest) 0
    then
      let marginRatio :=
        orZero (short_balance latest) / orZero (margin_balance latest) in
      if JS.ltb marginRatio 0.2 then marginScore + 25 else marginScore
    else marginScore in
  JS.Math_min 100 (JS.Math_max 0 marginScore).

Definition scoreInstitutional (institutionalData : list FlowRow)
  : InstitutionalResult :=
  if (length institutionalData <? 3)%nat then
    {| iscore := 0; sentiment := None; idetails := None; ierror := true |}
  else
    match institutionalData with
    | latest :: prev :: _ =>
        let foreignScore := foreignScoreOf institutionalData latest in
        let trustScore := trustScoreOf institutionalData latest in
        let dealerScore := dealerScoreOf institutionalData latest in
        let marginScore := marginScoreOf latest prev in
        let score :=
          JS.Math_round (foreignScore * 0.40 + trustScore * 0.35 +
                         dealerScore * 0.15 + marginScore * 0.10) in
        let sentiment :=
          if JS.geb score 80 then SENTIMENT_STRONG
          else if JS.geb score 60 then SENTIMENT_HEALTHY
          else if JS.geb score 40 then SENTIMENT_WATCH
          else SENTIMENT_AVOID in
        {| iscore := JS.Math_min 100 (JS.Math_max 0 score);
           sentiment := Some sentiment;
           idetails :=
             Some {| foreignScore := foreignScore;
                     trustScore := trustScore;
                     dealerScore := dealerScore;
                     marginScore := marginScore;
                     foreignConsecutiveBuy :=
                       _countConsecutive institutionalData
                         (fun d => field_gtb (foreign_net d) 0);
                     foreign5DaySum :=
                       fold_left (fun s d => s + orZero (foreign_net d))
                                 (firstn 5 institutionalData) 0 |};
           ierror := false |}
    | _ => {| iscore := 0; sentiment := None; idetails := None; ierror := true |}
    end.

(** *** The engine *)

(** The queries of the engine, each for its arguments: the rows the
    statement returns (before [LIMIT]), or [None] when it throws. *)
Record DataSource : Type := mkSource {
  symbolsUpTo : string -> option (list string);
  recentRows : Db;
  priceRows : string -> option (list PriceBar);
  flowRows : string -> option (list FlowRow);
  fundamentalRow : string -> option (option FundamentalData)
}.

(** [_loadAllSymbols]: a failed query is logged and gives no symbol. *)
Definition _loadAllSymbols (db : DataSource) (date : string) : list string :=
  match symbolsUpTo db date with
  | Some rows => rows
  | None => []
  end.

Definition _getPriceHistory (db : DataSource) (symbol : string) (limit : nat)
  : list PriceBar :=
  match priceRows db symbol with
  | Some rows => firstn limit rows
  | None => []
  end.

Definition _getInstitutionalHistory (db : DataSource) (symbol : string)
  (limit : nat) : list FlowRow :=
  match flowRows db symbol with
  | Some rows => firstn limit rows
  | None => []
  end.

(** [row || null], and [null] when the table is missing. *)
Definition _getFundamentalData (db : DataSource) (symbol : string)
  : option FundamentalData :=
  match fundamentalRow db symbol with
  | Some row => row
  | None => None
  end.

Record Analysis : Type := mkAnalysis {
  asymbol : string;
  adate : string;
  latestPrice : Q;
  technical : TechnicalResult;
  institutional : InstitutionalResult;
  fundamental : FundamentalResult;
  composite : CompositeResult
}.

Definition _analyzeStock (db : DataSource) (symbol date : string)
  : option Analysis :=
  let priceData := _getPriceHistory db symbol 80 in
  if (length priceData <? 60)%nat then None
  else
    match priceData with
    | [] => None
    | latest :: _ =>
        let institutionalData := _getInstitutionalHistory db symbol 20 in
        let fundamentalData := _getFundamentalData db symbol in
        let technical := scoreTechnical priceData None in
        let institutional := scoreInstitutional institutionalData in
        let fundamental := scoreFundamental fundamentalData in
        let composite :=
          calculateCompositeScore (tscore technical) (iscore institutional)
            (fscore fundamental) in
        Some {| asymbol := symbol; adate := date;
                latestPrice := close latest;
                technical := technical;
                institutional := institutional;
                fundamental := fundamental;
                composite := composite |}
    end.

(** Step 3 of [run]: the stocks that could be analysed, in order. *)
Fixpoint analyzeAll (db : DataSource) (date : string) (filtered : list string)
  : list Analysis :=
  match filtered with
  | [] => []
  | symbol :: rest =>
      match _analyzeStock db symbol date with
      | Some result => result :: analyzeAll db date rest
      | None => analyzeAll db date rest
      end
  end.

(** [analyzed.sort((a, b) => b.composite.totalScore - a.composite.totalScore)] *)
Definition sortByScore (analyzed : list Analysis) : list Analysis :=
  Arr.sortDesc (fun a => totalScore (composite a)) analyzed.

Definition tierIs (t : Tier) (a : Analysis) : bool :=
  match tier (composite a), t with
  | TIER1, TIER1 | TIER2, TIER2 | TIER3, TIER3 | EXCLUDED, EXCLUDED => true
  | _, _ => false
  end.

Record Summary : Type := mkSummary {
  totalMarket : nat;
  afterFilter : nat;
  analyzedCount : nat;
  tier1Count : nat;
  tier2Count : nat;
  tier3Count : nat
}.

Record ScreenerResults : Type := mkResults {
  rdate : string;
  tier1 : list Analysis;
  tier2 : list Analysis;
  tier3 : list Analysis;
  topList : list Analysis;
  summary : Summary
}.

(** [ThreeDimensionalScreener.run] for a given target date.  Saving
    the signals (step 6) writes to the database and does not change
    the results; it is left out. *)
Definition run (config : Config) (db : DataSource) (targetDate : string)
  : ScreenerResults :=
  let allSymbols := _loadAllSymbols db targetDate in
  let filtered := _applyFilters config (recentRows db) allSymbols targetDate in
  let analyzed := sortByScore (analyzeAll db targetDate filtered) in
  let tier1 := firstn 10 (filter (tierIs TIER1) analyzed) in
  let tier2 := firstn 20 (filter (tierIs TIER2) analyzed) in
  let tier3 := firstn 20 (filter (tierIs TIER3) analyzed) in
  let topList := firstn (topN config) analyzed in
  {| rdate := targetDate;
     tier1 := tier1; tier2 := tier2; tier3 := tier3; topList := topList;
     summary :=
       {| totalMarket := length allSymbols;
          afterFilter := length filtered;
          analyzedCount := length analyzed;
          tier1Count := length tier1;
          tier2Count := length tier2;
          tier3Count := length tier3 |} |}.

End Screener.

(** ** [backtest/backtest-engine.js] *)

Module Backtest.

Record Config : Type := mkConfig {
  initialCapital : Q;
  positionSize : Q;
  commission : Q;
  tax : Q;
  slippage : Q;
  riskFreeRate : Q
}.

Definition DEFAULT_CONFIG : Config :=
  {| initialCapital := 1000000;
     positionSize := 1.0;
     commission := 0.001425;
     tax := 0.003;
     slippage := 0.001;
     riskFreeRate := 0.02 |}.

Inductive StrategyType : Type :=
| MA_CROSS | VAO_BREAKOUT | THREE_DIMENSIONAL | CUSTOM.

(** Why a trade was closed.  The source formats a string; the number
    it prints is kept instead. *)
Inductive ExitReason : Type :=
| NoReason                       (* [''] *)
| StopLossHit (pct : Q)          (* fixed stop-loss, return in percent *)
| TakeProfitHit (pct : Q)        (* fixed take-profit, return in percent *)
| TrailingStopHit (pct : Q)      (* trailing stop, drawdown from the high *)
| ForcedClose.                   (* forced close at the end of the period *)

Record Position : Type := mkPosition {
  psymbol : string;
  pentryDate : string;
  pentryPrice : Q;
  pshares : Q;
  pcost : Q
}.

(** A trade is the position it closes ([...position]) and the exit. *)
Record Trade : Type := mkTrade {
  tsymbol : string;
  entryDate : string;
  entryPrice : Q;
  shares : Q;
  cost : Q;
  exitDate : option string;
  exitPrice : Q;
  pnl : Q;
  returnPct : Q;
  exitReason : ExitReason;
  holdingDays : Q
}.

Definition closeTrade (p : Position) (exitDate : string)
  (exitPrice pnl returnPct : Q) (reason : ExitReason) (days : Q) : Trade :=
  {| tsymbol := psymbol p; entryDate := pentryDate p;
     entryPrice := pentryPrice p; shares := pshares p; cost := pcost p;
     exitDate := Some exitDate; exitPrice := exitPrice; pnl := pnl;
     returnPct := returnPct; exitReason := reason; holdingDays := days |}.

(** *** Strategies *)

(** The [params] object of the constructors; [None] is a missing key. *)
Record Params : Type := mkParams {
  p_stopLoss : option Q;
  p_takeProfit : option Q;
  p_trailingStop : option Q;
  p_trailingActivation : option Q;
  p_shortPeriod : option nat;
  p_longPeriod : option nat;
  p_volumeMultiple : option Q;
  p_priceChangeMin : option Q
}.

Definition noParams : Params :=
  mkParams None None None None None None None None.

(** [x !== undefined ? x : d] *)
Definition orDefault (x : option Q) (d : Q) : Q :=
  match x with
  | Some q => q
  | None => d
  end.

(** [x || d] on numbers: [0] is falsy too. *)
Definition orElse (x : option Q) (d : Q) : Q :=
  match x with
  | Some q => if Qeq_bool q 0 then d else q
  | None => d
  end.

Definition orElse_nat (x : option nat) (d : nat) : nat :=
  match x with
  | Some O | None => d
  | Some n => n
  end.

(** A strategy object: the four fields [BaseStrategy]'s constructor
    sets, and the [shouldEntry] method of the subclass. *)
Record Strategy : Type := mkStrategy {
  stopLoss : Q;
  takeProfit : Q;
  trailingStop : Q;
  trailingActivation : Q;
  shouldEntry : list PriceBar -> nat -> JS.result bool
}.

Record ExitResult : Type := mkExit {
  exit : bool;
  reason : ExitReason
}.

(** [BaseStrategy.shouldExit], inherited unchanged by both subclasses. *)
Definition shouldExit (this : Strategy) (position : Position)
  (currentBar : PriceBar) (highestSinceEntry : Q) : ExitResult :=
  let currentReturn :=
    (close currentBar - pentryPrice position) / pentryPrice position in
  if JS.leb currentReturn (- stopLoss this) then
    {| exit := true; reason := StopLossHit (currentReturn * 100) |}
  else if JS.geb currentReturn (takeProfit this) then
    {| exit := true; reason := TakeProfitHit (currentReturn * 100) |}
  else if JS.gtb highestSinceEntry 0 then
    let highReturn :=
      (highestSinceEntry - pentryPrice position) / pentryPrice position in
    if JS.geb highReturn (trailingActivation this) then
      let drawdownFromHigh :=
        (highestSinceEntry - close currentBar) / highestSinceEntry in
      if JS.geb drawdownFromHigh (trailingStop this) then
        {| exit := true; reason := TrailingStopHit (drawdownFromHigh * 100) |}
      else {| exit := false; reason := NoReason |}
    else {| exit := false; reason := NoReason |}
  else {| exit := false; reason := NoReason |}.

(** The loop shared by [_sma] and [_avgVolume]:
    [for (i = startIndex; i < startIndex + period && i < data.length; i++)
       sum += data[i].<field>].
    [remaining] counts [startIndex + period - i]; reading [data[i]] out
    of range would be a [TypeError]. *)
Fixpoint sumLoop (field : PriceBar -> Q) (data : list PriceBar)
  (i remaining : nat) (sum : Q) : JS.result Q :=
  match remaining with
  | O => JS.Ok sum
  | S remaining' =>
      if (i <? length data)%nat then
        bar <- JS.get data i ;;
        sumLoop field data (S i) remaining' (sum + field bar)
      else JS.Ok sum
  end.

Definition _sma (data : list PriceBar) (startIndex period : nat)
  : JS.result Q :=
  sum <- sumLoop close data startIndex period 0 ;;
  JS.Ok (sum / inject_Z (Z.of_nat period)).

Definition _avgVolume (data : list PriceBar) (startIndex period : nat)
  : JS.result Q :=
  sum <- sumLoop volume data startIndex period 0 ;;
  JS.Ok (sum / inject_Z (Z.of_nat period)).

Definition MACross_shouldEntry (shortPeriod longPeriod : nat)
  (data : list PriceBar) (index : nat) : JS.result bool :=
  if (length data <=? index + longPeriod + 1)%nat then JS.Ok false
  else
    shortMA <- _sma data index shortPeriod ;;
    longMA <- _sma data index longPeriod ;;
    prevShortMA <- _sma data (index + 1) shortPeriod ;;
    prevLongMA <- _sma data (index + 1) longPeriod ;;
    JS.Ok (JS.leb prevShortMA prevLongMA && JS.gtb shortMA longMA).

Definition VAOBreakout_shouldEntry (volumeMultiple priceChangeMin : Q)
  (data : list PriceBar) (index : nat) : JS.result bool :=
  if (length data <=? index + 20)%nat then JS.Ok false
  else
    today <- JS.get data index ;;
    yesterday <- JS.get data (index + 1) ;;
    avgVol5 <- _avgVolume data index 5 ;;
    let priceChange :=
      if JS.gtb (close yesterday) 0
      then ((close today - close yesterday) / close yesterday) * 100
      else 0 in
    JS.Ok (JS.gtb (volume today) (avgVol5 * volumeMultiple) &&
           JS.geb priceChange priceChangeMin).

Definition MACrossStrategy (params : Params) : Strategy :=
  {| stopLoss := orDefault (p_stopLoss params) 0.07;
     takeProfit := orDefault (p_takeProfit params) 0.15;
     trailingStop := orDefault (p_trailingStop params) 0.03;
     trailingActivation := orDefault (p_trailingActivation params) 0.10;
     shouldEntry :=
       MACross_shouldEntry (orElse_nat (p_shortPeriod params) 10)
                           (orElse_nat (p_longPeriod params) 20) |}.

Definition VAOBreakoutStrategy (params : Params) : Strategy :=
  {| stopLoss := orDefault (p_stopLoss params) 0.07;
     takeProfit := orDefault (p_takeProfit params) 0.15;
     trailingStop := orDefault (p_trailingStop params) 0.03;
     trailingActivation := orDefault (p_trailingActivation params) 0.10;
     shouldEntry :=
       VAOBreakout_shouldEntry (orElse (p_volumeMultiple params) 1.5)
                               (orElse (p_priceChangeMin params) 2) |}.

(** [BacktestEngine._createStrategy] *)
Definition _createStrategy (type : StrategyType) (params : Params) : Strategy :=
  match type with
  | MA_CROSS => MACrossStrategy params
  | VAO_BREAKOUT => VAOBreakoutStrategy params
  | _ => MACrossStrategy params
  end.

(** *** The simulation loop *)

(** The loop-local variables of [_simulate]. *)
Record SimState : Type := mkState {
  capital : Q;
  position : option Position;
  highestSinceEntry : Q;
  trades : list Trade;
  equityCurve : list Q
}.

(** [bar.high || bar.close]: a missing or zero [high] is falsy. *)
Definition highOrClose (bar : PriceBar) : Q :=
  match high bar with
  | Some h => if Qeq_bool h 0 then close bar else h
  | None => close bar
  end.

(** [data[0].symbol || 'UNKNOWN'] *)
Definition symbolOf (data : list PriceBar) : string :=
  match data with
  | bar0 :: _ => if String.eqb (symbol bar0) "" then "UNKNOWN"%string else symbol bar0
  | [] => "UNKNOWN"%string
  end.

(** The last statement of the loop body:
    [equityCurve.push(Math.round(capital + (position ? shares * close : 0)))]. *)
Definition recordEquity (bar : PriceBar) (st : SimState) : SimState :=
  {| capital := capital st;
     position := position st;
     highestSinceEntry := highestSinceEntry st;
     trades := trades st;
     equityCurve :=
       equityCurve st ++
       [JS.Math_round
          (capital st + match position st with
                        | Some p => pshares p * close bar
                        | None => 0
                        end)] |}.

Section Simulate.

(** [_daysBetween] parses two date strings with [Date] and counts
    the days between them; calendar arithmetic is left abstract. *)
Variable _daysBetween : string -> string -> Q.

Variable config : Config.
Variable strategy : Strategy.

(** The [if (position)] branch of the loop body. *)
Definition stepInPosition (bar : PriceBar) (pos : Position) (st : SimState)
  : SimState :=
  let highest := JS.Math_max (highestSinceEntry st) (highOrClose bar) in
  let exitResult := shouldExit strategy pos bar highest in
  if exit exitResult then
    let exitPrice := close bar * (1 - slippage config) in
    let sellCommission := exitPrice * pshares pos * commission config in
    let sellTax := exitPrice * pshares pos * tax config in
    let proceeds := exitPrice * pshares pos - sellCommission - sellTax in
    let pnl := proceeds - pcost pos in
    let returnPct := (pnl / pcost pos) * 100 in
    recordEquity bar
      {| capital := capital st + proceeds;
         position := None;
         highestSinceEntry := 0;
         trades :=
           trades st ++
           [closeTrade pos (date bar) (JS.round2 exitPrice)
              (JS.Math_round pnl) (JS.round2 returnPct)
              (reason exitResult) (_daysBetween (pentryDate pos) (date bar))];
         equityCurve := equityCurve st |}
  else
    recordEquity bar
      {| capital := capital st;
         position := Some pos;
         highestSinceEntry := highest;
         trades := trades st;
         equityCurve := equityCurve st |}.

(** The sizing of a new position: entry price with slippage,
    whole lots of 1000 shares, and the cost with the buy commission. *)
Definition entryPriceOf (bar : PriceBar) : Q :=
  close bar * (1 + slippage config).

Definition sharesOf (capital : Q) (bar : PriceBar) : Q :=
  JS.Math_floor (capital * positionSize config / (entryPriceOf bar * 1000)) * 1000.

Definition costOf (capital : Q) (bar : PriceBar) : Q :=
  let entryPrice := entryPriceOf bar in
  let shares := sharesOf capital bar in
  let buyCommission := entryPrice * shares * commission config in
  entryPrice * shares + buyCommission.

(** The [else] branch, once [shouldEntry] has answered.  The two
    [continue] statements leave the loop body before the equity
    point of the bar is pushed. *)
Definition stepFlat (data : list PriceBar) (bar : PriceBar) (enter : bool)
  (st : SimState) : SimState :=
  if enter then
    let entryPrice := entryPriceOf bar in
    let shares := sharesOf (capital st) bar in
    if JS.leb shares 0 then st
    else
      let cost := costOf (capital st) bar in
      if JS.gtb cost (capital st) then st
      else
        recordEquity bar
          {| capital := capital st - cost;
             position :=
               Some {| psymbol := symbolOf data;
                       pentryDate := date bar;
                       pentryPrice := JS.round2 entryPrice;
                       pshares := shares;
                       pcost := JS.Math_round cost |};
             highestSinceEntry := highOrClose bar;
             trades := trades st;
             equityCurve := equityCurve st |}
  else recordEquity bar st.

(** One iteration of [for (let i = 0; i < data.length; i++)], with
    [bar = data[i]]. *)
Definition step (data reversedData : list PriceBar) (i : nat)
  (bar : PriceBar) (st : SimState) : JS.result SimState :=
  let reversedIndex := (length data - 1 - i)%nat in
  match position st with
  | Some pos => JS.Ok (stepInPosition bar pos st)
  | None =>
      enter <- shouldEntry strategy reversedData reversedIndex ;;
      JS.Ok (stepFlat data bar enter st)
  end.

(** The iterations from index [i] on; [bars] is [data] from [i]. *)
Fixpoint loop (data reversedData bars : list PriceBar) (i : nat)
  (st : SimState) : JS.result SimState :=
  match bars with
  | [] => JS.Ok st
  | bar :: rest =>
      st' <- step data reversedData i bar st ;;
      loop data reversedData rest (S i) st'
  end.

Definition initialState : SimState :=
  {| capital := initialCapital config;
     position := None;
     highestSinceEntry := 0;
     trades := [];
     equityCurve := [] |}.

(** The loop-local state once the first [n] bars are processed. *)
Definition stateAfter (data : list PriceBar) (n : nat) : JS.result SimState :=
  loop data (rev data) (firstn n data) 0 initialState.

(** The trade pushed after the loop for a position still open. *)
Definition forcedTrade (pos : Position) (lastBar : PriceBar) : Trade :=
  let exitPrice := close lastBar in
  let proceeds :=
    exitPrice * pshares pos * (1 - commission config - tax config) in
  let pnl := proceeds - pcost pos in
  closeTrade pos (date lastBar) exitPrice (JS.Math_round pnl)
    (JS.Math_round ((pnl / pcost pos) * 10000) / 100)
    ForcedClose (_daysBetween (pentryDate pos) (date lastBar)).

Definition _simulate (data : list PriceBar)
  : JS.result (list Trade * list Q) :=
  st <- loop data (rev data) data 0 initialState ;;
  match position st, nth_error data (length data - 1) with
  | Some pos, Some lastBar =>
      JS.Ok (trades st ++ [forcedTrade pos lastBar], equityCurve st)
  | _, _ => JS.Ok (trades st, equityCurve st)
  end.

End Simulate.

(** *** Performance *)

(** [t.exitDate] as a condition: a missing or empty date is falsy. *)
Definition hasExitDate (t : Trade) : bool :=
  match exitDate t with
  | Some d => negb (String.eqb d "")
  | None => false
  end.

(** The loop variables of [_calculateMaxDrawdown]. *)
Record DrawdownState : Type := mkDD {
  peak : Q;
  maxDrawdown : Q;
  maxDrawdownPct : Q
}.

(** The body of [for (const equity of equityCurve)]. *)
Definition drawdownStep (st : DrawdownState) (equity : Q) : DrawdownState :=
  let peak := if JS.gtb equity (peak st) then equity else peak st in
  let drawdown := peak - equity in
  let drawdownPct := if JS.gtb peak 0 then (drawdown / peak) * 100 else 0 in
  if JS.gtb drawdown (maxDrawdown st)
  then {| peak := peak; maxDrawdown := drawdown; maxDrawdownPct := drawdownPct |}
  else {| peak := peak; maxDrawdown := maxDrawdown st;
          maxDrawdownPct := maxDrawdownPct st |}.

(** Returns [(maxDrawdown, maxDrawdownPct)]. *)
Definition _calculateMaxDrawdown (equityCurve : list Q) : Q * Q :=
  match equityCurve with
  | [] => (0, 0)
  | first :: _ =>
      let st :=
        fold_left drawdownStep equityCurve
          {| peak := first; maxDrawdown := 0; maxDrawdownPct := 0 |} in
      (maxDrawdown st, maxDrawdownPct st)
  end.

(** The first loop of [_calculateSharpe]: for [i] from [1], push
    [(e[i] - e[i-1]) / e[i-1]] when [e[i-1] > 0]. *)
Definition dailyReturnsOf (equityCurve : list Q) : list Q :=
  flat_map
    (fun i =>
       let prev := nth (i - 1) equityCurve 0 in
       if JS.gtb prev 0 then [(nth i equityCurve 0 - prev) / prev] else [])
    (seq 1 (length equityCurve - 1)).

Record MonthlyReturn : Type := mkMonthly {
  month : string;
  mpnl : Q;
  mtrades : nat;
  mreturnPct : Q
}.

(** [monthlyMap[month]] created on first use, then [pnl += ...] and
    [trades++]; the list keeps the insertion order of the keys. *)
Fixpoint addToMonth (key : string) (amount : Q) (monthlyMap : list MonthlyReturn)
  : list MonthlyReturn :=
  match monthlyMap with
  | [] => [{| month := key; mpnl := 0 + amount; mtrades := 1; mreturnPct := 0 |}]
  | m :: rest =>
      if String.eqb (month m) key
      then {| month := key; mpnl := mpnl m + amount; mtrades := S (mtrades m);
              mreturnPct := mreturnPct m |} :: rest
      else m :: addToMonth key amount rest
  end.

(** [sort((a, b) => a.month.localeCompare(b.month))], by insertion;
    the keys are [YYYY-MM] strings, ordered as byte strings. *)
Fixpoint insertMonth (m : MonthlyReturn) (sorted : list MonthlyReturn)
  : list MonthlyReturn :=
  match sorted with
  | [] => [m]
  | x :: rest =>
      if String.leb (month m) (month x) then m :: sorted
      else x :: insertMonth m rest
  end.

Definition sortMonths (ms : list MonthlyReturn) : list MonthlyReturn :=
  fold_right insertMonth [] ms.

Definition _calculateMonthlyReturns (trades : list Trade) (initialCapital : Q)
  : list MonthlyReturn :=
  let monthlyMap :=
    fold_left
      (fun acc trade =>
         match exitDate trade with
         | Some d =>
             if String.eqb d "" || Qeq_bool (pnl trade) 0 then acc
             else addToMonth (String.substring 0 7 d) (pnl trade) acc
         | None => acc
         end)
      trades [] in
  map (fun m => {| month := month m; mpnl := mpnl m; mtrades := mtrades m;
                   mreturnPct := JS.Math_round ((mpnl m / initialCapital) * 10000) / 100 |})
      (sortMonths monthlyMap).

Record Report : Type := mkReport {
  totalReturn : Q;
  totalReturnPct : Q;
  rmaxDrawdown : Q;
  rmaxDrawdownPct : Q;
  winRate : Q;
  sharpeRatio : Q;
  totalTrades : nat;
  winCount : nat;
  loseCount : nat;
  avgWin : Q;
  avgLoss : Q;
  profitFactor : JS.ext;
  expectancy : Q;
  monthlyReturns : list MonthlyReturn;
  requityCurve : list Q
}.

(** [arr.length] as a number. *)
Definition len {A : Type} (l : list A) : Q := inject_Z (Z.of_nat (length l)).

(** The unrounded quantities [calculatePerformance] derives from the
    closed trades, named as its local constants are. *)
Definition completedTradesOf (trades : list Trade) : list Trade :=
  filter hasExitDate trades.

Definition winsOf (completedTrades : list Trade) : list Trade :=
  filter (fun t => JS.gtb (pnl t) 0) completedTrades.

Definition lossesOf (completedTrades : list Trade) : list Trade :=
  filter (fun t => JS.leb (pnl t) 0) completedTrades.

Definition winRateOf (completedTrades : list Trade) : Q :=
  len (winsOf completedTrades) / len completedTrades.

Definition avgWinOf (completedTrades : list Trade) : Q :=
  let wins := winsOf completedTrades in
  if (0 <? length wins)%nat
  then fold_left (fun s t => s + returnPct t) wins 0 / len wins
  else 0.

Definition avgLossOf (completedTrades : list Trade) : Q :=
  let losses := lossesOf completedTrades in
  if (0 <? length losses)%nat
  then JS.Math_abs (fold_left (fun s t => s + returnPct t) losses 0 / len losses)
  else 0.

Definition totalWinOf (completedTrades : list Trade) : Q :=
  fold_left (fun s t => s + pnl t) (winsOf completedTrades) 0.

Definition totalLossOf (completedTrades : list Trade) : Q :=
  JS.Math_abs (fold_left (fun s t => s + pnl t) (lossesOf completedTrades) 0).

(** [totalLoss > 0 ? totalWin / totalLoss : totalWin > 0 ? Infinity : 0] *)
Definition profitFactorOf (completedTrades : list Trade) : JS.ext :=
  let totalWin := totalWinOf completedTrades in
  let totalLoss := totalLossOf completedTrades in
  if JS.gtb totalLoss 0 then JS.Fin (totalWin / totalLoss)
  else if JS.gtb totalWin 0 then JS.Infinity
  else JS.Fin 0.

Definition expectancyOf (completedTrades : list Trade) : Q :=
  let winRate := winRateOf completedTrades in
  winRate * avgWinOf completedTrades - (1 - winRate) * avgLossOf completedTrades.

(** [equityCurve[equityCurve.length - 1] || config.initialCapital] *)
Definition finalEquityOf (equityCurve : list Q) (config : Config) : Q :=
  match nth_error equityCurve (length equityCurve - 1) with
  | Some e => if Qeq_bool e 0 then initialCapital config else e
  | None => initialCapital config
  end.

Section Performance.

(** [Math.sqrt]: its values are not rational in general. *)
Variable Math_sqrt : Q -> Q.

Definition _calculateSharpe (equityCurve : list Q) (riskFreeRate : Q) : Q :=
  if (length equityCurve <? 2)%nat then 0
  else
    let dailyReturns := dailyReturnsOf equityCurve in
    if (length dailyReturns =? 0)%nat then 0
    else
      let avgReturn := JS.sum dailyReturns / len dailyReturns in
      let variance :=
        fold_left (fun s r => s + (r - avgReturn) * (r - avgReturn))
                  dailyReturns 0
        / len dailyReturns in
      let stdDev := Math_sqrt variance in
      if Qeq_bool stdDev 0 then 0
      else
        let dailyRiskFree := riskFreeRate / 252 in
        ((avgReturn - dailyRiskFree) / stdDev) * Math_sqrt 252.

Definition calculatePerformance (trades : list Trade) (equityCurve : list Q)
  (config : Config) : Report :=
  let completedTrades := completedTradesOf trades in
  let totalTrades := length completedTrades in
  if (totalTrades =? 0)%nat then
    {| totalReturn := 0; totalReturnPct := 0;
       rmaxDrawdown := 0; rmaxDrawdownPct := 0;
       winRate := 0; sharpeRatio := 0;
       totalTrades := 0; winCount := 0; loseCount := 0;
       avgWin := 0; avgLoss := 0;
       profitFactor := JS.Fin 0; expectancy := 0;
       monthlyReturns := [];
       requityCurve := equityCurve |}
  else
    let finalEquity := finalEquityOf equityCurve config in
    let totalReturn := finalEquity - initialCapital config in
    let totalReturnPct := (totalReturn / initialCapital config) * 100 in
    let '(maxDrawdown, maxDrawdownPct) := _calculateMaxDrawdown equityCurve in
    let sharpeRatio := _calculateSharpe equityCurve (riskFreeRate config) in
    {| totalReturn := JS.Math_round totalReturn;
       totalReturnPct := JS.round2 totalReturnPct;
       rmaxDrawdown := JS.Math_round maxDrawdown;
       rmaxDrawdownPct := JS.round2 maxDrawdownPct;
       winRate := JS.Math_round (winRateOf completedTrades * 10000) / 100;
       sharpeRatio := JS.round2 sharpeRatio;
       totalTrades := totalTrades;
       winCount := length (winsOf completedTrades);
       loseCount := length (lossesOf completedTrades);
       avgWin := JS.round2 (avgWinOf completedTrades);
       avgLoss := JS.round2 (avgLossOf completedTrades);
       profitFactor := JS.ext_round2 (profitFactorOf completedTrades);
       expectancy := JS.round2 (expectancyOf completedTrades);
       monthlyReturns :=
         _calculateMonthlyReturns trades (initialCapital config);
       requityCurve := equityCurve |}.

End Performance.

(** *** The engine *)

(** [_loadPriceData]: the rows of the symbol between the two dates,
    oldest first, or [None] when the query throws. *)
Definition PriceSource : Type :=
  string -> string -> string -> option (list PriceBar).

(** [strategyConfig]: [type] may be missing, [params] defaults to [{}]. *)
Record StrategyConfig : Type := mkStrategyConfig {
  stype : option StrategyType;
  sparams : option Params
}.

(** What [run] wraps into its [BACKTEST_RUN_FAILED] error. *)
Inductive RunFailure : Type :=
| LoadFailed                 (* the price query threw *)
| TooFewData (rows : nat)    (* fewer than 30 rows *)
| Raised (e : JS.error).     (* an exception of the simulation *)

Record BacktestReport : Type := mkBacktestReport {
  bsymbol : string;
  bstartDate : string;
  bendDate : string;
  strategyType : StrategyType;
  strategyParams : Params;
  bconfig : Config;
  tradingDays : nat;
  performance : Report;
  btrades : list Trade
}.

Inductive RunResult : Type :=
| Completed (report : BacktestReport)
| Failed (why : RunFailure).

Section Engine.

Variable _daysBetween : string -> string -> Q.
Variable Math_sqrt : Q -> Q.
Variable config : Config.
Variable db : PriceSource.

Definition run (symbol startDate endDate : string)
  (strategyConfig : StrategyConfig) : RunResult :=
  match db symbol startDate endDate with
  | None => Failed LoadFailed
  | Some priceData =>
      if (length priceData <? 30)%nat then Failed (TooFewData (length priceData))
      else
        let type :=
          match stype strategyConfig with
          | Some t => t
          | None => CUSTOM
          end in
        let params :=
          match sparams strategyConfig with
          | Some p => p
          | None => noParams
          end in
        let strategy := _createStrategy type params in
        match _simulate _daysBetween config strategy priceData with
        | JS.Throw e => Failed (Raised e)
        | JS.Ok (trades, equityCurve) =>
            Completed
              {| bsymbol := symbol;
                 bstartDate := startDate;
                 bendDate := endDate;
                 strategyType := type;
                 strategyParams := params;
                 bconfig := config;
                 tradingDays := length priceData;
                 performance :=
                   calculatePerformance Math_sqrt trades equityCurve config;
                 btrades := trades |}
        end
  end.

(** The loop of [runBatch]: the reports of the runs that completed. *)
Fixpoint batchReports (symbols : list string) (startDate endDate : string)
  (strategyConfig : StrategyConfig) : list BacktestReport :=
  match symbols with
  | [] => []
  | symbol :: rest =>
      match run symbol startDate endDate strategyConfig with
      | Completed report =>
          report :: batchReports rest startDate endDate strategyConfig
      | Failed _ => batchReports rest startDate endDate strategyConfig
      end
  end.

Definition runBatch (symbols : list string) (startDate endDate : string)
  (strategyConfig : StrategyConfig) : list BacktestReport :=
  Arr.sortDesc (fun r => totalReturnPct (performance r))
    (batchReports symbols startDate endDate strategyConfig).

End Engine.

End Backtest.

(** * The specification's vocabulary

    Notions the specification uses to state its properties; they are
    written after its wording, not after the code, and the theorems
    below relate the two. *)

Module Spec.

(** Bars older than [data[index]] in a newest-first series. *)
Definition priorBars (data : list PriceBar) (index : nat) : nat :=
  (length data - 1 - index)%nat.

(** The look-back a supplied strategy requires: [longPeriod + 1]
    earlier bars for the moving-average cross (also the fall-back of
    [_createStrategy]), [20] for the volume breakout. *)
Definition requiredLookback (type : Backtest.StrategyType)
  (params : Backtest.Params) : nat :=
  match type with
  | Backtest.VAO_BREAKOUT => 20
  | _ => (Backtest.orElse_nat (Backtest.p_longPeriod params) 20 + 1)%nat
  end.

(** Points a condition contributes to an additive score. *)
Definition points (condition : bool) (amount : Q) : Q :=
  if condition then amount else 0.

(** A price bar as the data model requires it: positive close,
    non-negative volume. *)
Definition validBar (bar : PriceBar) : Prop :=
  0 < close bar /\ 0 <= volume bar.

(** A four-digit equity code: exactly four characters, each a decimal
    digit. *)
Definition isDigit (c : ascii) : bool :=
  (48 <=? nat_of_ascii c)%nat && (nat_of_ascii c <=? 57)%nat.

Definition fourDigitCode (code : string) : bool :=
  (String.length code =? 4)%nat && forallb isDigit (list_ascii_of_string code).

(** The five-day average volume of the rows the filter reads. *)
Definition avgVolume5 (rows : list Screener.Row) : Q :=
  JS.sum (map Screener.rvolume (firstn 5 rows)) / 5.

(** The same strategy object with another entry rule. *)
Definition withEntry (s : Backtest.Strategy)
  (entry : list PriceBar -> nat -> JS.result bool) : Backtest.Strategy :=
  {| Backtest.stopLoss := Backtest.stopLoss s;
     Backtest.takeProfit := Backtest.takeProfit s;
     Backtest.trailingStop := Backtest.trailingStop s;
     Backtest.trailingActivation := Backtest.trailingActivation s;
     Backtest.shouldEntry := entry |}.

(** Economics under which the entry price of a valid bar is positive
    and selling never costs more than it yields. *)
Definition saneConfig (config : Backtest.Config) : Prop :=
  0 <= Backtest.initialCapital config /\
  0 <= Backtest.slippage config /\
  Backtest.slippage config <= 1 /\
  Backtest.commission config + Backtest.tax config <= 1.

(** Sum, count and mean of a list of numbers. *)
Definition total (xs : list Q) : Q := fold_right Qplus 0 xs.

Definition count {A : Type} (xs : list A) : Q :=
  inject_Z (Z.of_nat (length xs)).

Definition mean (xs : list Q) : Q := total xs / count xs.

(** Population variance: the mean squared distance from the mean. *)
Definition variance (xs : list Q) : Q :=
  mean (map (fun x => (x - mean xs) * (x - mean xs)) xs).


Definition winners (closed : list Backtest.Trade) : list Backtest.Trade :=
  filter (fun t => JS.gtb (Backtest.pnl t) 0) closed.

Definition losers (closed : list Backtest.Trade) : list Backtest.Trade :=
  filter (fun t => JS.leb (Backtest.pnl t) 0) closed.

Definition grossWin (closed : list Backtest.Trade) : Q :=
  total (map Backtest.pnl (winners closed)).

Definition grossLoss (closed : list Backtest.Trade) : Q :=
  Qabs (total (map Backtest.pnl (losers closed))).

(** Gross win over gross loss; infinite without losses but with wins,
    and zero when there is neither. *)
Definition profitFactor (closed : list Backtest.Trade) : JS.ext :=
  if JS.gtb (grossLoss closed) 0
  then JS.Fin (grossWin closed / grossLoss closed)
  else if JS.gtb (grossWin closed) 0 then JS.Infinity else JS.Fin 0.

Definition winRate (closed : list Backtest.Trade) : Q :=
  count (winners closed) / count closed.

(** Mean return of the winners, and mean return of the losers as a
    magnitude; zero when there are none. *)
Definition avgWin (closed : list Backtest.Trade) : Q :=
  match winners closed with
  | [] => 0
  | ws => mean (map Backtest.returnPct ws)
  end.

Definition avgLoss (closed : list Backtest.Trade) : Q :=
  match losers closed with
  | [] => 0
  | ls => Qabs (mean (map Backtest.returnPct ls))
  end.

Definition expectancy (closed : list Backtest.Trade) : Q :=
  winRate closed * avgWin closed - (1 - winRate closed) * avgLoss closed.

(** Daily returns derived from an equity curve: the relative change
    between consecutive points, taken where the earlier point is
    positive. *)
Fixpoint dailyReturns (curve : list Q) : list Q :=
  match curve with
  | [] => []
  | prev :: rest =>
      match rest with
      | [] => []
      | cur :: _ =>
          (if JS.gtb prev 0 then [(cur - prev) / prev] else [])
          ++ dailyReturns rest
      end
  end.


(** Descending order by a numeric key. *)
Definition descendingBy {A : Type} (key : A -> Q) (xs : list A) : Prop :=
  StronglySorted (fun a b => key b <= key a) xs.


(** The momentum of a newest-first series of closes at offset [i]:
    the close at [i] minus the close [period] bars earlier. *)
Definition momentum (closes : list Q) (period i : nat) : Q :=
  nth i closes 0 - nth (i + period) closes 0.

(** The momenta at the offsets [0 .. maPeriod - 1]. *)
Definition momentumSeries (closes : list Q) (period maPeriod : nat) : list Q :=
  map (momentum closes period) (seq 0 maPeriod).


(** A net-buy day: the column holds a positive number. *)
Definition netBuy (x : Screener.field) : Prop :=
  exists q, x = Screener.Num q /\ 0 < q.

(** The net amount foreign institutions bought over the five latest
    rows, a missing value counting as 0. *)
Definition foreignSum5 (rows : list Screener.FlowRow) : Q :=
  total (map (fun d => Screener.orZero (Screener.foreign_net d)) (firstn 5 rows)).

(** The tiers in order of merit. *)
Definition tierRank (t : Screener.Tier) : nat :=
  match t with
  | Screener.TIER1 => 3
  | Screener.TIER2 => 2
  | Screener.TIER3 => 1
  | Screener.EXCLUDED => 0
  end.





End Spec.

Import Backtest.

(** What the loop of [_calculateMaxDrawdown] maintains over the points
    [seq] read so far: [peak] is their maximum, [maxDrawdown] bounds
    every drop from an earlier to a later point, and it is the drop
    from some running peak to a later point, of which
    [maxDrawdownPct] is the percentage. *)
Record DrawdownInv (seq : list Q) (st : DrawdownState) : Prop := mkInv {
  peak_max : forall k v, nth_error seq k = Some v -> v <= peak st;
  peak_in : exists k, nth_error seq k = Some (peak st);
  dd_bound :
    forall i j vi vj,
      (i <= j)%nat -> nth_error seq i = Some vi -> nth_error seq j = Some vj ->
      vi - vj <= maxDrawdown st;
  dd_witness :
    exists i j vi vj,
      (i <= j)%nat /\ nth_error seq i = Some vi /\ nth_error seq j = Some vj /\
      (forall k v, (k <= j)%nat -> nth_error seq k = Some v -> v <= vi) /\
      maxDrawdown st == vi - vj /\
      maxDrawdownPct st == (if JS.gtb vi 0 then (vi - vj) / vi * 100 else 0)
}.

(** What the loop maintains: cash is never negative, and an open
    position holds a positive number of shares. *)
Definition SimInv (st : SimState) : Prop :=
  0 <= capital st /\
  forall pos, position st = Some pos -> 0 < pshares pos.



(** * Sample series *)

Module Samples.

Definition quietBar : PriceBar :=
  mkBar "2330" "2025-01-02" 100 (Some 101) 99 100 1000.

(** Ten times the usual volume on a 6% rise. *)
Definition breakoutBar : PriceBar :=
  mkBar "2330" "2025-02-03" 101 (Some 107) 100 106 10000.

(** Newest first: a breakout day after nineteen quiet days. *)
Definition breakoutSeries : list PriceBar :=
  breakoutBar :: repeat quietBar 19.

Definition shortSeries : list PriceBar := repeat quietBar 5.

(** Five liquid rows at a price of 50. *)
Definition liquidRows : list Screener.Row :=
  repeat (Screener.mkRow 50 2000) 5.

(** A database that knows one four-letter code and the equity 2330. *)
Definition lettersDb : Screener.Db :=
  fun symbol _ =>
    if String.eqb symbol "ABCD" || String.eqb symbol "2330"
    then Some liquidRows else Some [].

(** Oldest first: twenty quiet days, then the breakout on the last. *)
Definition history : list PriceBar := repeat quietBar 20 ++ [breakoutBar].






(** A day on which foreign institutions, funds and dealers all buy. *)
Definition buyingDay : Screener.FlowRow :=
  Screener.mkFlow (Screener.Num 600) (Screener.Num 200) (Screener.Num 100)
    (Screener.Num 5000) (Screener.Num 500).

(** Newest first: five such days. *)
Definition buyingWeek : list Screener.FlowRow := repeat buyingDay 5.

(** A market of one liquid stock with sixty quiet days of prices, a
    week of institutional buying and no [fundamentals] table. *)
Definition quietMarket : Screener.DataSource :=
  Screener.mkSource
    (fun _ => Some ["2330"%string])
    (fun _ _ => Some liquidRows)
    (fun _ => Some (repeat quietBar 60))
    (fun _ => Some buyingWeek)
    (fun _ => None).

End Samples.

(** * Properties *)

(** ** Numbers *)

Section Numbers.

Lemma leb_spec (a b : Q) : reflect (a <= b) (JS.leb a b).
Proof.
  unfold JS.leb. destruct (Qle_bool a b) eqn:E; constructor.
  - now apply Qle_bool_iff.
  - intro H. apply Qle_bool_iff in H. congruence.
Qed.

Lemma ltb_spec (a b : Q) : reflect (a < b) (JS.ltb a b).
Proof.
  unfold JS.ltb. destruct (Qle_bool b a) eqn:E; constructor.
  - apply Qle_bool_iff in E. now apply Qle_not_lt.
  - apply Qnot_le_lt. intro H. apply Qle_bool_iff in H. congruence.
Qed.

Lemma geb_spec (a b : Q) : reflect (b <= a) (JS.geb a b).
Proof. apply leb_spec. Qed.

Lemma gtb_spec (a b : Q) : reflect (b < a) (JS.gtb a b).
Proof. apply ltb_spec. Qed.

Lemma eqb_spec (a b : Q) : reflect (a == b) (Qeq_bool a b).
Proof.
  destruct (Qeq_bool a b) eqn:E; constructor.
  - now apply Qeq_bool_iff.
  - intro H. apply Qeq_bool_iff in H. congruence.
Qed.

(** [Math.round] stays between two integers that bound its argument. *)
Lemma Math_round_bounds (a b : Z) (x : Q) :
  inject_Z a <= x -> x <= inject_Z b ->
  inject_Z a <= JS.Math_round x /\ JS.Math_round x <= inject_Z b.
Proof.
  intros Ha Hb. unfold JS.Math_round.
  pose proof (Qfloor_le (x + (1 # 2))) as Hlo.
  pose proof (Qlt_floor (x + (1 # 2))) as Hhi.
  rewrite inject_Z_plus in Hhi.
  split; rewrite <- Zle_Qle.
  - assert (inject_Z a < inject_Z (Qfloor (x + (1 # 2)) + 1)) as H
      by (rewrite inject_Z_plus; lra).
    rewrite <- Zlt_Qlt in H. lia.
  - assert (inject_Z (Qfloor (x + (1 # 2))) < inject_Z (b + 1)) as H
      by (rewrite inject_Z_plus; change (inject_Z 1) with 1; lra).
    rewrite <- Zlt_Qlt in H. lia.
Qed.

(** [Math.min(100, Math.max(0, x))] leaves a score in range alone. *)
Lemma clamp_id (x : Q) :
  0 <= x -> x <= 100 -> JS.Math_min 100 (JS.Math_max 0 x) == x.
Proof.
  intros Hlo Hhi. unfold JS.Math_min, JS.Math_max.
  destruct (Q.max_spec 0 x) as [[? E1] | [? E1]];
    destruct (Q.min_spec 100 (Qmax 0 x)) as [[? E2] | [? E2]];
    set (m1 := Qmax 0 x) in *; set (m2 := Qmin 100 m1) in *;
    clearbody m2; clearbody m1; lra.
Qed.

Lemma Math_round_comp (x y : Q) : x == y -> JS.Math_round x = JS.Math_round y.
Proof.
  intros H. unfold JS.Math_round. f_equal. apply Qfloor_comp. now rewrite H.
Qed.

End Numbers.

Ltac qcase c :=
  match c with
  | JS.leb ?a ?b => destruct (leb_spec a b)
  | JS.ltb ?a ?b => destruct (ltb_spec a b)
  | JS.geb ?a ?b => destruct (geb_spec a b)
  | JS.gtb ?a ?b => destruct (gtb_spec a b)
  | Qeq_bool ?a ?b => destruct (eqb_spec a b)
  end.

(** Split on the first comparison the goal branches on. *)
Ltac qsplit :=
  match goal with
  | |- context [if ?c && _ then _ else _] => qcase c; cbn [andb]
  | |- context [if ?c then _ else _] => qcase c
  end.

(** ** The composite scorer *)

Section Composite.

Import Screener.



End Composite.

(** ** Strategies *)

Section Strategies.

Import Backtest.



Lemma sumLoop_ok (field : PriceBar -> Q) (data : list PriceBar)
  (remaining i : nat) (sum : Q) :
  exists total, sumLoop field data i remaining sum = JS.Ok total.
Proof.
  revert i sum. induction remaining as [| n IH]; intros i sum; cbn [sumLoop].
  - now exists sum.
  - destruct (Nat.ltb_spec i (length data)) as [Hlt | Hge].
    + unfold JS.get. destruct (nth_error data i) as [bar |] eqn:E.
      * cbn [JS.bind]. apply IH.
      * apply nth_error_None in E. lia.
    + now exists sum.
Qed.

Lemma _sma_ok (data : list PriceBar) (startIndex period : nat) :
  exists ma, _sma data startIndex period = JS.Ok ma.
Proof.
  unfold _sma.
  destruct (sumLoop_ok close data period startIndex 0) as [total ->].
  cbn [JS.bind]. eauto.
Qed.

Lemma _avgVolume_ok (data : list PriceBar) (startIndex period : nat) :
  exists avg, _avgVolume data startIndex period = JS.Ok avg.
Proof.
  unfold _avgVolume.
  destruct (sumLoop_ok volume data period startIndex 0) as [total ->].
  cbn [JS.bind]. eauto.
Qed.

Lemma MACross_shouldEntry_ok (shortPeriod longPeriod : nat)
  (data : list PriceBar) (index : nat) :
  exists b, MACross_shouldEntry shortPeriod longPeriod data index = JS.Ok b.
Proof.
  unfold MACross_shouldEntry.
  destruct (length data <=? index + longPeriod + 1)%nat; [eauto |].
  destruct (_sma_ok data index shortPeriod) as [? ->].
  destruct (_sma_ok data index longPeriod) as [? ->].
  destruct (_sma_ok data (index + 1) shortPeriod) as [? ->].
  destruct (_sma_ok data (index + 1) longPeriod) as [? ->].
  cbn [JS.bind]. eauto.
Qed.

Lemma VAOBreakout_shouldEntry_ok (volumeMultiple priceChangeMin : Q)
  (data : list PriceBar) (index : nat) :
  exists b,
    VAOBreakout_shouldEntry volumeMultiple priceChangeMin data index = JS.Ok b.
Proof.
  unfold VAOBreakout_shouldEntry.
  destruct (Nat.leb_spec (length data) (index + 20)) as [Hle | Hgt]; [eauto |].
  unfold JS.get.
  destruct (nth_error data index) as [today |] eqn:E0;
    [| apply nth_error_None in E0; lia].
  destruct (nth_error data (index + 1)) as [yesterday |] eqn:E1;
    [| apply nth_error_None in E1; lia].
  cbn [JS.bind].
  destruct (_avgVolume_ok data index 5) as [? ->].
  cbn [JS.bind]. eauto.
Qed.

Lemma shouldEntry_ok (type : StrategyType) (params : Params)
  (data : list PriceBar) (index : nat) :
  exists b, shouldEntry (_createStrategy type params) data index = JS.Ok b.
Proof.
  destruct type; cbn [_createStrategy MACrossStrategy VAOBreakoutStrategy shouldEntry];
    auto using MACross_shouldEntry_ok, VAOBreakout_shouldEntry_ok.
Qed.

(** C9.  At an index with fewer earlier bars than the strategy's
    look-back (long period plus one for the moving-average cross,
    twenty for the volume breakout) the entry rule answers [false];
    and on no series and at no index does it raise: the read of
    [data[i]] is never out of range. *)
Theorem shouldEntry_short_history (type : StrategyType) (params : Params)
  (data : list PriceBar) (index : nat) :
  (Spec.priorBars data index < Spec.requiredLookback type params)%nat ->
  shouldEntry (_createStrategy type params) data index = JS.Ok false /\
  (forall data' index',
      exists b,
        shouldEntry (_createStrategy type params) data' index' = JS.Ok b).
Proof.
  intros Hshort. split; [| intros; apply shouldEntry_ok].
  unfold Spec.priorBars, Spec.requiredLookback in Hshort.
  destruct type;
    cbn [_createStrategy MACrossStrategy VAOBreakoutStrategy shouldEntry];
    unfold MACross_shouldEntry, VAOBreakout_shouldEntry;
    match goal with
    | |- context [(?a <=? ?b)%nat] =>
        destruct (Nat.leb_spec a b) as [Hle | Hgt]; [reflexivity | lia]
    end.
Qed.

(** Five bars are fewer than either look-back. *)
Lemma shouldEntry_short_history_witness :
  shouldEntry (_createStrategy MA_CROSS noParams) Samples.shortSeries 0
  = JS.Ok false /\
  shouldEntry (_createStrategy VAO_BREAKOUT noParams) Samples.shortSeries 2
  = JS.Ok false.
Proof.
  split.
  - apply (shouldEntry_short_history MA_CROSS noParams Samples.shortSeries 0).
    vm_compute. lia.
  - apply (shouldEntry_short_history VAO_BREAKOUT noParams Samples.shortSeries 2).
    vm_compute. lia.
Defined.

End Strategies.

(** ** The VAO indicator *)

Section VaoScore.

Import Vao.




Lemma Forall_firstn {A : Type} (P : A -> Prop) (n : nat) (l : list A) :
  Forall P l -> Forall P (firstn n l).
Proof.
  intros H. revert n. induction H as [| x l Hx _ IH]; intros [| n];
    cbn [firstn]; auto.
Qed.




Lemma add_if_points (c : bool) (amount score : Q) :
  add_if c amount score == score + Spec.points c amount.
Proof. unfold add_if, Spec.points. destruct c; lra. Qed.




End VaoScore.

(** ** Maximum drawdown *)

Section MaxDrawdown.

Lemma nth_error_snoc {A : Type} (seq : list A) (x : A) (k : nat) (v : A) :
  nth_error (seq ++ [x]) k = Some v ->
  ((k < length seq)%nat /\ nth_error seq k = Some v) \/
  (k = length seq /\ v = x).
Proof.
  intros H. destruct (Nat.lt_ge_cases k (length seq)) as [Hlt | Hge].
  - left. split; [assumption |]. now rewrite nth_error_app1 in H.
  - right. rewrite nth_error_app2 in H by assumption.
    destruct (k - length seq)%nat as [| m] eqn:E; cbn in H.
    + split; [lia | congruence].
    + destruct m; discriminate.
Qed.

Lemma nth_error_snoc_old {A : Type} (seq : list A) (x : A) (k : nat) (v : A) :
  nth_error seq k = Some v -> nth_error (seq ++ [x]) k = Some v.
Proof.
  intros H. rewrite nth_error_app1; [assumption |].
  apply nth_error_Some. congruence.
Qed.

Lemma nth_error_snoc_new {A : Type} (seq : list A) (x : A) :
  nth_error (seq ++ [x]) (length seq) = Some x.
Proof. rewrite nth_error_app2 by lia. now rewrite Nat.sub_diag. Qed.

Lemma drawdownStep_inv (seq : list Q) (st : DrawdownState) (x : Q) :
  DrawdownInv seq st -> DrawdownInv (seq ++ [x]) (drawdownStep st x).
Proof.
  intros [Hmax [kp Hkp] Hbound Hwit].
  set (p' := if JS.gtb x (peak st) then x else peak st).
  assert (peak st <= p' /\ x <= p') as [Hp Hx].
  { subst p'. destruct (gtb_spec x (peak st)); lra. }
  assert (Hmax' : forall k v, nth_error (seq ++ [x]) k = Some v -> v <= p').
  { intros k v H. apply nth_error_snoc in H as [[_ H] | [_ ->]]; [| assumption].
    apply Hmax in H. lra. }
  assert (Hin' : exists k, (k <= length seq)%nat /\
                           nth_error (seq ++ [x]) k = Some p').
  { subst p'. destruct (gtb_spec x (peak st)).
    - exists (length seq). split; [lia | apply nth_error_snoc_new].
    - exists kp. split; [| now apply nth_error_snoc_old].
      apply Nat.lt_le_incl, nth_error_Some. congruence. }
  assert (peak (drawdownStep st x) = p') as Epeak.
  { unfold drawdownStep. fold p'. now destruct (JS.gtb (p' - x) (maxDrawdown st)). }
  assert (maxDrawdown st <= maxDrawdown (drawdownStep st x) /\
          p' - x <= maxDrawdown (drawdownStep st x)) as [Hold Hnew].
  { unfold drawdownStep. fold p'.
    destruct (gtb_spec (p' - x) (maxDrawdown st)); cbn [maxDrawdown]; lra. }
  constructor.
  - rewrite Epeak. exact Hmax'.
  - rewrite Epeak. destruct Hin' as (k & _ & Hk). now exists k.
  - intros i j vi vj Hij Hi Hj.
    apply nth_error_snoc in Hj as [[Hlt Hj] | [Hjlast ->]].
    + apply nth_error_snoc in Hi as [[_ Hi] | [Hilast _]]; [| lia].
      pose proof (Hbound i j vi vj Hij Hi Hj). lra.
    + apply Hmax' in Hi. lra.
  - unfold drawdownStep. fold p'.
    destruct (gtb_spec (p' - x) (maxDrawdown st)) as [Hgt | Hle];
      cbn [maxDrawdown maxDrawdownPct].
    + destruct Hin' as (k & Hk & Hnk).
      exists k, (length seq), p', x.
      repeat split; try assumption; try reflexivity.
      * apply nth_error_snoc_new.
      * intros k' v _ H. now apply Hmax' in H.
    + destruct Hwit as (i & j & vi & vj & Hij & Hi & Hj & Hpk & Hdd & Hpct).
      exists i, j, vi, vj.
      repeat split; try assumption; try now apply nth_error_snoc_old.
      intros k v Hk H. apply nth_error_snoc in H as [[_ H] | [Hklast _]].
      * now apply (Hpk k).
      * assert (j < length seq)%nat by (apply nth_error_Some; congruence). lia.
Qed.

Lemma drawdown_fold_inv (rest seq : list Q) (st : DrawdownState) :
  DrawdownInv seq st ->
  DrawdownInv (seq ++ rest) (fold_left drawdownStep rest st).
Proof.
  revert seq st. induction rest as [| x rest IH]; intros seq st H; cbn [fold_left].
  - now rewrite app_nil_r.
  - replace (seq ++ x :: rest) with ((seq ++ [x]) ++ rest)
      by (now rewrite <- app_assoc).
    apply IH. now apply drawdownStep_inv.
Qed.

(** Reading the first point leaves the initial state as it is. *)
Lemma drawdownStep_first (first : Q) :
  drawdownStep {| peak := first; maxDrawdown := 0; maxDrawdownPct := 0 |} first
  = {| peak := first; maxDrawdown := 0; maxDrawdownPct := 0 |}.
Proof.
  unfold drawdownStep. cbn [peak maxDrawdown maxDrawdownPct].
  destruct (gtb_spec first first) as [H | _]; [lra |].
  destruct (gtb_spec (first - first) 0) as [H | _]; [lra | reflexivity].
Qed.

Lemma drawdown_initial_inv (first : Q) :
  DrawdownInv [first] {| peak := first; maxDrawdown := 0; maxDrawdownPct := 0 |}.
Proof.
  assert (Hone : forall k v, nth_error [first] k = Some v -> v = first).
  { intros [| [| k]] v H; cbn in H; congruence. }
  constructor; cbn [peak maxDrawdown maxDrawdownPct].
  - intros k v H. apply Hone in H. subst. lra.
  - now exists 0%nat.
  - intros i j vi vj _ Hi Hj. apply Hone in Hi, Hj. subst. lra.
  - exists 0%nat, 0%nat, first, first.
    repeat split; try reflexivity.
    + intros k v _ H. apply Hone in H. subst. lra.
    + lra.
    + destruct (gtb_spec first 0); [field; lra | reflexivity].
Qed.

(** C6.  The maximum drawdown is the largest drop from a point of the
    equity curve to a later one: no such drop exceeds it, and on a
    non-empty curve it is the drop from a running peak to a later
    trough, reported in absolute terms and as a percentage of that
    peak.  On [100,120,110,130,105,140] this is 25 from the peak 130 to
    the trough 105, i.e. 19.23% to two decimals; an empty curve yields
    zero for both. *)
Theorem calculateMaxDrawdown_largest_drop :
  (forall curve : list Q,
      let drawdown := fst (_calculateMaxDrawdown curve) in
      let pct := snd (_calculateMaxDrawdown curve) in
      (forall i j vi vj,
          (i <= j)%nat ->
          nth_error curve i = Some vi -> nth_error curve j = Some vj ->
          vi - vj <= drawdown) /\
      (curve = [] \/
       exists i j peak trough,
         (i <= j)%nat /\
         nth_error curve i = Some peak /\ nth_error curve j = Some trough /\
         (forall k v, (k <= j)%nat -> nth_error curve k = Some v -> v <= peak) /\
         drawdown == peak - trough /\
         pct == (if JS.gtb peak 0 then (peak - trough) / peak * 100 else 0))) /\
  (let r := _calculateMaxDrawdown [100; 120; 110; 130; 105; 140] in
   fst r == 130 - 105 /\
   snd r == (130 - 105) / 130 * 100 /\
   19.23 <= snd r /\ snd r < 19.24 /\
   JS.round2 (snd r) == 19.23) /\
  _calculateMaxDrawdown [] = (0, 0).
Proof.
  split; [| split; [| reflexivity]].
  - intros [| first rest] drawdown pct.
    + split; [| now left]. intros [| i] j vi vj _ H; discriminate.
    + subst drawdown pct. unfold _calculateMaxDrawdown. cbn [fst snd].
      cbn [fold_left]. rewrite drawdownStep_first.
      destruct (drawdown_fold_inv rest [first] _ (drawdown_initial_inv first))
        as [_ _ Hbound Hwit].
      cbn [app] in Hbound, Hwit. split; [exact Hbound | right; exact Hwit].
  - vm_compute. repeat split; intros; discriminate.
Qed.

(** The percentage is that of the largest absolute drop, which need
    not be the largest relative one: on [100, 50, 200, 120] the drop
    200 -> 120 wins with 80, reported as 40%, although 100 -> 50 lost
    50%. *)
Remark maxDrawdownPct_of_largest_drop :
  fst (_calculateMaxDrawdown [100; 50; 200; 120]) == 80 /\
  snd (_calculateMaxDrawdown [100; 50; 200; 120]) == 40.
Proof. split; reflexivity. Qed.

End MaxDrawdown.

(** ** The FILTER stage of the screener *)

Section Filter.

Import Screener.

Lemma fold_left_volumes (rows : list Row) (a : Q) :
  fold_left (fun s r => s + rvolume r) rows a
  = fold_left Qplus (map rvolume rows) a.
Proof.
  revert a. induction rows as [| r rows IH]; intros a; cbn [fold_left map].
  - reflexivity.
  - apply IH.
Qed.

Lemma firstn_full_length {A : Type} (n : nat) (l : list A) :
  (n <= length l)%nat -> length (firstn n l) = n.
Proof. intros H. rewrite length_firstn. lia. Qed.

(** What one symbol must satisfy to pass the body of the loop. *)
Lemma passesFilter_iff (config : Config) (db : Db) (date symbol : string) :
  passesFilter config db date symbol = true <->
  String.length symbol = 4%nat /\
  exists rows latest,
    db symbol date = Some rows /\
    (5 <= length rows)%nat /\
    nth_error rows 0 = Some latest /\
    minAvgVolume config <= Spec.avgVolume5 rows /\
    minPrice config <= rclose latest.
Proof.
  unfold passesFilter, Spec.avgVolume5.
  destruct (Nat.eqb_spec (String.length symbol) 4) as [Hlen | Hlen]; cbn [negb];
    [| split; [discriminate | tauto]].
  destruct (db symbol date) as [rows |];
    [| split; [discriminate | intros (_ & ? & ? & ? & _); discriminate]].
  destruct (Nat.ltb_spec (length (firstn 5 rows)) 5) as [Hshort | Hfull].
  - split; [discriminate |].
    intros (_ & rows' & latest & E & Hn & _). injection E as <-.
    rewrite firstn_full_length in Hshort by assumption. lia.
  - assert (5 <= length rows)%nat as Hrows.
    { rewrite length_firstn in Hfull. lia. }
    rewrite fold_left_volumes, (firstn_full_length 5 rows Hrows).
    change (inject_Z (Z.of_nat 5)) with 5. fold (JS.sum (map rvolume (firstn 5 rows))).
    destruct rows as [| latest others]; [cbn in Hrows; lia |].
    change (firstn 5 (latest :: others)) with (latest :: firstn 4 others).
    cbv iota.
    set (avg := JS.sum (map rvolume (latest :: firstn 4 others)) / 5).
    rewrite andb_true_iff.
    destruct (geb_spec avg (minAvgVolume config)) as [Hv | Hv];
      destruct (geb_spec (rclose latest) (minPrice config)) as [Hp | Hp].
    + split; [intros _ | auto]. split; [assumption |].
      exists (latest :: others), latest. auto.
    + split; [intros [_ H]; discriminate |].
      intros (_ & rows' & latest' & E & _ & E0 & _ & H).
      injection E as <-. cbn in E0. injection E0 as <-. contradiction.
    + split; [intros [H _]; discriminate |].
      intros (_ & rows' & latest' & E & _ & _ & H & _).
      injection E as <-. contradiction.
    + split; [intros [H _]; discriminate |].
      intros (_ & rows' & latest' & E & _ & _ & H & _).
      injection E as <-. contradiction.
Qed.

(** C7, as amended.  A symbol survives the FILTER stage exactly when it
    is one of the candidates, its code is four characters long (the
    test is on the length alone), the price query succeeds with at
    least five bars, the average volume of the five most recent bars is
    at least the configured floor and the latest close is at least the
    configured price floor; the defaults of the two floors are 1000 and
    10.  A symbol failing any of these is left out without an error. *)
Theorem applyFilters_survivors (config : Config) (db : Db)
  (symbols : list string) (date symbol : string) :
  (In symbol (_applyFilters config db symbols date) <->
   In symbol symbols /\
   String.length symbol = 4%nat /\
   exists rows latest,
     db symbol date = Some rows /\
     (5 <= length rows)%nat /\
     nth_error rows 0 = Some latest /\
     minAvgVolume config <= Spec.avgVolume5 rows /\
     minPrice config <= rclose latest) /\
  minAvgVolume FILTER_DEFAULTS = 1000 /\
  minPrice FILTER_DEFAULTS = 10.
Proof.
  split; [| split; reflexivity].
  rewrite <- passesFilter_iff.
  induction symbols as [| s rest IH]; cbn [_applyFilters In].
  - tauto.
  - destruct (passesFilter config db date s) eqn:E; cbn [In]; rewrite IH.
    + split.
      * intros [-> | [H1 H2]]; auto.
      * intros [[-> | H1] H2]; auto.
    + split.
      * intros [H1 H2]; auto.
      * intros [[-> | H1] H2]; [congruence | auto].
Qed.

(** C7, as stated, fails: a four-letter code with enough liquid history
    survives the filter although it is not a four-digit code. *)
Lemma applyFilters_keeps_letters :
  _applyFilters FILTER_DEFAULTS Samples.lettersDb
    ["ABCD"; "00631L"; "2330"]%string "2026-02-06"
  = ["ABCD"; "2330"]%string /\
  Spec.fourDigitCode "ABCD" = false.
Proof. split; vm_compute; reflexivity. Qed.

End Filter.

(** ** The fundamental scorer *)

Section Fundamental.

Import Screener.

(** No snapshot at all: the neutral score, exactly. *)
Lemma scoreFundamental_absent :
  scoreFundamental None = {| fscore := 50; fdetails := None |}.
Proof. reflexivity. Qed.

(** The four sub-scores of a snapshot; total by construction. *)
Lemma scoreFundamental_present (d : FundamentalData) :
  exists details, fdetails (scoreFundamental (Some d)) = Some details.
Proof. cbn. eauto. Qed.

(** A key that is missing from the object ([undefined]) sends each of
    the four components to its neutral 50. *)
Lemma scoreFundamental_undefined_neutral (d : FundamentalData) (details : FundamentalDetails) :
  fdetails (scoreFundamental (Some d)) = Some details ->
  (revenueGrowthYoY d = Undefined -> revenueScore details = 50) /\
  (revenueGrowthMoM d = Undefined -> momScore details = 50) /\
  (eps d = Undefined \/ epsPrevYear d = Undefined -> epsScore details = 50) /\
  (peRatio d = Undefined -> peScore details = 50).
Proof.
  cbn. intros H. injection H as <-. cbn.
  repeat split.
  - now intros ->.
  - now intros ->.
  - unfold epsGrowthOf. intros [-> | ->]; cbn; [reflexivity |].
    now rewrite andb_false_r.
  - now intros ->.
Qed.

(** [null] is treated as missing for the revenue growths and the P/E. *)
Lemma scoreFundamental_null_neutral (d : FundamentalData) (details : FundamentalDetails) :
  fdetails (scoreFundamental (Some d)) = Some details ->
  (revenueGrowthYoY d = Null -> revenueScore details = 50) /\
  (revenueGrowthMoM d = Null -> momScore details = 50) /\
  (peRatio d = Null -> peScore details = 50).
Proof.
  cbn. intros H. injection H as <-. cbn.
  repeat split; now intros ->.
Qed.

(** C8.  The scorer is total and gives 50 without a snapshot, but a
    snapshot whose EPS is [null] (an SQL NULL of the row) next to a
    positive prior-year EPS does not get the neutral EPS sub-score: the
    growth is computed from [null] as if the EPS were 0, the sub-score
    is 15 and the total 40, where the same row with the key missing
    scores 50. *)
Theorem scoreFundamental_null_eps :
  let row := {| revenueGrowthMoM := Null; revenueGrowthYoY := Null;
                eps := Null; epsPrevYear := Num 2; peRatio := Null |} in
  let row' := {| revenueGrowthMoM := Null; revenueGrowthYoY := Null;
                 eps := Undefined; epsPrevYear := Num 2; peRatio := Null |} in
  (exists details,
      fdetails (scoreFundamental (Some row)) = Some details /\
      revenueScore details = 50 /\ momScore details = 50 /\
      peScore details = 50 /\
      epsScore details = 15) /\
  fscore (scoreFundamental (Some row)) = 40 /\
  fscore (scoreFundamental (Some row')) = 50 /\
  fscore (scoreFundamental None) = 50.
Proof.
  cbv zeta. split; [eexists; split; [reflexivity |] |]; vm_compute; auto.
Qed.

End Fundamental.

(** ** The simulation loop *)

Section Simulation.

Variable _daysBetween : string -> string -> Q.
Variable config : Config.

Local Abbreviation step := (step _daysBetween config).
Local Abbreviation loop := (loop _daysBetween config).
Local Abbreviation stateAfter := (stateAfter _daysBetween config).
Local Abbreviation _simulate := (_simulate _daysBetween config).
Local Abbreviation stepInPosition := (stepInPosition _daysBetween config).
Local Abbreviation stepFlat := (stepFlat config).

Lemma loop_app (strategy : Strategy) (data rd l1 l2 : list PriceBar) (i : nat)
  (st : SimState) :
  loop strategy data rd (l1 ++ l2) i st
  = (st' <- loop strategy data rd l1 i st ;;
     loop strategy data rd l2 (i + length l1) st').
Proof.
  revert i st. induction l1 as [| bar l1 IH]; intros i st; cbn [app Backtest.loop length].
  - cbn [JS.bind]. now rewrite Nat.add_0_r.
  - destruct (step strategy data rd i bar st) as [st1 | e]; cbn [JS.bind].
    + rewrite IH. now rewrite Nat.add_succ_comm.
    + reflexivity.
Qed.

Lemma stateAfter_all (strategy : Strategy) (data : list PriceBar) :
  stateAfter strategy data (length data)
  = loop strategy data (rev data) data 0 (initialState config).
Proof. unfold Backtest.stateAfter. now rewrite firstn_all. Qed.

(** The state after [n + 1] bars is one step from the state after [n]. *)
Lemma stateAfter_succ (strategy : Strategy) (data : list PriceBar) (n : nat)
  (bar : PriceBar) :
  nth_error data n = Some bar ->
  stateAfter strategy data (S n)
  = (st <- stateAfter strategy data n ;; step strategy data (rev data) n bar st).
Proof.
  intros Hn. unfold Backtest.stateAfter.
  assert (n < length data)%nat as Hlt by (apply nth_error_Some; congruence).
  assert (firstn (S n) data = firstn n data ++ [bar]) as ->.
  { clear Hlt. revert n Hn. induction data as [| b data IH]; intros [| n] Hn;
      cbn in Hn; try discriminate.
    - injection Hn as ->. reflexivity.
    - cbn [firstn app]. f_equal. now apply IH. }
  rewrite loop_app. rewrite length_firstn, Nat.min_l by lia.
  destruct (Backtest.loop _ _ _ _ _ _ _ _) as [st | e]; cbn [JS.bind Backtest.loop];
    [| reflexivity].
  cbn [Nat.add]. now destruct (step strategy data (rev data) n bar st).
Qed.

Lemma recordEquity_inv (bar : PriceBar) (st : SimState) :
  SimInv st -> SimInv (recordEquity bar st).
Proof. intros H. exact H. Qed.

Lemma stepInPosition_inv (strategy : Strategy) (bar : PriceBar) (pos : Position)
  (st : SimState) :
  Spec.saneConfig config -> Spec.validBar bar ->
  SimInv st -> position st = Some pos ->
  SimInv (stepInPosition strategy bar pos st).
Proof.
  intros (_ & _ & Hslip & Hfees) [Hclose _] [Hcap Hpos] Hopen.
  specialize (Hpos pos Hopen).
  unfold Backtest.stepInPosition.
  destruct (exit _); apply recordEquity_inv; split; cbn [capital position].
  - set (proceeds := _ - _ - _).
    assert (proceeds ==
            close bar * ((1 - slippage config) *
                         (pshares pos * (1 - commission config - tax config))))
      as -> by (subst proceeds; ring).
    assert (0 <= close bar * ((1 - slippage config) *
                              (pshares pos * (1 - commission config - tax config)))).
    { repeat apply Qmult_le_0_compat; lra. }
    lra.
  - discriminate.
  - assumption.
  - intros pos' E. injection E as <-. assumption.
Qed.

Lemma stepFlat_cases (data : list PriceBar) (bar : PriceBar) (enter : bool)
  (st : SimState) :
  position st = None ->
  let st' := stepFlat data bar enter st in
  (position st' = None /\ capital st' = capital st) \/
  (exists pos',
      position st' = Some pos' /\
      enter = true /\
      0 < pshares pos' /\
      pshares pos' = sharesOf config (capital st) bar /\
      pcost pos' = JS.Math_round (costOf config (capital st) bar) /\
      costOf config (capital st) bar <= capital st /\
      capital st' = capital st - costOf config (capital st) bar).
Proof.
  intros Hflat st'. subst st'. unfold Backtest.stepFlat.
  destruct enter; [| left; cbn; auto].
  destruct (leb_spec (sharesOf config (capital st) bar) 0) as [Hle | Hgt];
    [left; auto |].
  destruct (gtb_spec (costOf config (capital st) bar) (capital st)) as [Hbig | Hfit];
    [left; auto |].
  right. eexists. cbn [recordEquity position capital pshares pcost].
  repeat split; try reflexivity; cbn [pshares]; lra.
Qed.

Lemma stepFlat_inv (data : list PriceBar) (bar : PriceBar) (enter : bool)
  (st : SimState) :
  SimInv st -> position st = None -> SimInv (stepFlat data bar enter st).
Proof.
  intros [Hcap Hpos] Hflat.
  destruct (stepFlat_cases data bar enter st Hflat)
    as [[Hp Hc] | (pos' & Hp & _ & Hsh & _ & _ & Hfit & Hc)];
    split; rewrite ?Hc; try lra.
  - intros pos E. congruence.
  - intros pos E. congruence.
Qed.

Lemma step_inv (strategy : Strategy) (data rd : list PriceBar) (i : nat)
  (bar : PriceBar) (st st' : SimState) :
  Spec.saneConfig config -> Spec.validBar bar ->
  SimInv st -> step strategy data rd i bar st = JS.Ok st' -> SimInv st'.
Proof.
  intros Hcfg Hbar Hinv. unfold Backtest.step.
  destruct (position st) as [pos |] eqn:Hp.
  - intros E. injection E as <-. now apply stepInPosition_inv.
  - destruct (shouldEntry strategy rd _) as [enter | e]; cbn [JS.bind];
      [| discriminate].
    intros E. injection E as <-. now apply stepFlat_inv.
Qed.

Lemma loop_inv (strategy : Strategy) (data rd bars : list PriceBar) (i : nat)
  (st st' : SimState) :
  Spec.saneConfig config -> Forall Spec.validBar bars ->
  SimInv st -> loop strategy data rd bars i st = JS.Ok st' -> SimInv st'.
Proof.
  intros Hcfg Hbars. revert i st.
  induction Hbars as [| bar bars Hbar _ IH]; intros i st Hinv; cbn [Backtest.loop].
  - intros E. injection E as <-. assumption.
  - destruct (step strategy data rd i bar st) as [st1 | e] eqn:E1; cbn [JS.bind];
      [| discriminate].
    apply IH. eapply step_inv; eassumption.
Qed.

Lemma stateAfter_inv (strategy : Strategy) (data : list PriceBar) (n : nat)
  (st : SimState) :
  Spec.saneConfig config -> Forall Spec.validBar data ->
  stateAfter strategy data n = JS.Ok st -> SimInv st.
Proof.
  intros Hcfg Hdata. unfold Backtest.stateAfter.
  apply loop_inv; [assumption | now apply Forall_firstn |].
  split; cbn; [apply Hcfg | discriminate].
Qed.

Lemma shouldExit_withEntry (strategy : Strategy)
  (entry : list PriceBar -> nat -> JS.result bool) (pos : Position)
  (bar : PriceBar) (highest : Q) :
  shouldExit (Spec.withEntry strategy entry) pos bar highest
  = shouldExit strategy pos bar highest.
Proof. reflexivity. Qed.

Lemma stepInPosition_position (strategy : Strategy) (bar : PriceBar)
  (pos : Position) (st : SimState) :
  position (stepInPosition strategy bar pos st) = Some pos \/
  position (stepInPosition strategy bar pos st) = None.
Proof.
  unfold Backtest.stepInPosition. destruct (exit _); cbn; auto.
Qed.

(** C10.  In every state the loop of [_simulate] reaches under sane
    economics and valid bars the cash is not negative.  While a
    position is open the entry rule is not consulted (the next state
    is the same whatever the entry rule is) and the position is either
    kept or closed, never replaced; while flat, the next bar either
    leaves the state flat with the cash untouched, or opens a position
    whose cost, buy commission included, is at most the cash and is
    deducted from it. *)
Theorem simulate_single_position_nonneg_capital (strategy : Strategy)
  (data : list PriceBar) (n : nat) (st : SimState) :
  Spec.saneConfig config -> Forall Spec.validBar data ->
  stateAfter strategy data n = JS.Ok st ->
  0 <= capital st /\
  (forall bar,
      nth_error data n = Some bar ->
      match position st with
      | Some pos =>
          (forall entry,
              step (Spec.withEntry strategy entry) data (rev data) n bar st
              = step strategy data (rev data) n bar st) /\
          exists st',
            stateAfter strategy data (S n) = JS.Ok st' /\
            (position st' = Some pos \/ position st' = None)
      | None =>
          forall st',
            stateAfter strategy data (S n) = JS.Ok st' ->
            (position st' = None /\ capital st' = capital st) \/
            (exists pos',
                position st' = Some pos' /\
                costOf config (capital st) bar <= capital st /\
                capital st' = capital st - costOf config (capital st) bar)
      end).
Proof.
  intros Hcfg Hdata Hst. split.
  - now apply (stateAfter_inv strategy data n st Hcfg Hdata).
  - intros bar Hbar. rewrite (stateAfter_succ strategy data n bar Hbar), Hst.
    cbn [JS.bind]. unfold Backtest.step.
    destruct (position st) as [pos |] eqn:Hp.
    + split; [reflexivity |].
      eexists. split; [reflexivity | apply stepInPosition_position].
    + intros st'.
      destruct (shouldEntry strategy (rev data) _) as [enter | e]; cbn [JS.bind];
        [| discriminate].
      intros E. injection E as <-.
      destruct (stepFlat_cases data bar enter st Hp)
        as [H | (pos' & H1 & _ & _ & _ & _ & H2 & H3)]; [now left |].
      right. exists pos'. auto.
Qed.

(** C3.  When the loop ends with a position still open, [_simulate]
    appends one more trade to the ledger: the position closed at the
    last bar's close, without slippage, marked as the forced close at
    the end of the period; with a dated last bar it counts among the
    completed trades the performance report is computed from. *)
Theorem simulate_forced_close (strategy : Strategy) (data : list PriceBar)
  (st : SimState) (pos : Position) :
  data <> [] ->
  stateAfter strategy data (length data) = JS.Ok st ->
  position st = Some pos ->
  exists earlier lastBar,
    data = earlier ++ [lastBar] /\
    let t := forcedTrade _daysBetween config pos lastBar in
    _simulate strategy data = JS.Ok (trades st ++ [t], equityCurve st) /\
    exitPrice t = close lastBar /\
    exitReason t = ForcedClose /\
    exitDate t = Some (date lastBar) /\
    pnl t = JS.Math_round
              (close lastBar * pshares pos * (1 - commission config - tax config)
               - pcost pos) /\
    (date lastBar <> ""%string ->
     In t (completedTradesOf (trades st ++ [t]))).
Proof.
  intros Hne Hst Hpos.
  destruct (exists_last Hne) as (earlier & lastBar & ->).
  exists earlier, lastBar. split; [reflexivity |].
  cbv zeta. repeat split.
  - unfold Backtest._simulate. rewrite <- stateAfter_all, Hst. cbn [JS.bind].
    rewrite Hpos, length_app. cbn [length].
    replace (length earlier + 1 - 1)%nat with (length earlier) by lia.
    now rewrite nth_error_snoc_new.
  - intros Hdate. unfold completedTradesOf. apply filter_In. split.
    + apply in_or_app. right. now left.
    + unfold hasExitDate. cbn [forcedTrade closeTrade exitDate].
      destruct (String.eqb_spec (date lastBar) ""); [contradiction | reflexivity].
Qed.

End Simulation.

Section SimulationRun.

(** A run of the volume-breakout strategy over [Samples.history] with
    the default economics: flat for twenty bars, entry on the last. *)
Lemma sample_config_sane : Spec.saneConfig DEFAULT_CONFIG.
Proof. repeat split; discriminate. Defined.

Lemma sample_history_valid : Forall Spec.validBar Samples.history.
Proof.
  apply Forall_app. split.
  - apply Forall_forall. intros bar Hin. apply repeat_spec in Hin. subst bar.
    split; [reflexivity | discriminate].
  - repeat constructor. discriminate.
Defined.

Lemma simulate_single_position_nonneg_capital_witness :
  exists st st',
    stateAfter (fun _ _ => 0) DEFAULT_CONFIG (VAOBreakoutStrategy noParams)
      Samples.history 20 = JS.Ok st /\
    stateAfter (fun _ _ => 0) DEFAULT_CONFIG (VAOBreakoutStrategy noParams)
      Samples.history 21 = JS.Ok st' /\
    position st = None /\ capital st == 1000000 /\
    (exists pos', position st' = Some pos' /\ pshares pos' == 9000) /\
    0 <= capital st'.
Proof.
  eexists. eexists.
  split; [vm_compute; reflexivity |]. split; [vm_compute; reflexivity |].
  split; [reflexivity |]. split; [reflexivity |].
  split; [eexists; split; reflexivity |].
  refine (proj1 (simulate_single_position_nonneg_capital (fun _ _ => 0)
                   DEFAULT_CONFIG (VAOBreakoutStrategy noParams)
                   Samples.history 21 _ sample_config_sane
                   sample_history_valid _)).
  vm_compute. reflexivity.
Defined.

Lemma simulate_forced_close_witness :
  exists ledger curve t,
    _simulate (fun _ _ => 0) DEFAULT_CONFIG (VAOBreakoutStrategy noParams)
      Samples.history = JS.Ok (ledger ++ [t], curve) /\
    exitPrice t = 106 /\ exitReason t = ForcedClose.
Proof.
  destruct (simulate_forced_close (fun _ _ => 0) DEFAULT_CONFIG
              (VAOBreakoutStrategy noParams) Samples.history
              _ _ ltac:(discriminate) ltac:(vm_compute; reflexivity)
              ltac:(vm_compute; reflexivity))
    as (earlier & lastBar & Hd & Hrun & Hprice & Hreason & _).
  apply app_inj_tail in Hd. destruct Hd as [_ <-].
  eexists. eexists. eexists. split; [exact Hrun |]. split; assumption.
Defined.

End SimulationRun.

(** ** The performance report *)

Section PerformanceReport.


Lemma fold_left_add_total {A : Type} (f : A -> Q) (xs : list A) (a : Q) :
  fold_left (fun s t => s + f t) xs a == a + Spec.total (map f xs).
Proof.
  revert a. induction xs as [| x xs IH]; intros a; cbn [fold_left map Spec.total fold_right].
  - lra.
  - rewrite IH. fold (Spec.total (map f xs)). lra.
Qed.







Variable Math_sqrt : Q -> Q.

(** The square root respects equality of rationals. *)
Hypothesis Math_sqrt_comp : forall x y, x == y -> Math_sqrt x == Math_sqrt y.





End PerformanceReport.

Section PerformanceSamples.




End PerformanceSamples.

(** * Further properties of the code *)

(** ** Sorting *)

Section Sorting.

Context {A : Type} (key : A -> Q).

Lemma insertDesc_perm (a : A) (l : list A) :
  Permutation (a :: l) (Arr.insertDesc key a l).
Proof.
  induction l as [| b l IH]; cbn [Arr.insertDesc]; [reflexivity |].
  destruct (JS.gtb (key b) (key a)); [| reflexivity].
  rewrite perm_swap. now apply perm_skip.
Qed.

Lemma sortDesc_perm (l : list A) : Permutation l (Arr.sortDesc key l).
Proof.
  induction l as [| a l IH]; cbn [Arr.sortDesc fold_right]; [reflexivity |].
  rewrite <- insertDesc_perm. now apply perm_skip.
Qed.

Lemma sortDesc_In (l : list A) (x : A) : In x (Arr.sortDesc key l) <-> In x l.
Proof.
  split; apply Permutation_in; [symmetry |]; apply sortDesc_perm.
Qed.

Lemma sortDesc_length (l : list A) : length (Arr.sortDesc key l) = length l.
Proof. symmetry. apply Permutation_length, sortDesc_perm. Qed.

Lemma insertDesc_sorted (a : A) (l : list A) :
  Spec.descendingBy key l -> Spec.descendingBy key (Arr.insertDesc key a l).
Proof.
  unfold Spec.descendingBy.
  induction l as [| b l IH]; intros Hs; cbn [Arr.insertDesc].
  - repeat constructor.
  - apply StronglySorted_inv in Hs as [Hl Hb].
    destruct (gtb_spec (key b) (key a)) as [Hgt | Hle].
    + constructor; [now apply IH |].
      apply (Permutation_Forall (insertDesc_perm a l)).
      constructor; [lra | assumption].
    + constructor; [now constructor |].
      constructor; [lra |].
      apply Forall_forall. intros y Hy. rewrite Forall_forall in Hb.
      specialize (Hb y Hy). cbn in Hb. lra.
Qed.

Lemma sortDesc_sorted (l : list A) : Spec.descendingBy key (Arr.sortDesc key l).
Proof.
  induction l as [| a l IH]; cbn [Arr.sortDesc fold_right].
  - constructor.
  - now apply insertDesc_sorted.
Qed.

Lemma descendingBy_filter (f : A -> bool) (l : list A) :
  Spec.descendingBy key l -> Spec.descendingBy key (filter f l).
Proof.
  unfold Spec.descendingBy. induction 1 as [| a l Hl IH Ha]; cbn [filter].
  - constructor.
  - destruct (f a); [| assumption].
    constructor; [assumption |].
    apply Forall_forall. intros y Hy. apply filter_In in Hy as [Hy _].
    rewrite Forall_forall in Ha. now apply Ha.
Qed.

Lemma descendingBy_firstn (n : nat) (l : list A) :
  Spec.descendingBy key l -> Spec.descendingBy key (firstn n l).
Proof.
  unfold Spec.descendingBy. intros H. revert n.
  induction H as [| a l Hl IH Ha]; intros [| n]; cbn [firstn];
    try constructor; auto.
  now apply Forall_firstn.
Qed.

End Sorting.

(** ** More on the VAO indicator *)

Section VaoMore.

Import Vao.





(** [calculateVAO] succeeds exactly on a series that has both the
    [longPeriod] bars it asks for and the two bars it reads. *)
Lemma calculateVAO_ok (data : list PriceBar) (options : Options) :
  (longPeriod options <= length data)%nat -> (2 <= length data)%nat ->
  exists r, calculateVAO data options = JS.Ok r.
Proof.
  intros Hlong Htwo. unfold calculateVAO.
  destruct (Nat.ltb_spec (length data) (longPeriod options)); [lia |].
  destruct data as [| today [| yesterday rest]]; cbn [length] in Htwo; try lia.
  cbn [JS.get nth_error JS.bind]. eauto.
Qed.

(** X2.  The three outcomes of [calculateVAO], whatever the options:
    fewer bars than [longPeriod] is the insufficient-data error; a
    series that passes this test with fewer than two bars (possible
    only for [longPeriod <= 1]) fails with a [TypeError] on the read of
    today's or yesterday's bar; every other series gets a result. *)
Theorem calculateVAO_outcome (data : list PriceBar) (options : Options) :
  ((length data < longPeriod options)%nat ->
   calculateVAO data options = JS.Throw JS.InsufficientData) /\
  ((longPeriod options <= length data)%nat -> (length data < 2)%nat ->
   calculateVAO data options = JS.Throw JS.TypeError) /\
  ((longPeriod options <= length data)%nat -> (2 <= length data)%nat ->
   exists r, calculateVAO data options = JS.Ok r).
Proof.
  repeat split.
  - intros H. unfold calculateVAO.
    destruct (Nat.ltb_spec (length data) (longPeriod options)); [reflexivity | lia].
  - intros Hlong Hshort. unfold calculateVAO.
    destruct (Nat.ltb_spec (length data) (longPeriod options)); [lia |].
    destruct data as [| today [| yesterday rest]]; cbn [length] in Hshort;
      try lia; reflexivity.
  - apply calculateVAO_ok.
Qed.

(** The result of a successful call, spelled out. *)
Lemma calculateVAO_inv (data : list PriceBar) (options : Options) (r : VAOResult) :
  calculateVAO data options = JS.Ok r ->
  exists today yesterday rest,
    data = today :: yesterday :: rest /\
    let avg5 := average (firstn (shortPeriod options) (map volume data)) in
    let avg20 := average (firstn (longPeriod options) (map volume data)) in
    let change := priceChangePct today yesterday in
    let turnover := turnoverPct today (totalShares options) in
    let base :=
      add_if (JS.gtb change 5) 15
        (add_if (JS.gtb change 3) 15
           (add_if (JS.gtb avg20 0 && JS.gtb (volume today) (avg20 * 2.0)) 25
              (add_if (JS.gtb avg5 0 && JS.gtb (volume today) (avg5 * 1.5)) 25 0))) in
    score r =
      match turnover with
      | Some t => add_if (JS.gtb t 10) 10 (add_if (JS.gtb t 5) 10 base)
      | None => base
      end /\
    signal r =
      (if JS.geb (score r) 70 then STRONG
       else if JS.geb (score r) 50 then MODERATE else WEAK) /\
    volumeRatio5 (details r) =
      (if JS.gtb avg5 0 then Some (volume today / avg5) else None) /\
    volumeRatio20 (details r) =
      (if JS.gtb avg20 0 then Some (volume today / avg20) else None) /\
    (turnover = None <-> turnoverRate (details r) = None).
Proof.
  unfold calculateVAO.
  destruct (length data <? longPeriod options)%nat; [discriminate |].
  destruct data as [| today [| yesterday rest]]; try discriminate.
  cbn [JS.get nth_error JS.bind]. intros E. injection E as <-.
  exists today, yesterday, rest. split; [reflexivity |].
  cbn zeta. cbn [score signal details volumeRatio5 volumeRatio20 turnoverRate].
  repeat split; try reflexivity.
  - now intros ->.
  - destruct (turnoverPct today (totalShares options)); [discriminate | reflexivity].
Qed.

Lemma add_if_bounds (c : bool) (amount lo hi : Q) (sc : Q) :
  0 <= amount -> lo <= sc -> sc <= hi ->
  lo <= add_if c amount sc /\ add_if c amount sc <= hi + amount.
Proof. intros. unfold add_if. destruct c; lra. Qed.

(** X3.  Every score [calculateVAO] returns lies in [0,100], and in
    [0,80] when no share count is given (no turnover is computed). *)
Theorem calculateVAO_score_range (data : list PriceBar) (options : Options)
  (r : VAOResult) :
  calculateVAO data options = JS.Ok r ->
  0 <= score r /\ score r <= 100 /\
  (totalShares options = None -> score r <= 80).
Proof.
  intros H. apply calculateVAO_inv in H.
  destruct H as (today & yesterday & rest & _ & H). cbn zeta in H.
  destruct H as (Hs & _). rewrite Hs. clear Hs.
  set (c1 := JS.gtb _ 0 && JS.gtb (volume today) (_ * 1.5)).
  set (c2 := JS.gtb _ 0 && JS.gtb (volume today) (_ * 2.0)).
  set (c3 := JS.gtb _ 3). set (c4 := JS.gtb _ 5).
  assert (0 <= add_if c4 15 (add_if c3 15 (add_if c2 25 (add_if c1 25 0))) /\
          add_if c4 15 (add_if c3 15 (add_if c2 25 (add_if c1 25 0))) <= 80)
    as [Hlo Hhi].
  { destruct c1, c2, c3, c4; split; discriminate. }
  set (base := add_if c4 15 _) in *. clearbody base.
  repeat split.
  - destruct (turnoverPct today (totalShares options)) as [t |]; [| assumption].
    unfold add_if. destruct (JS.gtb t 10), (JS.gtb t 5); lra.
  - destruct (turnoverPct today (totalShares options)) as [t |]; [| lra].
    unfold add_if. destruct (JS.gtb t 10), (JS.gtb t 5); lra.
  - intros Hnone. rewrite Hnone. cbn [turnoverPct]. assumption.
Qed.

Lemma calculateVAO_score_range_witness :
  exists r,
    calculateVAO Samples.breakoutSeries defaultOptions = JS.Ok r /\
    0 <= score r /\ score r <= 100.
Proof.
  eexists. split; [vm_compute; reflexivity |].
  destruct (calculateVAO_score_range Samples.breakoutSeries defaultOptions _
              ltac:(vm_compute; reflexivity)) as (H1 & H2 & _).
  split; assumption.
Defined.

(** X4.  A STRONG signal always rests on a volume surge: today's
    volume is more than 1.5 times the short average or more than twice
    the long one (price move and turnover alone reach 50 at most). *)
Theorem calculateVAO_strong_needs_volume (data : list PriceBar)
  (options : Options) (r : VAOResult) :
  calculateVAO data options = JS.Ok r -> signal r = STRONG ->
  (exists ratio, volumeRatio5 (details r) = Some ratio /\ 1.5 < ratio) \/
  (exists ratio, volumeRatio20 (details r) = Some ratio /\ 2 < ratio).
Proof.
  intros H Hstrong. apply calculateVAO_inv in H.
  destruct H as (today & yesterday & rest & _ & H). cbn zeta in H.
  destruct H as (Hs & Hsig & Hr5 & Hr20 & _).
  rewrite Hr5, Hr20. rewrite Hsig in Hstrong. rewrite Hs in Hstrong.
  clear Hs Hsig Hr5 Hr20.
  set (avg5 := average (firstn (shortPeriod options) _)) in *.
  set (avg20 := average (firstn (longPeriod options) _)) in *.
  destruct (gtb_spec avg5 0) as [H5 | H5];
    [destruct (gtb_spec (volume today) (avg5 * 1.5)) as [V5 | V5] |].
  - left. eexists. split; [reflexivity |].
    apply Qlt_shift_div_l; [assumption | lra].
  - destruct (gtb_spec avg20 0) as [H20 | H20];
      [destruct (gtb_spec (volume today) (avg20 * 2.0)) as [V20 | V20] |].
    + right. eexists. split; [reflexivity |].
      apply Qlt_shift_div_l; [assumption | lra].
    + exfalso. cbn [andb] in Hstrong. revert Hstrong.
      generalize (JS.gtb (priceChangePct today yesterday) 3),
                 (JS.gtb (priceChangePct today yesterday) 5).
      intros p3 p5.
      destruct (turnoverPct today (totalShares options)) as [t |];
        [destruct (JS.gtb t 10), (JS.gtb t 5) |];
        destruct p3, p5; discriminate.
    + exfalso. cbn [andb] in Hstrong. revert Hstrong.
      generalize (JS.gtb (priceChangePct today yesterday) 3),
                 (JS.gtb (priceChangePct today yesterday) 5).
      intros p3 p5.
      destruct (turnoverPct today (totalShares options)) as [t |];
        [destruct (JS.gtb t 10), (JS.gtb t 5) |];
        destruct p3, p5; discriminate.
  - destruct (gtb_spec avg20 0) as [H20 | H20];
      [destruct (gtb_spec (volume today) (avg20 * 2.0)) as [V20 | V20] |].
    + right. eexists. split; [reflexivity |].
      apply Qlt_shift_div_l; [assumption | lra].
    + exfalso. cbn [andb] in Hstrong. revert Hstrong.
      generalize (JS.gtb (priceChangePct today yesterday) 3),
                 (JS.gtb (priceChangePct today yesterday) 5).
      intros p3 p5.
      destruct (turnoverPct today (totalShares options)) as [t |];
        [destruct (JS.gtb t 10), (JS.gtb t 5) |];
        destruct p3, p5; discriminate.
    + exfalso. cbn [andb] in Hstrong. revert Hstrong.
      generalize (JS.gtb (priceChangePct today yesterday) 3),
                 (JS.gtb (priceChangePct today yesterday) 5).
      intros p3 p5.
      destruct (turnoverPct today (totalShares options)) as [t |];
        [destruct (JS.gtb t 10), (JS.gtb t 5) |];
        destruct p3, p5; discriminate.
Qed.

Lemma calculateVAO_strong_needs_volume_witness :
  exists r ratio,
    calculateVAO Samples.breakoutSeries defaultOptions = JS.Ok r /\
    ((volumeRatio5 (details r) = Some ratio /\ 1.5 < ratio) \/
     (volumeRatio20 (details r) = Some ratio /\ 2 < ratio)).
Proof.
  destruct (calculateVAO_strong_needs_volume Samples.breakoutSeries
              defaultOptions _ ltac:(vm_compute; reflexivity)
              ltac:(reflexivity)) as [(ratio & H) | (ratio & H)];
    eexists; exists ratio; (split; [vm_compute; reflexivity |]); auto.
Defined.

Lemma batchResults_In (stocks : list (string * list PriceBar))
  (sharesMap : string -> option Q) (e : BatchEntry) :
  In e (batchResults stocks sharesMap) <->
  exists data,
    In (bsymbol e, data) stocks /\
    calculateVAO data {| totalShares := sharesMap (bsymbol e);
                         shortPeriod := 5; longPeriod := 20 |}
    = JS.Ok (bresult e).
Proof.
  induction stocks as [| [symbol data] rest IH]; cbn [batchResults In].
  - split; [contradiction | intros (? & [] & _)].
  - destruct (calculateVAO data _) as [result | err] eqn:E; cbn [In]; rewrite IH.
    + split.
      * intros [<- | (d & Hin & Hd)]; [exists data | exists d]; cbn; auto.
      * intros (d & [Heq | Hin] & Hd); [| right; eauto].
        injection Heq as -> ->. left. destruct e as [sy re]. cbn in *.
        rewrite E in Hd. now injection Hd as ->.
    + split.
      * intros (d & Hin & Hd). exists d. auto.
      * intros (d & [Heq | Hin] & Hd); [| eauto].
        injection Heq as -> ->. congruence.
Qed.

Lemma batchResults_length (stocks : list (string * list PriceBar))
  (sharesMap : string -> option Q) :
  (length (batchResults stocks sharesMap) <= length stocks)%nat.
Proof.
  induction stocks as [| [symbol data] rest IH]; cbn [batchResults length];
    [lia |].
  destruct (calculateVAO data _); cbn [length]; lia.
Qed.

(** X5.  [calculateVAOBatch] returns, best score first, one entry for
    every stock whose series has at least 20 bars, each with the result
    of [calculateVAO] for that stock and its share count; stocks with
    fewer bars are left out, and nothing else is returned. *)
Theorem calculateVAOBatch_entries (stocks : list (string * list PriceBar))
  (sharesMap : string -> option Q) :
  let results := calculateVAOBatch stocks sharesMap in
  Spec.descendingBy (fun e => score (bresult e)) results /\
  (forall e,
      In e results <->
      exists data,
        In (bsymbol e, data) stocks /\ (20 <= length data)%nat /\
        calculateVAO data {| totalShares := sharesMap (bsymbol e);
                             shortPeriod := 5; longPeriod := 20 |}
        = JS.Ok (bresult e)) /\
  (forall symbol data,
      In (symbol, data) stocks -> (20 <= length data)%nat ->
      exists e, In e results /\ bsymbol e = symbol) /\
  (length results <= length stocks)%nat.
Proof.
  intros results. subst results. unfold calculateVAOBatch.
  split; [apply sortDesc_sorted |].
  split; [| split].
  - intros e. rewrite sortDesc_In, batchResults_In.
    split; intros (data & Hin & H).
    + exists data. repeat split; try assumption.
      unfold calculateVAO in H. cbn [longPeriod] in H.
      destruct (Nat.ltb_spec (length data) 20); [discriminate | assumption].
    + exists data. tauto.
  - intros symbol data Hin Hlen.
    destruct (calculateVAO_ok data
                {| totalShares := sharesMap symbol;
                   shortPeriod := 5; longPeriod := 20 |}) as [r Hr];
      cbn [longPeriod]; try lia.
    exists {| bsymbol := symbol; bresult := r |}. split; [| reflexivity].
    rewrite sortDesc_In, batchResults_In. exists data. cbn. auto.
  - rewrite sortDesc_length. apply batchResults_length.
Qed.

End VaoMore.

(** ** The momentum indicators *)

Section MomentumProps.

Import Momentum.

Lemma nth_error_nth_in {A : Type} (l : list A) (i : nat) (d : A) :
  (i < length l)%nat -> nth_error l i = Some (nth i l d).
Proof. intros H. now apply nth_error_nth'. Qed.

Lemma fold_left_add_some (xs : list Q) (acc : Q) :
  fold_left Nan.add (map Some xs) (Some acc) = Some (fold_left Qplus xs acc).
Proof.
  revert acc. induction xs as [| x xs IH]; intros acc; cbn; [reflexivity |].
  apply IH.
Qed.

Lemma Nan_average_some (xs : list Q) :
  Nan.average (map Some xs) = Some (Vao.average xs).
Proof.
  destruct xs as [| x xs]; [reflexivity |].
  unfold Nan.average, Vao.average. cbn [map].
  change (Some x :: map Some xs) with (map Some (x :: xs)).
  rewrite fold_left_add_some, length_map. reflexivity.
Qed.

(** Within the required length no read of [closes] is out of range. *)
Lemma mtmSeries_some (closes : list Q) (period maPeriod : nat) :
  (period + maPeriod <= length closes)%nat ->
  map (fun i => Nan.sub (nth_error closes i) (nth_error closes (i + period)))
      (seq 0 maPeriod)
  = map Some (Spec.momentumSeries closes period maPeriod).
Proof.
  intros Hlen. unfold Spec.momentumSeries. rewrite map_map.
  apply map_ext_in. intros i Hi. apply in_seq in Hi.
  rewrite (nth_error_nth_in closes i 0) by lia.
  rewrite (nth_error_nth_in closes (i + period) 0) by lia.
  reflexivity.
Qed.

(** The strength and the signal as functions of the three tests. *)
Lemma strength_cases (dual accel up : bool) :
  let strength := Vao.add_if up 30 (Vao.add_if accel 30 (Vao.add_if dual 40 0)) in
  let sg :=
    if JS.geb strength 70 then STRONG_BUY
    else if JS.geb strength 50 then BUY
    else if JS.geb strength 30 then HOLD
    else WEAK in
  0 <= strength /\ strength <= 100 /\
  (sg = STRONG_BUY <-> dual = true /\ (accel = true \/ up = true)) /\
  (sg = BUY <-> dual = false /\ accel = true /\ up = true) /\
  (sg = WEAK <-> dual = false /\ accel = false /\ up = false) /\
  (sg = HOLD <->
   (dual = true /\ accel = false /\ up = false) \/
   (dual = false /\ accel <> up)).
Proof.
  destruct dual, accel, up; cbv zeta; cbn [Vao.add_if];
    (split; [discriminate |]); (split; [discriminate |]);
    repeat split; intros; try discriminate; try reflexivity;
    try tauto; try (intuition (discriminate || congruence)).
Qed.

(** The result of a successful call on a long enough series. *)
Lemma calculateMTM_inv (data : list PriceBar) (options : Options) :
  (period options + maPeriod options <= length data)%nat ->
  (1 <= maPeriod options)%nat ->
  let closes := map close data in
  let m := Spec.momentum closes (period options) 0 in
  let a := Vao.average (Spec.momentumSeries closes (period options) (maPeriod options)) in
  let dual := JS.gtb m 0 && JS.gtb a 0 in
  let accel := JS.gtb m a in
  let up := Nan.gtb (nth_error closes 0) (nth_error closes 1) in
  let strength := Vao.add_if up 30 (Vao.add_if accel 30 (Vao.add_if dual 40 0)) in
  calculateMTM data options
  = JS.Ok {| mtm := Some (JS.round2 m);
             mtmma := Some (JS.round2 a);
             direction := if accel then ACCELERATING else DECELERATING;
             signal :=
               if JS.geb strength 70 then STRONG_BUY
               else if JS.geb strength 50 then BUY
               else if JS.geb strength 30 then HOLD
               else WEAK;
             signalStrength := strength |}.
Proof.
  intros Hlen Hma closes m a dual accel up strength.
  unfold calculateMTM.
  destruct (Nat.ltb_spec (length data) (period options + maPeriod options));
    [lia |].
  fold closes.
  assert (length closes = length data) as Hc by (subst closes; apply length_map).
  subst strength up accel dual a m.
  rewrite mtmSeries_some by lia. rewrite Nan_average_some.
  rewrite (nth_error_nth_in closes (period options) 0) by lia.
  assert (nth_error closes 0 = Some (nth 0 closes 0)) as E0
    by (apply nth_error_nth_in; lia).
  rewrite E0. reflexivity.
Qed.

(** X6.  [calculateMTM] throws the insufficient-data error exactly
    when the series has fewer than [period + maPeriod] bars; otherwise
    it returns a strength in [0,100], and with [maPeriod >= 1] both
    momentum figures are numbers (no read past the end, no [NaN]). *)
Theorem calculateMTM_outcome (data : list PriceBar) (options : Options) :
  ((length data < period options + maPeriod options)%nat ->
   calculateMTM data options = JS.Throw JS.InsufficientData) /\
  ((period options + maPeriod options <= length data)%nat ->
   exists r,
     calculateMTM data options = JS.Ok r /\
     0 <= signalStrength r /\ signalStrength r <= 100 /\
     ((1 <= maPeriod options)%nat ->
      exists m a, mtm r = Some m /\ mtmma r = Some a)).
Proof.
  split.
  - intros H. unfold calculateMTM.
    destruct (Nat.ltb_spec (length data) (period options + maPeriod options));
      [reflexivity | lia].
  - intros Hlen. unfold calculateMTM.
    destruct (Nat.ltb_spec (length data) (period options + maPeriod options));
      [lia |].
    eexists. split; [reflexivity |]. cbn [signalStrength mtm mtmma].
    match goal with
    | |- context [Vao.add_if ?up 30 (Vao.add_if ?accel 30 (Vao.add_if ?dual 40 0))] =>
        destruct (strength_cases dual accel up) as (H0 & H100 & _)
    end.
    cbv zeta in H0, H100. repeat split; try assumption.
    intros Hma.
    set (closes := map close data).
    assert (length closes = length data) as Hc by (subst closes; apply length_map).
    rewrite mtmSeries_some by lia. rewrite Nan_average_some.
    rewrite (nth_error_nth_in closes 0 0) by lia.
    rewrite (nth_error_nth_in closes (period options) 0) by lia.
    cbn. eauto.
Qed.









Lemma Math_round_mono (x y : Q) : x <= y -> JS.Math_round x <= JS.Math_round y.
Proof.
  intros H. unfold JS.Math_round. rewrite <- Zle_Qle.
  apply Qfloor_resp_le. lra.
Qed.

Lemma Math_round_zero : JS.Math_round 0 = 0.
Proof. reflexivity. Qed.



Lemma calculateMA_inv (today : PriceBar) (rest : list PriceBar) (period : nat) :
  (period <= length (today :: rest))%nat ->
  let avg := Vao.average (map close (firstn period (today :: rest))) in
  calculateMA (today :: rest) period
  = JS.Ok {| value := JS.round2 avg;
             maperiod := period;
             trend := if JS.geb (close today) avg then ABOVE else BELOW;
             deviation :=
               if JS.gtb avg 0
               then JS.Math_round (((close today - avg) / avg) * 10000) / 100
               else 0 |}.
Proof.
  intros Hlen avg. unfold calculateMA.
  destruct (Nat.ltb_spec (length (today :: rest)) period); [lia |].
  reflexivity.
Qed.



Lemma calculateMASystem_inv (data : list PriceBar) :
  (60 <= length data)%nat ->
  exists today rest,
    data = today :: rest /\
    let avgOf n := Vao.average (map close (firstn n data)) in
    exists m5 m10 m20 m60,
      calculateMA data 5 = JS.Ok m5 /\ value m5 = JS.round2 (avgOf 5%nat) /\
      calculateMA data 10 = JS.Ok m10 /\ value m10 = JS.round2 (avgOf 10%nat) /\
      calculateMA data 20 = JS.Ok m20 /\ value m20 = JS.round2 (avgOf 20%nat) /\
      calculateMA data 60 = JS.Ok m60 /\ value m60 = JS.round2 (avgOf 60%nat) /\
      calculateMASystem data
      = JS.Ok {| ma5 := m5; ma10 := m10; ma20 := m20; ma60 := m60;
                 alignment :=
                   if JS.gtb (value m5) (value m10) &&
                      JS.gtb (value m10) (value m20) &&
                      JS.gtb (value m20) (value m60) then BULLISH
                   else if JS.ltb (value m5) (value m10) &&
                           JS.ltb (value m10) (value m20) &&
                           JS.ltb (value m20) (value m60) then BEARISH
                   else MIXED;
                 aboveMA20 := JS.geb (close today) (value m20) |}.
Proof.
  intros Hlen. destruct data as [| today rest]; [cbn in Hlen; lia |].
  exists today, rest. split; [reflexivity |]. cbn zeta.
  do 4 eexists.
  repeat (split; [apply calculateMA_inv; lia |]; split; [reflexivity |]).
  unfold calculateMASystem.
  destruct (Nat.ltb_spec (length (today :: rest)) 60); [lia |].
  rewrite !calculateMA_inv by lia. reflexivity.
Qed.


End MomentumProps.

(** ** The institutional scorer *)

Section Institutional.

Import Screener.

(** X11.  [_countConsecutive] is the length of the longest prefix on
    which the predicate holds: the first [n] items satisfy it and the
    item after them, if there is one, does not. *)
Theorem countConsecutive_prefix {A : Type} (data : list A) (predicate : A -> bool) :
  let n := _countConsecutive data predicate in
  (n <= length data)%nat /\
  Forall (fun item => predicate item = true) (firstn n data) /\
  (forall item, nth_error data n = Some item -> predicate item = false).
Proof.
  induction data as [| x data (IHlen & IHall & IHstop)];
    cbn [_countConsecutive].
  - split; [cbn; lia |]. split; [constructor | intros item H; discriminate].
  - destruct (predicate x) eqn:E; cbn [length firstn nth_error].
    + split; [lia |]. split; [now constructor | exact IHstop].
    + split; [lia |]. split; [constructor | intros item H; congruence].
Qed.

Lemma min_cap (x : Q) :
  0 <= x -> 0 <= JS.Math_min 100 x /\ JS.Math_min 100 x <= 100.
Proof.
  intros H. unfold JS.Math_min.
  destruct (Q.min_spec 100 x) as [[? E] | [? E]];
    set (m := Qmin 100 x) in *; clearbody m; lra.
Qed.

Lemma clamp_range (x : Q) :
  0 <= JS.Math_min 100 (JS.Math_max 0 x) /\
  JS.Math_min 100 (JS.Math_max 0 x) <= 100.
Proof.
  apply min_cap. unfold JS.Math_max.
  destruct (Q.max_spec 0 x) as [[? E] | [? E]];
    set (m := Qmax 0 x) in *; clearbody m; lra.
Qed.

Ltac split_ifs :=
  repeat match goal with
         | |- context [if ?c then _ else _] => destruct c
         end.

Lemma foreignScoreOf_range (data : list FlowRow) (latest : FlowRow) :
  0 <= foreignScoreOf data latest /\ foreignScoreOf data latest <= 100.
Proof. unfold foreignScoreOf. cbv zeta. split_ifs; apply min_cap; discriminate. Qed.

Lemma trustScoreOf_range (data : list FlowRow) (latest : FlowRow) :
  0 <= trustScoreOf data latest /\ trustScoreOf data latest <= 100.
Proof. unfold trustScoreOf. cbv zeta. split_ifs; apply min_cap; discriminate. Qed.

Lemma dealerScoreOf_range (data : list FlowRow) (latest : FlowRow) :
  0 <= dealerScoreOf data latest /\ dealerScoreOf data latest <= 100.
Proof. unfold dealerScoreOf. cbv zeta. split_ifs; apply min_cap; discriminate. Qed.

Lemma marginScoreOf_range (latest prev : FlowRow) :
  0 <= marginScoreOf latest prev /\ marginScoreOf latest prev <= 100.
Proof. unfold marginScoreOf. apply clamp_range. Qed.

Lemma sentiment_of_score (sc : Q) :
  let s :=
    if JS.geb sc 80 then SENTIMENT_STRONG
    else if JS.geb sc 60 then SENTIMENT_HEALTHY
    else if JS.geb sc 40 then SENTIMENT_WATCH
    else SENTIMENT_AVOID in
  (s = SENTIMENT_STRONG <-> 80 <= sc) /\
  (s = SENTIMENT_HEALTHY <-> 60 <= sc /\ sc < 80) /\
  (s = SENTIMENT_WATCH <-> 40 <= sc /\ sc < 60) /\
  (s = SENTIMENT_AVOID <-> sc < 40).
Proof.
  cbv zeta. repeat qsplit; repeat split; intros; try discriminate;
    try reflexivity; try lra.
  all: match goal with H : _ /\ _ |- _ => destruct H end; lra.
Qed.

(** The result on at least three rows, spelled out. *)
Lemma scoreInstitutional_inv (latest prev third : FlowRow) (rest : list FlowRow) :
  let data := latest :: prev :: third :: rest in
  let foreignScore := foreignScoreOf data latest in
  let trustScore := trustScoreOf data latest in
  let dealerScore := dealerScoreOf data latest in
  let marginScore := marginScoreOf latest prev in
  let score :=
    JS.Math_round (foreignScore * 0.40 + trustScore * 0.35 +
                   dealerScore * 0.15 + marginScore * 0.10) in
  0 <= score /\ score <= 100 /\
  iscore (scoreInstitutional data) == score /\
  ierror (scoreInstitutional data) = false /\
  sentiment (scoreInstitutional data)
  = Some (if JS.geb score 80 then SENTIMENT_STRONG
          else if JS.geb score 60 then SENTIMENT_HEALTHY
          else if JS.geb score 40 then SENTIMENT_WATCH
          else SENTIMENT_AVOID) /\
  exists d,
    idetails (scoreInstitutional data) = Some d /\
    Screener.foreignScore d = foreignScore /\ Screener.trustScore d = trustScore /\
    Screener.dealerScore d = dealerScore /\ Screener.marginScore d = marginScore.
Proof.
  intros data foreignScore trustScore dealerScore marginScore score.
  pose proof (foreignScoreOf_range data latest) as [Hf0 Hf1].
  pose proof (trustScoreOf_range data latest) as [Ht0 Ht1].
  pose proof (dealerScoreOf_range data latest) as [Hd0 Hd1].
  pose proof (marginScoreOf_range latest prev) as [Hm0 Hm1].
  fold foreignScore in Hf0, Hf1. fold trustScore in Ht0, Ht1.
  fold dealerScore in Hd0, Hd1. fold marginScore in Hm0, Hm1.
  assert (0 <= score /\ score <= 100) as [Hs0 Hs1].
  { apply (Math_round_bounds 0 100); unfold inject_Z; lra. }
  split; [assumption |]. split; [assumption |].
  subst data. cbn [scoreInstitutional length Nat.ltb Nat.leb].
  cbn [iscore ierror sentiment idetails].
  split; [now apply clamp_id |]. split; [reflexivity |]. split; [reflexivity |].
  eexists. split; [reflexivity |]. repeat split.
Qed.

(** X12.  [scoreInstitutional]: with fewer than three rows the score
    is 0 and the error is set; from three rows on the four sub-scores
    and the total lie in [0,100], the total is the rounded
    0.40/0.35/0.15/0.10 weighted sum of the sub-scores, and the
    sentiment follows the returned score: strong from 80, healthy from
    60, watch from 40, avoid below. *)
Theorem scoreInstitutional_range (data : list FlowRow) :
  let r := scoreInstitutional data in
  ((length data < 3)%nat ->
   iscore r = 0 /\ ierror r = true /\ sentiment r = None /\ idetails r = None) /\
  ((3 <= length data)%nat ->
   ierror r = false /\
   0 <= iscore r /\ iscore r <= 100 /\
   exists d s,
     idetails r = Some d /\ sentiment r = Some s /\
     (0 <= foreignScore d /\ foreignScore d <= 100) /\
     (0 <= trustScore d /\ trustScore d <= 100) /\
     (0 <= dealerScore d /\ dealerScore d <= 100) /\
     (0 <= marginScore d /\ marginScore d <= 100) /\
     iscore r == JS.Math_round (foreignScore d * 0.40 + trustScore d * 0.35 +
                                dealerScore d * 0.15 + marginScore d * 0.10) /\
     (s = SENTIMENT_STRONG <-> 80 <= iscore r) /\
     (s = SENTIMENT_HEALTHY <-> 60 <= iscore r /\ iscore r < 80) /\
     (s = SENTIMENT_WATCH <-> 40 <= iscore r /\ iscore r < 60) /\
     (s = SENTIMENT_AVOID <-> iscore r < 40)).
Proof.
  intros r. subst r. split.
  - intros Hshort. unfold scoreInstitutional.
    destruct (Nat.ltb_spec (length data) 3); [cbn; auto | lia].
  - intros Hlong.
    destruct data as [| latest [| prev [| third rest]]]; cbn in Hlong; try lia.
    destruct (scoreInstitutional_inv latest prev third rest)
      as (Hs0 & Hs1 & Hscore & Herr & Hsent & d & Hd & Ef & Et & Ed & Em).
    cbv zeta in *.
    split; [assumption |].
    split; [rewrite Hscore; assumption |].
    split; [rewrite Hscore; assumption |].
    eexists d, _. split; [exact Hd |]. split; [exact Hsent |].
    rewrite Ef, Et, Ed, Em.
    split; [apply foreignScoreOf_range |].
    split; [apply trustScoreOf_range |].
    split; [apply dealerScoreOf_range |].
    split; [apply marginScoreOf_range |].
    split; [exact Hscore |].
    match goal with
    | |- context [if JS.geb ?sc 80 then _ else _] =>
        destruct (sentiment_of_score sc) as (H1 & H2 & H3 & H4)
    end.
    cbv zeta in H1, H2, H3, H4. rewrite H1, H2, H3, H4.
    rewrite Hscore. tauto.
Qed.

Lemma netBuy_gtb (x : field) : Spec.netBuy x -> field_gtb x 0 = true.
Proof.
  intros (q & -> & Hq). unfold field_gtb. cbn [toNumber].
  destruct (gtb_spec q 0); [reflexivity | contradiction].
Qed.

(** X13.  Three net-buy days in a row by foreign institutions and by
    funds, with a 5-day foreign net above 1000, give a score of at
    least 65 whatever the dealers and the margin balances do: the
    sentiment is healthy or strong. *)
Theorem scoreInstitutional_strong_flows
  (latest prev third : FlowRow) (rest : list FlowRow) :
  let data := latest :: prev :: third :: rest in
  Forall (fun d => Spec.netBuy (foreign_net d) /\ Spec.netBuy (trust_net d))
         [latest; prev; third] ->
  1000 < Spec.foreignSum5 data ->
  65 <= iscore (scoreInstitutional data) /\
  (sentiment (scoreInstitutional data) = Some SENTIMENT_HEALTHY \/
   sentiment (scoreInstitutional data) = Some SENTIMENT_STRONG).
Proof.
  intros data Hbuy Hsum.
  destruct (scoreInstitutional_inv latest prev third rest)
    as (_ & _ & Hscore & _ & Hsent & _).
  cbv zeta in Hscore, Hsent. fold data in Hscore, Hsent.
  inversion Hbuy as [| ? ? [F0 T0] Hbuy1]; subst.
  inversion Hbuy1 as [| ? ? [F1 T1] Hbuy2]; subst.
  inversion Hbuy2 as [| ? ? [F2 T2] _]; subst.
  apply netBuy_gtb in F0, F1, F2, T0, T1, T2.
  assert (foreignScoreOf data latest == 100) as Hf.
  { unfold foreignScoreOf. subst data. cbn [_countConsecutive].
    rewrite F0, F1, F2. cbn [Nat.leb].
    assert (JS.gtb (fold_left (fun s d => s + orZero (foreign_net d))
                      (firstn 5 (latest :: prev :: third :: rest)) 0) 1000 = true)
      as ->.
    { destruct (gtb_spec (fold_left (fun s d => s + orZero (foreign_net d))
                            (firstn 5 (latest :: prev :: third :: rest)) 0) 1000)
        as [| Hn]; [reflexivity |].
      exfalso. apply Hn. rewrite fold_left_add_total.
      unfold Spec.foreignSum5 in Hsum. lra. }
    reflexivity. }
  assert (70 <= trustScoreOf data latest) as Ht.
  { unfold trustScoreOf. subst data. cbn [_countConsecutive].
    rewrite T0, T1, T2. cbn [Nat.leb].
    destruct (field_gtb (trust_net latest) 500), (field_gtb (trust_net latest) 100);
      discriminate. }
  pose proof (dealerScoreOf_range data latest) as [Hd _].
  pose proof (marginScoreOf_range latest prev) as [Hm _].
  set (score := JS.Math_round _) in *.
  assert (65 <= score) as Hs.
  { subst score. change 65 with (JS.Math_round (129 # 2)).
    apply Math_round_mono. lra. }
  split; [rewrite Hscore; assumption |].
  rewrite Hsent.
  destruct (geb_spec score 80); [now right |].
  destruct (geb_spec score 60); [now left | lra].
Qed.

Lemma buyingWeek_buys :
  Forall (fun d => Spec.netBuy (foreign_net d) /\ Spec.netBuy (trust_net d))
         [Samples.buyingDay; Samples.buyingDay; Samples.buyingDay].
Proof.
  repeat constructor; eexists; (split; [reflexivity | reflexivity]).
Defined.

Lemma scoreInstitutional_strong_flows_witness :
  65 <= iscore (scoreInstitutional Samples.buyingWeek).
Proof.
  apply (scoreInstitutional_strong_flows Samples.buyingDay Samples.buyingDay
           Samples.buyingDay [Samples.buyingDay; Samples.buyingDay]
           buyingWeek_buys).
  reflexivity.
Defined.

End Institutional.

(** ** The technical scorer *)

Section Technical.

Import Screener.





Lemma evaluateEntrySignal_ok (data : list PriceBar) (vao : Vao.VAOResult)
  (mtm : Momentum.MTMResult) (ma : Momentum.MASystem) :
  (2 <= length data)%nat ->
  exists e, _evaluateEntrySignal data vao mtm ma = JS.Ok e.
Proof.
  intros Hlen. destruct data as [| today [| yesterday rest]];
    cbn [length] in Hlen; try lia.
  unfold _evaluateEntrySignal, JS.get. cbn [nth_error JS.bind].
  destruct (JS.gtb (close today) (open today)); cbn [JS.bind]; eauto.
Qed.

Lemma maScoreOf_range (ma : Momentum.MASystem) :
  0 <= maScoreOf ma /\ maScoreOf ma <= 100.
Proof.
  unfold maScoreOf.
  destruct (Momentum.alignment ma), (Momentum.aboveMA20 ma),
    (JS.leb (JS.Math_abs (Momentum.deviation (Momentum.ma20 ma))) 3);
    split; discriminate.
Qed.

(** From 60 bars on every step of [scoreTechnical] succeeds. *)
Lemma scoreTechnical_long (priceData : list PriceBar) (totalShares : option Q) :
  (60 <= length priceData)%nat ->
  exists vao mtm ma entry,
    Vao.calculateVAO priceData
      {| Vao.totalShares := totalShares;
         Vao.shortPeriod := 5; Vao.longPeriod := 20 |} = JS.Ok vao /\
    Momentum.calculateMTM priceData Momentum.defaultOptions = JS.Ok mtm /\
    Momentum.calculateMASystem priceData = JS.Ok ma /\
    _evaluateEntrySignal priceData vao mtm ma = JS.Ok entry /\
    let blend :=
      JS.Math_round (Vao.score vao / 100 * 35 +
                     Momentum.signalStrength mtm / 100 * 30 +
                     maScoreOf ma / 100 * 35) in
    0 <= blend /\ blend <= 100 /\
    scoreTechnical priceData totalShares
    = {| tscore := JS.Math_min 100 (JS.Math_max 0 blend);
         tdetail := Some {| tvao := vao; tmtm := mtm; tma := ma; tentry := entry |};
         terror := None |}.
Proof.
  intros Hlen.
  destruct (calculateVAO_ok priceData
              {| Vao.totalShares := totalShares;
                 Vao.shortPeriod := 5; Vao.longPeriod := 20 |})
    as [vao Hvao]; cbn [Vao.longPeriod]; try lia.
  pose proof (calculateMTM_inv priceData Momentum.defaultOptions) as Hmtm.
  cbn [Momentum.defaultOptions Momentum.period Momentum.maPeriod] in Hmtm.
  specialize (Hmtm ltac:(lia) ltac:(lia)). cbv zeta in Hmtm.
  destruct (calculateMASystem_inv priceData Hlen)
    as (today & rest & _ & m5 & m10 & m20 & m60 & _ & _ & _ & _ & _ & _ & _ & _ & Hma).
  match type of Hmtm with _ = JS.Ok ?r => set (mtm := r) in * end.
  match type of Hma with _ = JS.Ok ?r => set (ma := r) in * end.
  destruct (evaluateEntrySignal_ok priceData vao mtm ma) as [entry Hentry];
    [lia |].
  exists vao, mtm, ma, entry.
  repeat (split; [assumption |]).
  assert (0 <= Vao.score vao /\ Vao.score vao <= 100) as [Hv0 Hv1].
  { pose proof Hvao as Hv. apply calculateVAO_inv in Hv.
    destruct Hv as (t & y & r & _ & Hv). cbn zeta in Hv.
    destruct Hv as (Hs & _). rewrite Hs.
    set (c1 := JS.gtb _ 0 && JS.gtb (volume t) (_ * 1.5)).
    set (c2 := JS.gtb _ 0 && JS.gtb (volume t) (_ * 2.0)).
    set (c3 := JS.gtb _ 3). set (c4 := JS.gtb _ 5).
    destruct (Vao.turnoverPct t _) as [tr |].
    + destruct c1, c2, c3, c4, (JS.gtb tr 10), (JS.gtb tr 5);
        split; discriminate.
    + destruct c1, c2, c3, c4; split; discriminate. }
  assert (0 <= Momentum.signalStrength mtm /\ Momentum.signalStrength mtm <= 100)
    as [Hm0 Hm1].
  { subst mtm. cbn [Momentum.signalStrength].
    match goal with
    | |- context [Vao.add_if ?up 30 (Vao.add_if ?accel 30 (Vao.add_if ?dual 40 0))] =>
        destruct (strength_cases dual accel up) as (H0 & H100 & _)
    end.
    cbv zeta in H0, H100. split; assumption. }
  pose proof (maScoreOf_range ma) as [? ?].
  assert (forall x, x / 100 * 35 == x * (35 # 100)) as E35 by (intros; field).
  assert (forall x, x / 100 * 30 == x * (30 # 100)) as E30 by (intros; field).
  cbv zeta.
  split; [| split].
  - change 0 with (inject_Z 0).
    apply (Math_round_bounds 0 100); unfold inject_Z; rewrite !E35, E30; lra.
  - change 100 with (inject_Z 100).
    apply (Math_round_bounds 0 100); unfold inject_Z; rewrite !E35, E30; lra.
  - unfold scoreTechnical.
    destruct (Nat.ltb_spec (length priceData) 60); [lia |].
    change {| Momentum.period := 10; Momentum.maPeriod := 5 |}
      with Momentum.defaultOptions.
    rewrite Hvao. cbn [JS.bind]. rewrite Hmtm. cbn [JS.bind].
    rewrite Hma. cbn [JS.bind]. rewrite Hentry. cbn [JS.bind].
    reflexivity.
Qed.

(** X15.  [scoreTechnical] on any series of bars.  Below 60 bars the
    score is 0 with the too-few-bars error and no indicator is run.
    From 60 bars on none of the three indicators nor the entry test
    throws, so the [catch] branch is never taken: the result carries
    the VAO, momentum and moving-average results computed from the same
    series, and the score is the rounded blend of 35% VAO score, 30%
    momentum strength and 35% moving-average score, which already lies
    in [0,100] (the clamp changes nothing). *)
Theorem scoreTechnical_outcome (priceData : list PriceBar) (totalShares : option Q) :
  ((length priceData < 60)%nat ->
   scoreTechnical priceData totalShares
   = {| tscore := 0; tdetail := None; terror := Some TooFewBars |}) /\
  ((60 <= length priceData)%nat ->
   terror (scoreTechnical priceData totalShares) = None /\
   0 <= tscore (scoreTechnical priceData totalShares) /\
   tscore (scoreTechnical priceData totalShares) <= 100 /\
   exists d,
     tdetail (scoreTechnical priceData totalShares) = Some d /\
     Vao.calculateVAO priceData
       {| Vao.totalShares := totalShares;
          Vao.shortPeriod := 5; Vao.longPeriod := 20 |} = JS.Ok (tvao d) /\
     Momentum.calculateMTM priceData Momentum.defaultOptions = JS.Ok (tmtm d) /\
     Momentum.calculateMASystem priceData = JS.Ok (tma d) /\
     _evaluateEntrySignal priceData (tvao d) (tmtm d) (tma d) = JS.Ok (tentry d) /\
     tscore (scoreTechnical priceData totalShares)
     == JS.Math_round (Vao.score (tvao d) / 100 * 35 +
                       Momentum.signalStrength (tmtm d) / 100 * 30 +
                       maScoreOf (tma d) / 100 * 35)) /\
  (forall e, terror (scoreTechnical priceData totalShares)
             <> Some (IndicatorFailed e)).
Proof.
  split; [| split].
  - intros H. unfold scoreTechnical.
    destruct (Nat.ltb_spec (length priceData) 60); [reflexivity | lia].
  - intros Hlen.
    destruct (scoreTechnical_long priceData totalShares Hlen)
      as (vao & mtm & ma & entry & Hvao & Hmtm & Hma & Hentry & H).
    cbv zeta in H. destruct H as (H0 & H100 & ->).
    cbn [terror tscore tdetail].
    split; [reflexivity |].
    pose proof (clamp_id _ H0 H100) as Hid.
    split; [rewrite Hid; assumption |]. split; [rewrite Hid; assumption |].
    eexists. split; [reflexivity |]. cbn [tvao tmtm tma tentry].
    repeat (split; [assumption |]). exact Hid.
  - intros e. destruct (Nat.lt_ge_cases (length priceData) 60) as [Hlen | Hlen].
    + unfold scoreTechnical.
      destruct (Nat.ltb_spec (length priceData) 60); [discriminate | lia].
    + destruct (scoreTechnical_long priceData totalShares Hlen)
        as (vao & mtm & ma & entry & _ & _ & _ & _ & H).
      cbv zeta in H. destruct H as (_ & _ & ->). discriminate.
Qed.

End Technical.

(** ** The fundamental and composite scorers, and the screening run *)

Section ScreenerRun.

Import Screener.

Lemma revenueScoreOf_range (yoy : Q) :
  15 <= revenueScoreOf yoy /\ revenueScoreOf yoy <= 100.
Proof.
  unfold revenueScoreOf.
  repeat match goal with
         | |- context [if ?c then _ else _] => destruct c
         end; split; discriminate.
Qed.

Lemma momScoreOf_range (mom : Q) : 20 <= momScoreOf mom /\ momScoreOf mom <= 90.
Proof.
  unfold momScoreOf.
  repeat match goal with
         | |- context [if ?c then _ else _] => destruct c
         end; split; discriminate.
Qed.

Lemma epsScoreOf_range (g : Q) : 15 <= epsScoreOf g /\ epsScoreOf g <= 100.
Proof.
  unfold epsScoreOf.
  repeat match goal with
         | |- context [if ?c then _ else _] => destruct c
         end; split; discriminate.
Qed.

Lemma peScoreOf_range (pe : Q) : 25 <= peScoreOf pe /\ peScoreOf pe <= 85.
Proof.
  unfold peScoreOf.
  repeat match goal with
         | |- context [if ?c then _ else _] => destruct c
         end; split; discriminate.
Qed.

Lemma scoreFundamental_bounds (fundamentalData : option FundamentalData) :
  17 <= fscore (scoreFundamental fundamentalData) /\
  fscore (scoreFundamental fundamentalData) <= 96.
Proof.
  destruct fundamentalData as [d |]; [| split; discriminate].
  unfold scoreFundamental. cbv zeta. cbn [fscore].
  assert (15 <= match present (revenueGrowthYoY d) with
                | Some yoy => revenueScoreOf yoy | None => 50 end <= 100) as [R0 R1].
  { destruct (present (revenueGrowthYoY d));
      [apply revenueScoreOf_range | split; discriminate]. }
  assert (20 <= match present (revenueGrowthMoM d) with
                | Some mom => momScoreOf mom | None => 50 end <= 90) as [M0 M1].
  { destruct (present (revenueGrowthMoM d));
      [apply momScoreOf_range | split; discriminate]. }
  assert (15 <= match epsGrowthOf (eps d) (epsPrevYear d) with
                | Some g => epsScoreOf g | None => 50 end <= 100) as [E0 E1].
  { destruct (epsGrowthOf (eps d) (epsPrevYear d));
      [apply epsScoreOf_range | split; discriminate]. }
  assert (25 <= match present (peRatio d) with
                | Some pe => if JS.gtb pe 0 then peScoreOf pe else 50
                | None => 50 end <= 85) as [P0 P1].
  { destruct (present (peRatio d)) as [pe |]; [| split; discriminate].
    destruct (JS.gtb pe 0); [apply peScoreOf_range | split; discriminate]. }
  set (r := match present (revenueGrowthYoY d) with Some _ => _ | None => _ end) in *.
  set (m := match present (revenueGrowthMoM d) with Some _ => _ | None => _ end) in *.
  set (e := match epsGrowthOf _ _ with Some _ => _ | None => _ end) in *.
  set (p := match present (peRatio d) with Some _ => _ | None => _ end) in *.
  clearbody r m e p.
  set (score := 0 + r * 0.40 + m * 0.15 + e * 0.30 + p * 0.15).
  assert (69 # 4 <= score /\ score <= 385 # 4) as [S0 S1] by (subst score; lra).
  pose proof (clamp_id score ltac:(lra) ltac:(lra)) as Hid.
  set (c := JS.Math_min 100 (JS.Math_max 0 score)) in *. clearbody c.
  split.
  - change 17 with (JS.Math_round (69 # 4)). apply Math_round_mono. lra.
  - change 96 with (JS.Math_round (385 # 4)). apply Math_round_mono. lra.
Qed.

(** X16.  Whatever the snapshot holds, the fundamental score is a whole
    number between 17 and 96: the four tables bottom out at 15, 20, 15
    and 25 and top out at 100, 90, 100 and 85, so the clamp to [0,100]
    never acts and neither end of the scale is reached. *)
Theorem scoreFundamental_range (fundamentalData : option FundamentalData) :
  17 <= fscore (scoreFundamental fundamentalData) /\
  fscore (scoreFundamental fundamentalData) <= 96 /\
  exists n : Z, fscore (scoreFundamental fundamentalData) = inject_Z n.
Proof.
  destruct (scoreFundamental_bounds fundamentalData) as [H0 H1].
  repeat split; try assumption.
  destruct fundamentalData as [d |].
  - unfold scoreFundamental. cbv zeta. cbn [fscore]. unfold JS.Math_round. eauto.
  - exists 50%Z. reflexivity.
Qed.

Lemma min3_le (t i f c : Q) :
  c <= JS.Math_min3 t i f <-> c <= t /\ c <= i /\ c <= f.
Proof.
  unfold JS.Math_min3.
  destruct (Q.min_spec t i) as [[? E1] | [? E1]];
    destruct (Q.min_spec (Qmin t i) f) as [[? E2] | [? E2]];
    set (m1 := Qmin t i) in *; set (m2 := Qmin m1 f) in *;
    clearbody m2; clearbody m1; repeat split; lra.
Qed.

Lemma clamp_mono (x y : Q) :
  x <= y ->
  JS.Math_min 100 (JS.Math_max 0 x) <= JS.Math_min 100 (JS.Math_max 0 y).
Proof.
  intros H. unfold JS.Math_min, JS.Math_max.
  destruct (Q.max_spec 0 x) as [[? E1] | [? E1]];
    destruct (Q.max_spec 0 y) as [[? E2] | [? E2]];
    destruct (Q.min_spec 100 (Qmax 0 x)) as [[? E3] | [? E3]];
    destruct (Q.min_spec 100 (Qmax 0 y)) as [[? E4] | [? E4]];
    set (a := Qmax 0 x) in *; set (b := Qmax 0 y) in *;
    set (c := Qmin 100 a) in *; set (d := Qmin 100 b) in *;
    clearbody c d; clearbody a b; lra.
Qed.

(** The tier as a function of the rounded total and the three inputs. *)
Lemma calculateCompositeScore_tier (t i f : Q) :
  let total := JS.Math_round (t * 0.40 + i * 0.30 + f * 0.30) in
  tier (calculateCompositeScore t i f)
  = if JS.geb total 75 && JS.geb (JS.Math_min3 t i f) 60 then TIER1
    else if JS.geb total 60 && JS.geb (JS.Math_min3 t i f) 50 then TIER2
    else if JS.geb total 45 then TIER3
    else EXCLUDED.
Proof.
  cbv zeta. unfold calculateCompositeScore.
  unfold TIER_THRESHOLDS_TIER1, TIER_THRESHOLDS_TIER2, TIER_THRESHOLDS_TIER3,
    TIER1_MIN_DIMENSION, TIER2_MIN_DIMENSION,
    WEIGHTS_TECHNICAL, WEIGHTS_INSTITUTIONAL, WEIGHTS_FUNDAMENTAL.
  repeat match goal with
         | |- context [if ?c then _ else _] => destruct c
         end; reflexivity.
Qed.

Lemma calculateCompositeScore_total (t i f : Q) :
  totalScore (calculateCompositeScore t i f)
  = JS.Math_min 100 (JS.Math_max 0 (JS.Math_round (t * 0.40 + i * 0.30 + f * 0.30))).
Proof.
  unfold calculateCompositeScore.
  match goal with
  | |- context [match ?p with pair _ _ => _ end] => destruct p
  end.
  reflexivity.
Qed.

(** X17.  The composite scorer is monotone: raising any of the three
    dimension scores, for any numbers at all, never lowers the total
    score and never moves a stock to a lower tier. *)
Theorem calculateCompositeScore_monotone (t i f t' i' f' : Q) :
  t <= t' -> i <= i' -> f <= f' ->
  totalScore (calculateCompositeScore t i f)
  <= totalScore (calculateCompositeScore t' i' f') /\
  (Spec.tierRank (tier (calculateCompositeScore t i f))
   <= Spec.tierRank (tier (calculateCompositeScore t' i' f')))%nat.
Proof.
  intros Ht Hi Hf.
  assert (JS.Math_round (t * 0.40 + i * 0.30 + f * 0.30)
          <= JS.Math_round (t' * 0.40 + i' * 0.30 + f' * 0.30)) as Htotal
    by (apply Math_round_mono; lra).
  split.
  - rewrite !calculateCompositeScore_total. now apply clamp_mono.
  - rewrite !calculateCompositeScore_tier. cbv zeta.
    assert (JS.Math_min3 t i f <= JS.Math_min3 t' i' f') as Hmin.
    { apply min3_le.
      destruct (proj1 (min3_le t i f (JS.Math_min3 t i f)) ltac:(lra))
        as (? & ? & ?).
      repeat split; lra. }
    set (total := JS.Math_round (t * 0.40 + i * 0.30 + f * 0.30)) in *.
    set (total' := JS.Math_round (t' * 0.40 + i' * 0.30 + f' * 0.30)) in *.
    set (m := JS.Math_min3 t i f) in *. set (m' := JS.Math_min3 t' i' f') in *.
    clearbody total total' m m'.
    repeat (match goal with
            | |- context [JS.geb ?a ?b] => destruct (geb_spec a b)
            end; cbn [andb Spec.tierRank]; try lia; try (exfalso; lra)).
Qed.

Lemma calculateCompositeScore_monotone_witness :
  totalScore (calculateCompositeScore 70 60 50)
  <= totalScore (calculateCompositeScore 80 60 60) /\
  (Spec.tierRank (tier (calculateCompositeScore 70 60 50))
   <= Spec.tierRank (tier (calculateCompositeScore 80 60 60)))%nat.
Proof.
  apply (calculateCompositeScore_monotone 70 60 50 80 60 60); discriminate.
Defined.

Lemma descendingBy_split {A : Type} (key : A -> Q) (l1 l2 : list A) :
  Spec.descendingBy key (l1 ++ l2) ->
  Forall (fun b => Forall (fun a => key b <= key a) l1) l2.
Proof.
  unfold Spec.descendingBy. induction l1 as [| a l1 IH]; cbn [app]; intros H.
  - apply Forall_forall. intros b _. constructor.
  - apply StronglySorted_inv in H as [Hs Ha].
    specialize (IH Hs). rewrite Forall_forall in IH, Ha |- *.
    intros b Hb. constructor; [| now apply IH].
    apply Ha, in_or_app. now right.
Qed.

Lemma filter_perm {A : Type} (f : A -> bool) (l l' : list A) :
  Permutation l l' -> Permutation (filter f l) (filter f l').
Proof.
  induction 1 as [| x l l' _ IH | x y l | l l' l'' _ IH1 _ IH2]; cbn [filter].
  - constructor.
  - destruct (f x); [now constructor | assumption].
  - destruct (f x), (f y); try reflexivity. apply perm_swap.
  - now transitivity (filter f l').
Qed.

(** The first [n] of a list in descending order are its best [n]. *)
Lemma firstn_best {A : Type} (key : A -> Q) (n : nat) (l : list A) :
  Spec.descendingBy key l ->
  Forall (fun b => Forall (fun a => key b <= key a) (firstn n l)) (skipn n l).
Proof.
  intros H. apply descendingBy_split. now rewrite firstn_skipn.
Qed.

Lemma applyFilters_In (config : Config) (db : Db) (symbols : list string)
  (date symbol : string) :
  In symbol (_applyFilters config db symbols date) <->
  In symbol symbols /\ passesFilter config db date symbol = true.
Proof.
  induction symbols as [| s rest IH]; cbn [_applyFilters In]; [tauto |].
  destruct (passesFilter config db date s) eqn:E; cbn [In]; rewrite IH.
  - split; [intros [-> | [? ?]]; auto | intros [[-> | ?] ?]; auto].
  - split; [intros [? ?]; auto | intros [[-> | ?] ?]; [congruence | auto]].
Qed.

Lemma applyFilters_length (config : Config) (db : Db) (symbols : list string)
  (date : string) :
  (length (_applyFilters config db symbols date) <= length symbols)%nat.
Proof.
  induction symbols as [| s rest IH]; cbn [_applyFilters length]; [lia |].
  destruct (passesFilter config db date s); cbn [length]; lia.
Qed.


(** What [_analyzeStock] returns. *)
Lemma analyzeStock_inv (db : DataSource) (symbol date : string) :
  let priceData := _getPriceHistory db symbol 80 in
  match _analyzeStock db symbol date with
  | None => (length priceData < 60)%nat
  | Some a =>
      (60 <= length priceData)%nat /\
      asymbol a = symbol /\ adate a = date /\
      (exists latest,
         nth_error priceData 0 = Some latest /\ latestPrice a = close latest) /\
      technical a = scoreTechnical priceData None /\
      institutional a = scoreInstitutional (_getInstitutionalHistory db symbol 20) /\
      fundamental a = scoreFundamental (_getFundamentalData db symbol) /\
      composite a
      = calculateCompositeScore (tscore (technical a)) (iscore (institutional a))
          (fscore (fundamental a))
  end.
Proof.
  cbv zeta. unfold _analyzeStock.
  destruct (Nat.ltb_spec (length (_getPriceHistory db symbol 80)) 60) as [H | H];
    [assumption |].
  destruct (_getPriceHistory db symbol 80) as [| latest rest] eqn:E;
    [cbn in H; lia |].
  cbn [asymbol adate latestPrice technical institutional fundamental composite].
  repeat split; try assumption. exists latest. now split.
Qed.


Lemma analyzeAll_In (db : DataSource) (date : string) (filtered : list string)
  (a : Analysis) :
  In a (analyzeAll db date filtered) <->
  exists symbol, In symbol filtered /\ _analyzeStock db symbol date = Some a.
Proof.
  induction filtered as [| s rest IH]; cbn [analyzeAll In].
  - split; [tauto | intros (? & [] & _)].
  - destruct (_analyzeStock db s date) as [r |] eqn:E; cbn [In]; rewrite IH.
    + split.
      * intros [<- | (x & ? & ?)]; eauto.
      * intros (x & [<- | ?] & ?); [left; congruence | eauto].
    + split.
      * intros (x & ? & ?); eauto.
      * intros (x & [<- | ?] & ?); [congruence | eauto].
Qed.

Lemma analyzeAll_length (db : DataSource) (date : string) (filtered : list string) :
  (length (analyzeAll db date filtered) <= length filtered)%nat.
Proof.
  induction filtered as [| s rest IH]; cbn [analyzeAll length]; [lia |].
  destruct (_analyzeStock db s date); cbn [length]; lia.
Qed.

Lemma tierIs_true (t : Tier) (a : Analysis) :
  tierIs t a = true <-> tier (composite a) = t.
Proof.
  unfold tierIs. destruct (tier (composite a)), t; split; congruence.
Qed.

Lemma tiers_length (l : list Analysis) :
  (length (filter (tierIs TIER1) l) + length (filter (tierIs TIER2) l) +
   length (filter (tierIs TIER3) l) <= length l)%nat.
Proof.
  induction l as [| a l IH]; cbn [filter length]; [lia |].
  change (tierIs TIER1 a)
    with (match tier (composite a) with TIER1 => true | _ => false end).
  change (tierIs TIER2 a)
    with (match tier (composite a) with TIER2 => true | _ => false end).
  change (tierIs TIER3 a)
    with (match tier (composite a) with TIER3 => true | _ => false end).
  destruct (tier (composite a)); cbn [length]; lia.
Qed.

Lemma firstn_filter_Forall {A : Type} (f : A -> bool) (n : nat) (l : list A) :
  Forall (fun a => f a = true) (firstn n (filter f l)).
Proof.
  apply Forall_firstn, Forall_forall. intros a Ha.
  now apply filter_In in Ha.
Qed.

(** X19.  The shape of the lists [run] returns.  Each tier list holds
    only analyses of that tier, is in descending order of total score
    and has at most 10, 20 and 20 entries; the top list is in
    descending order with at most [topN] entries.  The counts of the
    summary are the lengths of the lists, and they chain: the tiers
    together are at most the analysed stocks, these at most the
    filtered ones, these at most the whole market. *)
Theorem run_lists (config : Config) (db : DataSource) (targetDate : string) :
  let r := run config db targetDate in
  let score := fun a => totalScore (composite a) in
  (Forall (fun a => tier (composite a) = TIER1) (tier1 r) /\
   Spec.descendingBy score (tier1 r) /\ (length (tier1 r) <= 10)%nat) /\
  (Forall (fun a => tier (composite a) = TIER2) (tier2 r) /\
   Spec.descendingBy score (tier2 r) /\ (length (tier2 r) <= 20)%nat) /\
  (Forall (fun a => tier (composite a) = TIER3) (tier3 r) /\
   Spec.descendingBy score (tier3 r) /\ (length (tier3 r) <= 20)%nat) /\
  (Spec.descendingBy score (topList r) /\
   (length (topList r) <= topN config)%nat) /\
  (tier1Count (summary r) = length (tier1 r) /\
   tier2Count (summary r) = length (tier2 r) /\
   tier3Count (summary r) = length (tier3 r)) /\
  (tier1Count (summary r) + tier2Count (summary r) + tier3Count (summary r)
   <= analyzedCount (summary r))%nat /\
  (analyzedCount (summary r) <= afterFilter (summary r))%nat /\
  (afterFilter (summary r) <= totalMarket (summary r))%nat.
Proof.
  cbv zeta. unfold run. cbv zeta.
  cbn [tier1 tier2 tier3 topList summary tier1Count tier2Count tier3Count
       analyzedCount afterFilter totalMarket].
  set (allSymbols := _loadAllSymbols db targetDate).
  set (filtered := _applyFilters config (recentRows db) allSymbols targetDate).
  set (analyzed := sortByScore (analyzeAll db targetDate filtered)).
  assert (Spec.descendingBy (fun a => totalScore (composite a)) analyzed) as Hs
    by apply sortDesc_sorted.
  assert (forall t n,
            Forall (fun a => tier (composite a) = t)
                   (firstn n (filter (tierIs t) analyzed)) /\
            Spec.descendingBy (fun a => totalScore (composite a))
                              (firstn n (filter (tierIs t) analyzed)) /\
            (length (firstn n (filter (tierIs t) analyzed)) <= n)%nat) as Htier.
  { intros t n. split; [| split].
    - eapply Forall_impl; [| apply firstn_filter_Forall].
      intros a. apply tierIs_true.
    - now apply descendingBy_firstn, descendingBy_filter.
    - rewrite length_firstn. lia. }
  repeat (split; [apply Htier |]).
  split; [split; [now apply descendingBy_firstn | rewrite length_firstn; lia] |].
  split; [repeat split |].
  split.
  - pose proof (tiers_length analyzed). rewrite !length_firstn. lia.
  - split.
    + subst analyzed. unfold sortByScore. rewrite sortDesc_length.
      apply analyzeAll_length.
    + apply applyFilters_length.
Qed.

(** Every analysis the run sorts comes from a screened symbol. *)
Lemma run_analyzed (config : Config) (db : DataSource) (targetDate : string)
  (a : Analysis) :
  In a (sortByScore
          (analyzeAll db targetDate
             (_applyFilters config (recentRows db)
                (_loadAllSymbols db targetDate) targetDate))) ->
  In (asymbol a) (_loadAllSymbols db targetDate) /\
  passesFilter config (recentRows db) targetDate (asymbol a) = true /\
  _analyzeStock db (asymbol a) targetDate = Some a.
Proof.
  unfold sortByScore. rewrite sortDesc_In, analyzeAll_In.
  intros (symbol & Hin & Ha). apply applyFilters_In in Hin as [Hin Hpass].
  pose proof (analyzeStock_inv db symbol targetDate) as Hinv.
  rewrite Ha in Hinv. cbv zeta in Hinv. destruct Hinv as (_ & <- & _).
  auto.
Qed.

Lemma In_firstn {A : Type} (n : nat) (l : list A) (x : A) :
  In x (firstn n l) -> In x l.
Proof.
  intros H. rewrite <- (firstn_skipn n l). apply in_or_app. now left.
Qed.

(** X20.  Every stock on any of the four lists of [run] was screened:
    its symbol is one of the market's, it passed the liquidity filter
    on the target date, the analysis is the one [_analyzeStock] makes
    of it for that date, from at least 60 bars and without a technical
    error.  Nothing reaches a list any other way. *)
Theorem run_members (config : Config) (db : DataSource) (targetDate : string) :
  let r := run config db targetDate in
  Forall (fun a =>
            In (asymbol a) (_loadAllSymbols db targetDate) /\
            passesFilter config (recentRows db) targetDate (asymbol a) = true /\
            _analyzeStock db (asymbol a) targetDate = Some a /\
            adate a = targetDate /\
            (60 <= length (_getPriceHistory db (asymbol a) 80))%nat /\
            terror (technical a) = None)
         (tier1 r ++ tier2 r ++ tier3 r ++ topList r).
Proof.
  cbv zeta. unfold run. cbv zeta. cbn [tier1 tier2 tier3 topList].
  apply Forall_forall. intros a Ha.
  assert (In a (sortByScore
                  (analyzeAll db targetDate
                     (_applyFilters config (recentRows db)
                        (_loadAllSymbols db targetDate) targetDate)))) as Hin.
  { repeat (apply in_app_or in Ha as [Ha | Ha]);
      apply In_firstn in Ha; try apply filter_In in Ha as [Ha _]; assumption. }
  apply run_analyzed in Hin as (Hm & Hp & Han).
  repeat (split; [assumption |]).
  pose proof (analyzeStock_inv db (asymbol a) targetDate) as Hinv.
  rewrite Han in Hinv. cbv zeta in Hinv.
  destruct Hinv as (Hlen & _ & Hd & _ & Ht & _).
  repeat (split; [assumption |]).
  destruct (scoreTechnical_long _ None Hlen)
    as (vao & mtm & ma & entry & _ & _ & _ & _ & H).
  cbv zeta in H. destruct H as (_ & _ & Hst).
  rewrite Ht, Hst. reflexivity.
Qed.

(** X21.  The lists of [run] are the best of their kind: the analysed
    stocks are the top list followed by others, none of which scores
    above any stock of the top list; and the analysed stocks of each
    tier are that tier's list followed by others, none of which scores
    above any stock of the list. *)
Theorem run_best (config : Config) (db : DataSource) (targetDate : string) :
  let r := run config db targetDate in
  let score := fun a => totalScore (composite a) in
  let analyzed :=
    analyzeAll db targetDate
      (_applyFilters config (recentRows db) (_loadAllSymbols db targetDate)
         targetDate) in
  let best := fun (pool chosen : list Analysis) =>
    exists others,
      Permutation pool (chosen ++ others) /\
      Forall (fun b => Forall (fun a => score b <= score a) chosen) others in
  best analyzed (topList r) /\
  best (filter (tierIs TIER1) analyzed) (tier1 r) /\
  best (filter (tierIs TIER2) analyzed) (tier2 r) /\
  best (filter (tierIs TIER3) analyzed) (tier3 r).
Proof.
  cbv zeta. unfold run. cbv zeta. cbn [tier1 tier2 tier3 topList].
  set (pool := analyzeAll _ _ _).
  assert (Spec.descendingBy (fun a => totalScore (composite a)) (sortByScore pool))
    as Hs by apply sortDesc_sorted.
  assert (Permutation pool (sortByScore pool)) as Hp by apply sortDesc_perm.
  assert (forall t n,
            exists others,
              Permutation (filter (tierIs t) pool)
                (firstn n (filter (tierIs t) (sortByScore pool)) ++ others) /\
              Forall (fun b =>
                        Forall (fun a => totalScore (composite b)
                                         <= totalScore (composite a))
                               (firstn n (filter (tierIs t) (sortByScore pool))))
                     others) as Htier.
  { intros t n. exists (skipn n (filter (tierIs t) (sortByScore pool))). split.
    - rewrite firstn_skipn. now apply filter_perm.
    - apply (firstn_best (fun a => totalScore (composite a))).
      now apply descendingBy_filter. }
  split; [| repeat split; apply Htier].
  exists (skipn (topN config) (sortByScore pool)). split.
  - now rewrite firstn_skipn.
  - now apply (firstn_best (fun a => totalScore (composite a))).
Qed.

(** X22.  TIER1 needs all three dimensions: every stock on the TIER1
    list scores at least 60 on each of them, at least 75 in total, and
    has a row in the [fundamentals] table, because a stock without one
    gets the neutral 50.  So when the table is missing or empty, the
    TIER1 list is empty whatever the prices and the flows are. *)
Theorem run_tier1_needs_fundamentals (config : Config) (db : DataSource)
  (targetDate : string) :
  let r := run config db targetDate in
  Forall (fun a =>
            60 <= tscore (technical a) /\ 60 <= iscore (institutional a) /\
            60 <= fscore (fundamental a) /\ 75 <= totalScore (composite a) /\
            exists data, _getFundamentalData db (asymbol a) = Some data)
         (tier1 r) /\
  ((forall symbol, _getFundamentalData db symbol = None) ->
   tier1 r = [] /\ tier1Count (summary r) = 0%nat).
Proof.
  cbv zeta.
  assert (Forall (fun a =>
            60 <= tscore (technical a) /\ 60 <= iscore (institutional a) /\
            60 <= fscore (fundamental a) /\ 75 <= totalScore (composite a) /\
            exists data, _getFundamentalData db (asymbol a) = Some data)
            (tier1 (run config db targetDate))) as Hall.
  { unfold run. cbv zeta. cbn [tier1].
    apply Forall_forall. intros a Ha.
    apply In_firstn in Ha. apply filter_In in Ha as [Ha Ht].
    apply tierIs_true in Ht.
    apply run_analyzed in Ha as (_ & _ & Han).
    pose proof (analyzeStock_inv db (asymbol a) targetDate) as Hinv.
    rewrite Han in Hinv. cbv zeta in Hinv.
    destruct Hinv as (_ & _ & _ & _ & _ & _ & Hf & Hc).
    rewrite Hc, calculateCompositeScore_tier in Ht. cbv zeta in Ht.
    pose proof (min3_le (tscore (technical a)) (iscore (institutional a))
                  (fscore (fundamental a)) 60) as Hmin.
    destruct (geb_spec
                (JS.Math_round (tscore (technical a) * 0.40 +
                                iscore (institutional a) * 0.30 +
                                fscore (fundamental a) * 0.30)) 75) as [Htot |];
      cbn [andb] in Ht.
    - destruct (geb_spec (JS.Math_min3 (tscore (technical a))
                            (iscore (institutional a)) (fscore (fundamental a))) 60)
        as [Hm |].
      + apply Hmin in Hm as (H1 & H2 & H3).
        repeat (split; [assumption |]).
        split.
        * rewrite Hc, calculateCompositeScore_total.
          unfold JS.Math_min, JS.Math_max.
          set (x := JS.Math_round _) in *.
          destruct (Q.max_spec 0 x) as [[? E1] | [? E1]];
            destruct (Q.min_spec 100 (Qmax 0 x)) as [[? E2] | [? E2]];
            set (m1 := Qmax 0 x) in *; set (m2 := Qmin 100 m1) in *;
            clearbody m2; clearbody m1; lra.
        * destruct (_getFundamentalData db (asymbol a)) as [data |] eqn:E;
            [eauto |].
          rewrite Hf in H3. exfalso.
          apply (Qlt_not_le 50 60); [reflexivity | exact H3].
      + repeat match type of Ht with
               | context [if ?c then _ else _] => destruct c
               end; discriminate.
    - repeat match type of Ht with
             | context [if ?c then _ else _] => destruct c
             end; discriminate. }
  split; [exact Hall |].
  intros Hnone.
  assert (tier1 (run config db targetDate) = []) as E.
  { destruct (tier1 (run config db targetDate)) as [| a l]; [reflexivity |].
    apply Forall_inv in Hall. destruct Hall as (_ & _ & _ & _ & data & Hd).
    rewrite Hnone in Hd. discriminate. }
  split; [exact E |].
  change (tier1Count (summary (run config db targetDate)))
    with (length (tier1 (run config db targetDate))).
  now rewrite E.
Qed.

Lemma run_tier1_needs_fundamentals_witness :
  tier1 (run FILTER_DEFAULTS Samples.quietMarket "2025-03-03") = [] /\
  length (topList (run FILTER_DEFAULTS Samples.quietMarket "2025-03-03")) = 1%nat.
Proof.
  split.
  - apply (run_tier1_needs_fundamentals FILTER_DEFAULTS Samples.quietMarket
             "2025-03-03").
    reflexivity.
  - vm_compute. reflexivity.
Defined.

End ScreenerRun.

(** ** The ledger and the equity curve of a simulation *)

Section SimulationLedger.

Variable _daysBetween : string -> string -> Q.
Variable config : Config.

Local Abbreviation step := (step _daysBetween config).
Local Abbreviation loop := (loop _daysBetween config).
Local Abbreviation _simulate := (_simulate _daysBetween config).





Lemma loop_ok (strategy : Strategy) (data rd bars : list PriceBar) (i : nat)
  (st : SimState) :
  (forall d k, exists b, shouldEntry strategy d k = JS.Ok b) ->
  exists st', loop strategy data rd bars i st = JS.Ok st'.
Proof.
  intros Hentry. revert i st.
  induction bars as [| bar bars IH]; intros i st; cbn [Backtest.loop]; [eauto |].
  unfold Backtest.step.
  destruct (position st) as [pos |]; cbn [JS.bind]; [apply IH |].
  destruct (Hentry rd (length data - 1 - i)%nat) as [b ->]. cbn [JS.bind].
  apply IH.
Qed.


Lemma simulate_ok (type : StrategyType) (params : Params) (data : list PriceBar) :
  exists ledger curve,
    _simulate (_createStrategy type params) data = JS.Ok (ledger, curve).
Proof.
  destruct (loop_ok (_createStrategy type params) data (rev data) data 0
              (initialState config) (shouldEntry_ok type params)) as [st Hst].
  unfold Backtest._simulate. rewrite Hst. cbn [JS.bind].
  destruct (position st), (nth_error data (length data - 1)); eauto.
Qed.


(** While the entry rule says no, the loop only records the capital. *)
Lemma loop_flat (strategy : Strategy) (data rd bars : list PriceBar) (i : nat)
  (st : SimState) :
  (forall k, shouldEntry strategy rd k = JS.Ok false) ->
  position st = None ->
  exists st',
    loop strategy data rd bars i st = JS.Ok st' /\
    capital st' = capital st /\ position st' = None /\
    trades st' = trades st /\
    equityCurve st'
    = equityCurve st ++ repeat (JS.Math_round (capital st + 0)) (length bars).
Proof.
  intros Hno. revert i st.
  induction bars as [| bar bars IH]; intros i st Hflat; cbn [Backtest.loop].
  - exists st. cbn [length repeat]. rewrite app_nil_r. auto.
  - unfold Backtest.step. rewrite Hflat, Hno. cbn [JS.bind Backtest.stepFlat].
    destruct (IH (S i) (recordEquity bar st) Hflat)
      as (st' & Hrun & Hcap & Hpos & Htr & Hcurve).
    exists st'. split; [exact Hrun |].
    cbn [recordEquity capital trades equityCurve] in Hcap, Htr, Hcurve.
    repeat (split; [assumption |]).
    rewrite Hcurve, Hflat, <- app_assoc. reflexivity.
Qed.

(** X24.  A series with no more bars than the look-back of the
    strategy trades nothing: the ledger is empty and the equity curve
    is flat, one point per bar at the (rounded) initial capital. *)
Theorem simulate_short_series (type : StrategyType) (params : Params)
  (data : list PriceBar) :
  (length data <= Spec.requiredLookback type params)%nat ->
  _simulate (_createStrategy type params) data
  = JS.Ok ([], repeat (JS.Math_round (initialCapital config)) (length data)).
Proof.
  intros Hshort.
  assert (forall k, shouldEntry (_createStrategy type params) (rev data) k
                    = JS.Ok false) as Hno.
  { intros k. unfold Spec.requiredLookback in Hshort.
    destruct type;
      cbn [_createStrategy MACrossStrategy VAOBreakoutStrategy shouldEntry];
      unfold MACross_shouldEntry, VAOBreakout_shouldEntry;
      rewrite length_rev;
      match goal with
      | |- context [(?a <=? ?b)%nat] =>
          destruct (Nat.leb_spec a b); [reflexivity | lia]
      end. }
  destruct (loop_flat (_createStrategy type params) data (rev data) data 0
              (initialState config) Hno eq_refl)
    as (st & Hrun & _ & Hpos & Htr & Hcurve).
  unfold Backtest._simulate. rewrite Hrun. cbn [JS.bind].
  rewrite Hpos, Htr, Hcurve. cbn [initialState trades equityCurve capital app].
  rewrite (Math_round_comp (initialCapital config + 0) (initialCapital config))
    by lra.
  reflexivity.
Qed.

End SimulationLedger.

Lemma simulate_short_series_witness :
  Backtest._simulate (fun _ _ => 0) DEFAULT_CONFIG
    (_createStrategy VAO_BREAKOUT noParams) Samples.shortSeries
  = JS.Ok ([], repeat 1000000 5).
Proof.
  apply (simulate_short_series (fun _ _ => 0) DEFAULT_CONFIG VAO_BREAKOUT noParams
           Samples.shortSeries).
  cbn. lia.
Defined.

(** ** Single and batch runs of the engine *)

Section EngineRun.

Variable _daysBetween : string -> string -> Q.
Variable Math_sqrt : Q -> Q.
Variable config : Config.
Variable db : PriceSource.

Local Abbreviation run := (run _daysBetween Math_sqrt config db).
Local Abbreviation runBatch := (runBatch _daysBetween Math_sqrt config db).
Local Abbreviation batchReports := (batchReports _daysBetween Math_sqrt config db).

Lemma run_inv (symbol startDate endDate : string)
  (strategyConfig : StrategyConfig) :
  let type := match stype strategyConfig with Some t => t | None => CUSTOM end in
  let params :=
    match sparams strategyConfig with Some p => p | None => noParams end in
  match db symbol startDate endDate with
  | None => run symbol startDate endDate strategyConfig = Failed LoadFailed
  | Some priceData =>
      if (length priceData <? 30)%nat
      then run symbol startDate endDate strategyConfig
           = Failed (TooFewData (length priceData))
      else
        exists ledger curve,
          _simulate _daysBetween config (_createStrategy type params) priceData
          = JS.Ok (ledger, curve) /\
          run symbol startDate endDate strategyConfig
          = Completed
              {| bsymbol := symbol; bstartDate := startDate; bendDate := endDate;
                 strategyType := type;
                 strategyParams := params;
                 bconfig := config;
                 tradingDays := length priceData;
                 performance :=
                   calculatePerformance Math_sqrt ledger curve config;
                 btrades := ledger |}
  end.
Proof.
  intros type params. unfold Backtest.run.
  destruct (db symbol startDate endDate) as [priceData |]; [| reflexivity].
  destruct (length priceData <? 30)%nat; [reflexivity |].
  fold type. fold params.
  destruct (simulate_ok _daysBetween config type params priceData)
    as (ledger & curve & Hrun).
  exists ledger, curve. split; [exact Hrun |]. now rewrite Hrun.
Qed.

(** X25.  The outcomes of [run].  It fails when the price query
    throws and when the query returns fewer than 30 rows, and in no
    other case: with 30 rows or more the simulation never raises, and
    the report carries the symbol and the dates asked for, the number
    of rows as trading days, the strategy type (CUSTOM when none is
    named, which runs the moving-average cross), the ledger of the
    simulation and the performance computed from that ledger. *)
Theorem run_outcome (symbol startDate endDate : string)
  (strategyConfig : StrategyConfig) :
  let type := match stype strategyConfig with Some t => t | None => CUSTOM end in
  let params :=
    match sparams strategyConfig with Some p => p | None => noParams end in
  (db symbol startDate endDate = None <->
   run symbol startDate endDate strategyConfig = Failed LoadFailed) /\
  (forall n,
     (exists priceData,
        db symbol startDate endDate = Some priceData /\
        length priceData = n /\ (n < 30)%nat) <->
     run symbol startDate endDate strategyConfig = Failed (TooFewData n)) /\
  (forall e, run symbol startDate endDate strategyConfig <> Failed (Raised e)) /\
  (forall priceData,
     db symbol startDate endDate = Some priceData ->
     (30 <= length priceData)%nat ->
     exists report curve,
       run symbol startDate endDate strategyConfig = Completed report /\
       bsymbol report = symbol /\ bstartDate report = startDate /\
       bendDate report = endDate /\
       tradingDays report = length priceData /\
       strategyType report = type /\
       _simulate _daysBetween config (_createStrategy type params) priceData
       = JS.Ok (btrades report, curve) /\
       performance report
       = calculatePerformance Math_sqrt (btrades report) curve config /\
       (type = CUSTOM ->
        _createStrategy type params = _createStrategy MA_CROSS params)).
Proof.
  intros type params.
  pose proof (run_inv symbol startDate endDate strategyConfig) as Hinv.
  cbv zeta in Hinv. fold type in Hinv. fold params in Hinv.
  destruct (db symbol startDate endDate) as [priceData |].
  - destruct (Nat.ltb_spec (length priceData) 30) as [Hlt | Hge].
    + rewrite Hinv. split; [split; discriminate |].
      split; [| split; [discriminate |]].
      * intros n. split.
        -- intros (pd & E & <- & _). injection E as <-. reflexivity.
        -- intros E. injection E as <-. exists priceData. auto.
      * intros pd E. injection E as <-. lia.
    + destruct Hinv as (ledger & curve & Hsim & ->).
      split; [split; discriminate |].
      split; [| split; [discriminate |]].
      * intros n. split; [| discriminate].
        intros (pd & E & <- & Hn). injection E as <-. lia.
      * intros pd E _. injection E as <-.
        eexists. exists curve. split; [reflexivity |].
        cbn [bsymbol bstartDate bendDate tradingDays strategyType btrades
             performance].
        repeat (split; [reflexivity || assumption |]).
        intros ->. reflexivity.
  - rewrite Hinv. split; [split; reflexivity |].
    split; [| split; [discriminate |]].
    + intros n. split; [| discriminate].
      intros (pd & E & _). discriminate.
    + intros pd E. discriminate.
Qed.

Lemma batchReports_In (symbols : list string) (startDate endDate : string)
  (strategyConfig : StrategyConfig) (r : BacktestReport) :
  In r (batchReports symbols startDate endDate strategyConfig) <->
  exists symbol,
    In symbol symbols /\
    run symbol startDate endDate strategyConfig = Completed r.
Proof.
  induction symbols as [| s rest IH]; cbn [Backtest.batchReports In].
  - split; [tauto | intros (? & [] & _)].
  - destruct (run s startDate endDate strategyConfig) as [report | why] eqn:E;
      cbn [In]; rewrite IH.
    + split.
      * intros [<- | (x & ? & ?)]; eauto.
      * intros (x & [<- | ?] & ?); [left; congruence | eauto].
    + split.
      * intros (x & ? & ?); eauto.
      * intros (x & [<- | ?] & ?); [congruence | eauto].
Qed.

Lemma batchReports_length (symbols : list string) (startDate endDate : string)
  (strategyConfig : StrategyConfig) :
  (length (batchReports symbols startDate endDate strategyConfig)
   <= length symbols)%nat.
Proof.
  induction symbols as [| s rest IH]; cbn [Backtest.batchReports length]; [lia |].
  destruct (run s startDate endDate strategyConfig); cbn [length]; lia.
Qed.

(** X26.  [runBatch] returns the reports of the runs that complete,
    best return first: the list is in descending order of total return
    in percent; a report is on it exactly when it is the completed run
    of one of the symbols; a symbol has a report exactly when its
    price query succeeds with at least 30 rows; failed runs are
    dropped, so the list is at most as long as the list of symbols. *)
Theorem runBatch_reports (symbols : list string) (startDate endDate : string)
  (strategyConfig : StrategyConfig) :
  let reports := runBatch symbols startDate endDate strategyConfig in
  Spec.descendingBy (fun r => totalReturnPct (performance r)) reports /\
  (length reports <= length symbols)%nat /\
  (forall r,
     In r reports <->
     exists symbol,
       In symbol symbols /\
       run symbol startDate endDate strategyConfig = Completed r) /\
  Forall (fun symbol =>
            (exists r, In r reports /\ bsymbol r = symbol) <->
            (exists priceData,
               db symbol startDate endDate = Some priceData /\
               (30 <= length priceData)%nat))
         symbols.
Proof.
  cbv zeta. unfold Backtest.runBatch.
  split; [apply sortDesc_sorted |].
  split; [rewrite sortDesc_length; apply batchReports_length |].
  assert (forall r,
            In r (Arr.sortDesc (fun r => totalReturnPct (performance r))
                    (batchReports symbols startDate endDate strategyConfig)) <->
            exists symbol,
              In symbol symbols /\
              run symbol startDate endDate strategyConfig = Completed r) as Hin.
  { intros r. rewrite sortDesc_In. apply batchReports_In. }
  split; [exact Hin |].
  apply Forall_forall. intros symbol Hs.
  pose proof (run_inv symbol startDate endDate strategyConfig) as Hinv.
  cbv zeta in Hinv.
  split.
  - intros (r & Hr & Hsym). apply Hin in Hr as (s' & _ & Hrun).
    pose proof (run_inv s' startDate endDate strategyConfig) as Hinv'.
    cbv zeta in Hinv'.
    destruct (db s' startDate endDate) as [pd |] eqn:Edb;
      [| rewrite Hinv' in Hrun; discriminate].
    destruct (Nat.ltb_spec (length pd) 30);
      [rewrite Hinv' in Hrun; discriminate |].
    destruct Hinv' as (ledger & curve & _ & Hc). rewrite Hc in Hrun.
    injection Hrun as <-. cbn [bsymbol] in Hsym. subst s'. eauto.
  - intros (pd & Edb & Hlen). rewrite Edb in Hinv.
    destruct (Nat.ltb_spec (length pd) 30); [lia |].
    destruct Hinv as (ledger & curve & _ & Hc).
    eexists. split; [apply Hin; exists symbol; split; [exact Hs | exact Hc] |].
    reflexivity.
Qed.

End EngineRun.

(** ** Counts and monthly totals of the performance report *)

Section PerformanceCounts.

Variable Math_sqrt : Q -> Q.








End PerformanceCounts.

(** ** Monthly returns *)

Section MonthlyReturns.

(** The trades the monthly loop counts: closed, with a non-zero profit. *)
Local Abbreviation counted :=
  (filter (fun t => hasExitDate t && negb (Qeq_bool (pnl t) 0))).

Local Abbreviation tradeCount :=
  (fun months => fold_right Nat.add 0%nat (map mtrades months)).
















End MonthlyReturns.

(** ** What the entry rules test *)

Section EntryRules.










End EntryRules.
